(** * ClickUp MCP server: time tracking, period resolution and name resolution

    A shallow embedding of the time-tracking core of the ClickUp MCP server
    (TypeScript) and the properties of it that its specification states.

    The repository carries two generations of the time-tracking modules:

    - [Tools] / [Service] : [src/tools/timetracking.ts] and
      [src/services/clickup/timetracking.ts] (the report tool, the exported
      [getDateRangeForPeriod] and [formatDuration]);
    - [Summary] / [ServiceV2] : the tool module that [server.ts] imports its
      handlers from ([handleStartTimer], [handleGetTimeTrackingSummary],
      [handleGetCurrentTimer], [findTaskIDByName]) and the service class with
      the [startTimer(taskId, options)] signature those handlers call.

    Conventions of the embedding:

    - durations and epoch instants are integer milliseconds ([Z]); JavaScript
      arithmetic on them is exact below 2^53;
    - a string holds the UTF-8 bytes of the JavaScript string; the host's
      [Date] and [String.prototype.toLowerCase] are taken from the host
      ([Calendar], [JS.CaseMapping]), with [UTC.calendar] and
      [Latin1.caseMapping] as hosts to run the code on;
    - the quotients that feed [Math.round] are IEEE-754 binary64 values, the
      kernel's [float];
    - an [async] function is a function of the upstream state returning an
      [Outcome] (value or thrown error) and the next upstream state;
    - a JavaScript object used as a dictionary is an association list in
      insertion order. *)

From Stdlib Require Import ZArith List String Ascii Bool Lia.
From Stdlib Require Import DecimalString DecimalPos Floats.
From Stdlib Require Import Permutation Sorted.
Import ListNotations.

Set Implicit Arguments.
Open Scope string_scope.
Open Scope Z_scope.

(* ================================================================== *)
(** * JavaScript primitives used by the source                         *)
(* ================================================================== *)

Module JS.

(** The double-quote character inside a message. *)
Definition dq : string := String (ascii_of_nat 34) EmptyString.

(** [String(n)] / template interpolation of an integer Number. *)
Definition toString (z : Z) : string := NilZero.string_of_int (Z.to_int z).

(** White space as [String.prototype.trim] sees it (ASCII part). *)
Definition isWhite (c : ascii) : bool :=
  let n := nat_of_ascii c in
  (Nat.eqb n 32 || Nat.eqb n 9 || Nat.eqb n 10 || Nat.eqb n 11
   || Nat.eqb n 12 || Nat.eqb n 13)%bool.

Fixpoint trimStartL (l : list ascii) : list ascii :=
  match l with
  | [] => []
  | c :: r => if isWhite c then trimStartL r else l
  end.

Definition trimEndL (l : list ascii) : list ascii := rev (trimStartL (rev l)).

(** [String.prototype.trim]. *)
Definition trim (s : string) : string :=
  string_of_list_ascii (trimEndL (trimStartL (list_ascii_of_string s))).

(** A [string] holds the UTF-8 bytes of a JavaScript string.  Text made of
    ASCII characters only: every byte is below 128. *)
Definition isAscii (s : string) : bool :=
  forallb (fun c => Nat.ltb (nat_of_ascii c) 128) (list_ascii_of_string s).

(** A-Z become a-z; every other byte is left as it is. *)
Definition lowerChar (c : ascii) : ascii :=
  let n := nat_of_ascii c in
  if (Nat.leb 65 n && Nat.leb n 90)%bool then ascii_of_nat (n + 32) else c.

Fixpoint lowerAscii (s : string) : string :=
  match s with
  | EmptyString => EmptyString
  | String c r => String (lowerChar c) (lowerAscii r)
  end.

(** [String.prototype.toLowerCase] is the host's: the Unicode default case
    conversion of the whole text, which maps every cased letter (accented,
    Greek, Cyrillic, ...).  The embedding takes it from the host and fixes
    only what it does to ASCII text: A-Z become a-z and nothing else
    changes. *)
Class CaseMapping := {
  toLowerCase : string -> string;
  toLowerCase_ascii :
    forall s, isAscii s = true -> toLowerCase s = lowerAscii s
}.

(** Truthiness of a string ([if (s)], [!s], [a || b]). *)
Definition truthyS (s : string) : bool := negb (String.eqb s EmptyString).

(** Truthiness of an optional string (absent parameter = [undefined]). *)
Definition truthyO (o : option string) : bool :=
  match o with Some s => truthyS s | None => false end.

(** A Number holding the integer [z]. *)
Definition num (z : Z) : float :=
  SF2Prim (binary_normalize prec emax z 0 false).

(** [Math.round]: NaN, the infinities and the zeros are returned unchanged;
    a finite non-zero value goes to the nearest integer, ties upwards. *)
Definition Math_round (x : float) : float :=
  match Prim2SF x with
  | S754_finite s m e =>
      let v := if s then Z.neg m else Z.pos m in
      let r := if 0 <=? e then v * 2 ^ e
               else (2 * v + 2 ^ (- e)) / 2 ^ (1 - e) in
      if (r =? 0) && s then (-0)%float else num r
  | _ => x
  end.

(** [Number.isNaN] and [Number.isFinite]. *)
Definition isNaN (x : float) : bool :=
  match Prim2SF x with S754_nan => true | _ => false end.

Definition isFinite (x : float) : bool :=
  match Prim2SF x with
  | S754_zero _ | S754_finite _ _ _ => true
  | _ => false
  end.

(** [text.includes(piece)] as a prefix test at some position. *)
Fixpoint includes (piece s : string) : bool :=
  if String.prefix piece s then true
  else match s with
       | EmptyString => false
       | String _ r => includes piece r
       end.


(** [parseInt(text)]: leading white space, a sign, an optional [0x], then
    the longest run of digits; [None] is [NaN]. *)
Definition digitOf (radix : Z) (c : ascii) : option Z :=
  let n := Z.of_nat (nat_of_ascii c) in
  let d := if (48 <=? n) && (n <=? 57) then n - 48
           else if (97 <=? n) && (n <=? 122) then n - 87
           else if (65 <=? n) && (n <=? 90) then n - 55
           else radix in
  if d <? radix then Some d else None.

Fixpoint digitsFrom (radix : Z) (acc : option Z) (l : list ascii) : option Z :=
  match l with
  | [] => acc
  | c :: r =>
      match digitOf radix c with
      | Some d =>
          digitsFrom radix
            (Some (radix * (match acc with Some a => a | None => 0 end) + d)) r
      | None => acc
      end
  end.

Definition parseInt (text : string) : option Z :=
  let l := trimStartL (list_ascii_of_string text) in
  let '(neg, l) :=
    match l with
    | "-"%char :: r => (true, r)
    | "+"%char :: r => (false, r)
    | _ => (false, l)
    end in
  let '(radix, l) :=
    match l with
    | "0"%char :: "x"%char :: r => (16, r)
    | "0"%char :: "X"%char :: r => (16, r)
    | _ => (10, l)
    end in
  match digitsFrom radix None l with
  | Some v => Some (if neg then - v else v)
  | None => None
  end.

End JS.

(** A reference host for text in the Latin-1 repertoire. *)
Module Latin1.

(** Lower-casing on the UTF-8 bytes: A-Z, and the capitals U+00C0 to
    U+00DE other than the multiplication sign U+00D7, which are the byte
    195 followed by a byte from 128 to 158 other than 151, and become the
    byte 195 followed by that byte plus 32. *)
Fixpoint lower (s : string) : string :=
  match s with
  | EmptyString => EmptyString
  | String c r =>
      if Nat.eqb (nat_of_ascii c) 195 then
        match r with
        | EmptyString => String c EmptyString
        | String d r' =>
            let n := nat_of_ascii d in
            String c
              (String
                 (if (Nat.leb 128 n && Nat.leb n 158
                      && negb (Nat.eqb n 151))%bool
                  then ascii_of_nat (n + 32) else d)
                 (lower r'))
        end
      else String (JS.lowerChar c) (lower r)
  end.

Definition caseMapping : JS.CaseMapping.
Proof.
  refine {| JS.toLowerCase := lower |}.
  induction s as [|c r IH]; intros H; [reflexivity|].
  unfold JS.isAscii in H. cbn [list_ascii_of_string forallb] in H.
  apply andb_prop in H. destruct H as [Hc Hr].
  cbn [lower JS.lowerAscii].
  destruct (Nat.eqb_spec (nat_of_ascii c) 195) as [E|E].
  - rewrite E in Hc. discriminate Hc.
  - f_equal. apply IH. exact Hr.
Defined.

End Latin1.

(* ================================================================== *)
(** * Errors, outcomes and asynchronous computations                   *)
(* ================================================================== *)

(** [ErrorCode] of [services/clickup/base.ts], as [handleApiError] uses it. *)
Inductive ErrorCode :=
| UNKNOWN | UNAUTHORIZED | NOT_FOUND | RATE_LIMIT | VALIDATION
| SERVER_ERROR | NETWORK_ERROR.

(** The values the source throws and catches: a plain [Error], an axios
    error (with [error.response.status] when the service answered, and
    whether [error.request] is set) and a [ClickUpServiceError]. *)
Inductive Error :=
| PlainError (message : string)
| AxiosError (message : string) (response : option Z) (request : bool)
| ClickUpServiceError (message : string) (code : ErrorCode) (status : option Z).

(** [error.message]. *)
Definition message (e : Error) : string :=
  match e with
  | PlainError m => m
  | AxiosError m _ _ => m
  | ClickUpServiceError m _ _ => m
  end.

(** [error.response && error.response.status]; a [ClickUpServiceError]
    carries a [status] of its own and no [response]. *)
Definition response_status (e : Error) : option Z :=
  match e with
  | AxiosError _ r _ => r
  | _ => None
  end.

Inductive Outcome (A : Type) :=
| Return (a : A)
| Throw (e : Error).

Arguments Return {A} a.
Arguments Throw {A} e.

Module Async.
Section Async.

(** The state of everything outside the process: the remote service. *)
Variable W : Type.

(** An [async] function body: runs against the upstream state, resolves
    or rejects. [await] is [bind]. *)
Definition Async (A : Type) : Type := W -> Outcome A * W.

Definition ret {A} (a : A) : Async A := fun w => (Return a, w).

Definition throw {A} (e : Error) : Async A := fun w => (Throw e, w).

Definition bind {A B} (m : Async A) (k : A -> Async B) : Async B :=
  fun w =>
    match m w with
    | (Return a, w') => k a w'
    | (Throw e, w') => (Throw e, w')
    end.

(** [try { m } catch (error) { h error }]. *)
Definition tryCatch {A} (m : Async A) (h : Error -> Async A) : Async A :=
  fun w =>
    match m w with
    | (Return a, w') => (Return a, w')
    | (Throw e, w') => h e w'
    end.

(** A synchronous computation that may throw, used inside an [async] body. *)
Definition lift {A} (o : Outcome A) : Async A := fun w => (o, w).

End Async.
End Async.

Import Async.

Declare Scope async_scope.
Delimit Scope async_scope with async.
Notation "x <- m ;; k" := (bind m (fun x => k))
  (at level 61, m at next level, right associativity) : async_scope.

(* ================================================================== *)
(** * The host's [Date]                                                *)
(* ================================================================== *)

(** The local-time view of an instant and the local-time constructor, as the
    host's [Date] provides them.  [month] is 0-based, [day] is the weekday
    with Sunday = 0. *)
Record LocalTime := {
  year : Z; month : Z; date : Z; day : Z;
  hours : Z; minutes : Z; seconds : Z; millis : Z
}.

Class Calendar := {
  (** [getFullYear()], [getMonth()], [getDate()], [getDay()], ... of the
      [Date] whose [getTime()] is the argument. *)
  localTime : Z -> LocalTime;
  (** [new Date(y, m, d, h, mi, s, ms).getTime()] for a four-digit year,
      with the overflow of each field carried into the next. *)
  makeDate : Z -> Z -> Z -> Z -> Z -> Z -> Z -> Z;
  (** [date.toLocaleString()]. *)
  toLocaleString : Z -> string;
  (** [date.toISOString()]. *)
  toISOString : Z -> string
}.

Module DateOps.
Section DateOps.
Context {cal : Calendar}.

Definition getFullYear (t : Z) : Z := year (localTime t).
Definition getMonth (t : Z) : Z := month (localTime t).
Definition getDate (t : Z) : Z := date (localTime t).
Definition getDay (t : Z) : Z := day (localTime t).

(** [new Date(y, m, d)]. *)
Definition newDate3 (y m d : Z) : Z := makeDate y m d 0 0 0 0.

(** [t.setDate(d)]: same local month and time of day, day of month [d]. *)
Definition setDate (t d : Z) : Z :=
  let l := localTime t in
  makeDate (year l) (month l) d (hours l) (minutes l) (seconds l) (millis l).

(** [t.setHours(h, mi, s, ms)]. *)
Definition setHours (t h mi s ms : Z) : Z :=
  let l := localTime t in
  makeDate (year l) (month l) (date l) h mi s ms.

End DateOps.
End DateOps.

(** A reference host: the proleptic Gregorian calendar of a process whose
    time zone is UTC. *)
Module UTC.

Definition msPerDay : Z := 86400000.

(** Day number (days since 1970-01-01) of the first of month [m] (0-based,
    any integer) in year [y]. *)
Definition dayFromYearMonth (y m : Z) : Z :=
  let ym := y + m / 12 in
  let mn := m mod 12 + 1 in
  let y' := if mn <=? 2 then ym - 1 else ym in
  let era := y' / 400 in
  let yoe := y' - era * 400 in
  let doy := (153 * (if 2 <? mn then mn - 3 else mn + 9) + 2) / 5 in
  let doe := yoe * 365 + yoe / 4 - yoe / 100 + doy in
  era * 146097 + doe - 719468.

Definition utcMakeDate (y m d h mi s ms : Z) : Z :=
  (dayFromYearMonth y m + d - 1) * msPerDay
  + h * 3600000 + mi * 60000 + s * 1000 + ms.

Definition utcLocalTime (t : Z) : LocalTime :=
  let z := t / msPerDay in
  let r := t mod msPerDay in
  let z' := z + 719468 in
  let era := z' / 146097 in
  let doe := z' - era * 146097 in
  let yoe := (doe - doe / 1460 + doe / 36524 - doe / 146096) / 365 in
  let doy := doe - (365 * yoe + yoe / 4 - yoe / 100) in
  let mp := (5 * doy + 2) / 153 in
  let d := doy - (153 * mp + 2) / 5 + 1 in
  let m := if mp <? 10 then mp + 3 else mp - 9 in
  let y := yoe + era * 400 + (if m <=? 2 then 1 else 0) in
  {| year := y; month := m - 1; date := d; day := (z + 4) mod 7;
     hours := r / 3600000; minutes := (r / 60000) mod 60;
     seconds := (r / 1000) mod 60; millis := r mod 1000 |}.

(** The renderings only need to be some fixed text of the instant. *)
Definition render (t : Z) : string :=
  let l := utcLocalTime t in
  (JS.toString (month l + 1) ++ "/" ++ JS.toString (date l) ++ "/"
   ++ JS.toString (year l) ++ ", " ++ JS.toString (hours l) ++ ":"
   ++ JS.toString (minutes l) ++ ":" ++ JS.toString (seconds l))%string.

Definition calendar : Calendar :=
  {| localTime := utcLocalTime; makeDate := utcMakeDate;
     toLocaleString := render; toISOString := render |}.

End UTC.

(* ================================================================== *)
(** * Data exchanged with the service                                  *)
(* ================================================================== *)

(** [TimeEntry]. The service sends [start], [end] and [duration] as decimal
    strings of milliseconds; the embedding keeps the integer such a string
    denotes ([parseInt] of it).  Fields the handlers default with [||] are
    optional. *)
Record TimeEntry := {
  entry_id : string;
  entry_task_id : string;
  entry_task_name : string;
  entry_task_url : option string;
  entry_start : Z;
  entry_end : option Z;
  entry_duration : option Z;
  entry_description : option string;
  entry_billable : option bool;
  entry_tags : option (list string)
}.

(** [TimeReportData.tasks[taskId]]. *)
Record TaskTime := {
  tt_id : string;
  tt_name : string;
  tt_time : Z
}.

(** [TimeReportData]: one record per user.  [ur_tasks] is the [tasks]
    object, listed in the order [for (const taskId in userData.tasks)]
    enumerates it. *)
Record TimeReportData := {
  ur_user : string;
  ur_time : Z;
  ur_tasks : list (string * TaskTime)
}.

(** [TimeReport]: [data] may be missing from what the service answered. *)
Record TimeReport := {
  report_data : option (list TimeReportData)
}.

(** A task as [taskService.getTasks] lists it. *)
Record Task := {
  task_id : string;
  task_name : string
}.

(** What [taskService.getTask] answers, as far as the summary reads it. *)
Record TaskDetail := {
  td_name : string;
  td_list_id : string;
  td_list_name : string;
  td_space_id : string;
  td_space_name : string
}.

(** Nodes of the workspace hierarchy. *)
Inductive NodeType := SpaceT | FolderT | ListT | TaskT.

#[warnings="-register-all"]
Inductive Node := {
  node_id : string;
  node_name : string;
  node_type : NodeType;
  node_children : list Node
}.

(** [WorkspaceTree]: [hierarchy.root.children] are the spaces. *)
Record Hierarchy := {
  root_children : list Node
}.

Definition isType (t : NodeType) (n : Node) : bool :=
  match t, node_type n with
  | SpaceT, SpaceT | FolderT, FolderT | ListT, ListT | TaskT, TaskT => true
  | _, _ => false
  end.

(** [xs.sort((a, b) => b.time - a.time)]: a stable sort under a comparator;
    [a] stays before [b] unless [cmp a b > 0]. *)
Section Sort.
Variable A : Type.
Variable cmp : A -> A -> Z.

Fixpoint insertSorted (x : A) (l : list A) : list A :=
  match l with
  | [] => [x]
  | y :: r => if cmp x y <=? 0 then x :: l else y :: insertSorted x r
  end.

Fixpoint sortBy (l : list A) : list A :=
  match l with
  | [] => []
  | x :: r => insertSorted x (sortBy r)
  end.
End Sort.

(* ================================================================== *)
(** * [src/tools/timetracking.ts]                                       *)
(* ================================================================== *)

Module Tools.

Import JS DateOps.

Record DateRange := {
  start_date : Z;
  end_date : Z
}.

(** [formatDuration(ms)]: [Math.floor(a / b)] on integers is [Z.div], [%]
    is the truncating remainder [Z.rem]; [result] is threaded through the
    three [if]s as in the source. *)
Definition formatDuration (ms : Z) : string :=
  if ms =? 0 then "0m"
  else
    let seconds := ms / 1000 in
    let minutes := seconds / 60 in
    let hours := minutes / 60 in
    let days := hours / 24 in
    let remainingHours := Z.rem hours 24 in
    let remainingMinutes := Z.rem minutes 60 in
    let result := EmptyString in
    let result :=
      if 0 <? days then result ++ toString days ++ "d " else result in
    let result :=
      if (0 <? remainingHours) || (0 <? days)
      then result ++ toString remainingHours ++ "h " else result in
    let result :=
      if (0 <? remainingMinutes) || String.eqb result EmptyString
      then result ++ toString remainingMinutes ++ "m" else result in
    trim result.

Section Resolver.
Context {cal : Calendar}.

(** [getDateRangeForPeriod(period)]; [now] is the value of [new Date()]. *)
Definition getDateRangeForPeriod (now : Z) (period : string)
  : Outcome DateRange :=
  let today := newDate3 (getFullYear now) (getMonth now) (getDate now) in
  let result := {| start_date := 0; end_date := now |} in
  if String.eqb period "today" then
    Return {| start_date := today; end_date := end_date result |}
  else if String.eqb period "yesterday" then
    let yesterday := today in
    let yesterday := setDate yesterday (getDate yesterday - 1) in
    Return {| start_date := yesterday; end_date := today - 1 |}
  else if String.eqb period "this_week" then
    let startOfWeek := setDate today (getDate today - getDay today) in
    Return {| start_date := startOfWeek; end_date := end_date result |}
  else if String.eqb period "last_week" then
    let lastWeekStart := setDate today (getDate today - getDay today - 7) in
    let lastWeekEnd := setDate today (getDate today - getDay today - 1) in
    let lastWeekEnd := setHours lastWeekEnd 23 59 59 999 in
    Return {| start_date := lastWeekStart; end_date := lastWeekEnd |}
  else if String.eqb period "this_month" then
    let startOfMonth := newDate3 (getFullYear now) (getMonth now) 1 in
    Return {| start_date := startOfMonth; end_date := end_date result |}
  else if String.eqb period "last_month" then
    let startOfLastMonth :=
      newDate3 (getFullYear now) (getMonth now - 1) 1 in
    let endOfLastMonth :=
      makeDate (getFullYear now) (getMonth now) 0 23 59 59 999 in
    Return {| start_date := startOfLastMonth; end_date := endOfLastMonth |}
  else
    Throw (PlainError ("Invalid period: " ++ period)).

End Resolver.

(** [TaskTimeSummary]. *)
Record TaskTimeSummary := {
  taskId : string;
  taskName : string;
  time : Z;
  timeFormatted : string;
  percentage : float
}.

(** The body of [for (const taskId in userData.tasks)]: the percentage is
    taken against [totalTime] as it stands when the task is reached. *)
Definition summarize (totalTime : Z) (kv : string * TaskTime)
  : TaskTimeSummary :=
  let taskData := snd kv in
  {| taskId := tt_id taskData;
     taskName := tt_name taskData;
     time := tt_time taskData;
     timeFormatted := formatDuration (tt_time taskData);
     percentage :=
       Math_round (num (tt_time taskData) / num totalTime * 100)%float |}.

(** The body of [for (const userData of report.data)]. *)
Definition processUser (acc : Z * list TaskTimeSummary)
  (userData : TimeReportData) : Z * list TaskTimeSummary :=
  let totalTime := fst acc + ur_time userData in
  (totalTime, (snd acc ++ map (summarize totalTime) (ur_tasks userData))%list).

(** Lines 153-175 of the handler: [totalTime] and the sorted
    [taskSummaries] of a fetched report ([report && report.data]). *)
Definition aggregate (report : option TimeReport)
  : Z * list TaskTimeSummary :=
  let '(totalTime, taskSummaries) :=
    match report with
    | Some {| report_data := Some data |} =>
        fold_left processUser data (0, [])
    | _ => (0, [])
    end in
  (totalTime, sortBy (fun a b => time b - time a) taskSummaries).

(** What the report tool serialises. *)
Record ReportResult := {
  rr_period : string;
  rr_start : string;
  rr_end : string;
  rr_total_time : string;
  rr_tasks : list TaskTimeSummary
}.

(** The current-timer tool's three answers. *)
Inductive CurrentTimerStatus :=
| NoTimerRunning
| TimerRunning (task_id task_name started running_for description : string)
    (billable : bool) (tags : list string)
| StatusError (message : string).

(** The start-timer tool's two answers. *)
Inductive StartTimerStatus :=
| TimerStarted (task_id task_name started_at description : string)
| StartError (message : string).

(** [StartTimerParams] of the tool. *)
Record StartTimerParams := {
  p_taskId : option string;
  p_taskName : option string;
  p_listName : option string;
  p_description : option string;
  p_billable : option bool;
  p_tags : option (list string)
}.

(** [StartTimerParams] of the service. *)
Record ServiceStartTimerParams := {
  sp_task_id : string;
  sp_description : option string;
  sp_billable : option bool;
  sp_tags : option (list string)
}.

Section Handlers.
Context {cal : Calendar} {fold : CaseMapping}.
Variable W : Type.

(** The clock ([new Date()], [Date.now()]). *)
Variable clock : W -> Z.

(** The shared service instances of [services/shared.js]. *)
Variable getTimeTrackingReport : DateRange -> Async W (option TimeReport).
Variable getCurrentTimer : Async W (option TimeEntry).
Variable startTimer : ServiceStartTimerParams -> Async W TimeEntry.
Variable getWorkspaceHierarchy : Async W Hierarchy.
Variable findIDByNameInHierarchy :
  Hierarchy -> string -> NodeType -> option (string * string).
Variable getTasks : string -> Async W (list Task).

Definition getNow : Async W Z := fun w => (Return (clock w), w).

(** [getTimeTrackingReportTool.handler({ period })]. *)
Definition getTimeTrackingReportTool_handler (period : string)
  : Async W ReportResult :=
  (now <- getNow ;;
   dateRange <- lift (getDateRangeForPeriod now period) ;;
   report <- getTimeTrackingReport dateRange ;;
   let '(totalTime, taskSummaries) := aggregate report in
   ret {| rr_period := period;
          rr_start := toISOString (start_date dateRange);
          rr_end := toISOString (end_date dateRange);
          rr_total_time := formatDuration totalTime;
          rr_tasks := taskSummaries |})%async.

(** [value || ''] on an optional string. *)
Definition orEmpty (o : option string) : string :=
  match o with
  | Some s => if truthyS s then s else EmptyString
  | None => EmptyString
  end.

(** [getCurrentTimerTool.handler()]. *)
Definition getCurrentTimerTool_handler : Async W CurrentTimerStatus :=
  tryCatch
    (currentTimer <- getCurrentTimer ;;
     match currentTimer with
     | None => ret NoTimerRunning
     | Some currentTimer =>
         let startTime := entry_start currentTimer in
         now <- getNow ;;
         let elapsed := now - startTime in
         ret (TimerRunning (entry_task_id currentTimer)
                (entry_task_name currentTimer)
                (toISOString startTime)
                (formatDuration elapsed)
                (orEmpty (entry_description currentTimer))
                (match entry_billable currentTimer with
                 | Some b => b | None => false end)
                (match entry_tags currentTimer with
                 | Some t => t | None => [] end))
     end)%async
    (fun error => ret (StatusError (message error))).

(** The name lookup inside [startTimerTool.handler]: runs when no
    [taskId] is given and [taskName] is. *)
Definition lookupTask (taskName : string) (listName : option string)
  : Async W string :=
  (listId <-
     (if truthyO listName then
        let listName := orEmpty listName in
        hierarchy <- getWorkspaceHierarchy ;;
        match findIDByNameInHierarchy hierarchy listName ListT with
        | None =>
            throw (PlainError ("List " ++ dq ++ listName ++ dq ++ " not found"))
        | Some listInfo => ret (Some (fst listInfo))
        end
      else ret None) ;;
   tasks <- getTasks (orEmpty listId) ;;
   match find (fun t => String.eqb (toLowerCase (task_name t))
                          (toLowerCase taskName)) tasks with
   | None =>
       throw (PlainError
                ("Task " ++ dq ++ taskName ++ dq ++ " not found"
                 ++ (if truthyO listName
                     then " in list " ++ dq ++ orEmpty listName ++ dq
                     else EmptyString)))
   | Some foundTask => ret (task_id foundTask)
   end)%async.

(** [startTimerTool.handler(params)]. *)
Definition startTimerTool_handler (params : StartTimerParams)
  : Async W StartTimerStatus :=
  tryCatch
    (targetTaskId <-
       (if negb (truthyO (p_taskId params)) && truthyO (p_taskName params)
        then
          found <- lookupTask (orEmpty (p_taskName params))
                     (p_listName params) ;;
          ret (Some found)
        else ret (p_taskId params)) ;;
     if negb (truthyO targetTaskId) then
       throw (PlainError "Either taskId or taskName must be provided")
     else
       let targetTaskId := orEmpty targetTaskId in
       timer <- startTimer {| sp_task_id := targetTaskId;
                              sp_description := p_description params;
                              sp_billable := p_billable params;
                              sp_tags := p_tags params |} ;;
       ret (TimerStarted targetTaskId (entry_task_name timer)
              (toISOString (entry_start timer))
              (orEmpty (p_description params))))%async
    (fun error => ret (StartError (message error))).

End Handlers.

End Tools.

(* ================================================================== *)
(** * The two time-tracking service classes: [getCurrentTimer]          *)
(* ================================================================== *)

(** What [response.data] of the current-timer request can be: nothing
    ([undefined] / [null]), a falsy scalar (the empty text of an empty
    body), or an object whose [data] field holds the running entry or
    nothing. *)
Inductive Body :=
| BodyNullish
| BodyScalar
| BodyObject (data : option TimeEntry).

(** [src/services/clickup/timetracking.ts]. *)
Module Service.

(** [handleApiError(error, message)]: always throws. *)
Definition handleApiError (error : Error) (msg : string) : Error :=
  match error with
  | ClickUpServiceError _ _ _ => error
  | AxiosError emsg (Some status) _ =>
      let errorCode :=
        if status =? 401 then UNAUTHORIZED
        else if status =? 404 then NOT_FOUND
        else if status =? 429 then RATE_LIMIT
        else if status =? 400 then VALIDATION
        else if (status =? 500) || (status =? 502) || (status =? 503)
                || (status =? 504) then SERVER_ERROR
        else UNKNOWN in
      ClickUpServiceError (msg ++ ": " ++ emsg) errorCode (Some status)
  | AxiosError emsg None request =>
      ClickUpServiceError (msg ++ ": " ++ emsg)
        (if request then NETWORK_ERROR else UNKNOWN) None
  | PlainError emsg =>
      ClickUpServiceError
        (msg ++ ": " ++ (if JS.truthyS emsg then emsg else "Unknown error"))
        UNKNOWN None
  end.

Section Service.
Variable W : Type.

(** [this.get(`/team/${teamId}/time_entries/current`)], that is
    [makeRequest] of the base class around the HTTP client. *)
Variable requestCurrent : Async W Body.

(** Reading [response.data.data]; a nullish [response.data] makes the
    property access throw a [TypeError]. *)
Definition readData (b : Body) : Outcome (option TimeEntry) :=
  match b with
  | BodyNullish =>
      Throw (PlainError
               "Cannot read properties of undefined (reading 'data')")
  | BodyScalar => Return None
  | BodyObject d => Return d
  end.

(** [getCurrentTimer()]; [None] is the falsy value returned ([null], or
    the [undefined] of a missing [data]). *)
Definition getCurrentTimer : Async W (option TimeEntry) :=
  tryCatch
    (response <- requestCurrent ;;
     lift (readData response))%async
    (fun error =>
       match response_status error with
       | Some status =>
           if status =? 404 then ret None
           else throw (handleApiError error "Error getting current timer")
       | None =>
           throw (handleApiError error "Error getting current timer")
       end).

End Service.
End Service.

(** The service class of the second generation (the one with
    [startTimer(taskId, options)]). *)
Module ServiceV2.
Section Service.
Variable W : Type.

(** [this.makeRequest(() => this.client.get(url))]. *)
Variable requestCurrent : Async W Body.

Definition isServiceError (e : Error) : bool :=
  match e with ClickUpServiceError _ _ _ => true | _ => false end.

(** [getCurrentTimer()]. *)
Definition getCurrentTimer : Async W (option TimeEntry) :=
  tryCatch
    (response <- requestCurrent ;;
     match response with
     | BodyNullish | BodyScalar =>
         throw (ClickUpServiceError
                  "Invalid API response structure from current timer endpoint"
                  SERVER_ERROR None)
     | BodyObject None => ret None
     | BodyObject (Some entry) => ret (Some entry)
     end)%async
    (fun error =>
       if isServiceError error then throw error
       else throw (ClickUpServiceError
                     ("Failed to get current timer: " ++ message error)
                     UNKNOWN None)).

End Service.
End ServiceV2.

(* ================================================================== *)
(** * [src/resources/timetracking.ts]: the current-timer resource       *)
(* ================================================================== *)

Module Resources.

Import JS.

Definition nl : string := String (ascii_of_nat 10) EmptyString.

Fixpoint join (sep : string) (l : list string) : string :=
  match l with
  | [] => EmptyString
  | [x] => x
  | x :: r => x ++ sep ++ join sep r
  end.

Section Resources.
Context {cal : Calendar}.
Variable W : Type.
Variable clock : W -> Z.
Variable getCurrentTimer : Async W (option TimeEntry).

(** [getCurrentTimerAsText()]. *)
Definition getCurrentTimerAsText : Async W string :=
  tryCatch
    (currentTimer <- getCurrentTimer ;;
     match currentTimer with
     | None =>
         ret ("# Timer Status" ++ nl ++ nl
              ++ "No timer is currently running.")
     | Some currentTimer =>
         let startTime := entry_start currentTimer in
         now <- Tools.getNow clock ;;
         let elapsed := now - startTime in
         let markdown := "# Current Timer Status" ++ nl ++ nl in
         let markdown :=
           markdown ++ "**Task:** " ++ entry_task_name currentTimer ++ nl in
         let markdown :=
           markdown ++ "**Started:** " ++ toLocaleString startTime ++ nl in
         let markdown :=
           markdown ++ "**Running For:** " ++ Tools.formatDuration elapsed
           ++ nl in
         let markdown :=
           match entry_description currentTimer with
           | Some d =>
               if truthyS d
               then markdown ++ "**Description:** " ++ d ++ nl
               else markdown
           | None => markdown
           end in
         let markdown :=
           match entry_billable currentTimer with
           | Some true => markdown ++ "**Billable:** Yes" ++ nl
           | _ => markdown
           end in
         let markdown :=
           match entry_tags currentTimer with
           | Some (t :: ts) =>
               markdown ++ "**Tags:** " ++ join ", " (t :: ts) ++ nl
           | _ => markdown
           end in
         ret markdown
     end)%async
    (fun error => ret ("Error getting current timer: " ++ message error)).

End Resources.
End Resources.

(* ================================================================== *)
(** * JavaScript objects used as dictionaries                          *)
(* ================================================================== *)

(** [Record<string, T>] as the list of its own entries, each key once, in
    the order [Object.keys] lists them: insertion order.  The keys that
    occur are ids of the service and day keys; none of them is taken to be
    a property name of [Object.prototype], nor a canonical array index
    (which [Object.keys] would list first). *)
Module Dict.
Section Dict.
Variable V : Type.

Definition t := list (string * V).

(** [obj[key]]. *)
Fixpoint get (key : string) (obj : t) : option V :=
  match obj with
  | [] => None
  | (k, v) :: r => if String.eqb k key then Some v else get key r
  end.

(** [if (!obj[key]) { obj[key] = init; }] (every stored value is an
    object, hence truthy). *)
Definition ensure (key : string) (init : V) (obj : t) : t :=
  match get key obj with
  | Some _ => obj
  | None => (obj ++ [(key, init)])%list
  end.

(** [obj[key].field = f(obj[key].field)] on an entry that is present. *)
Fixpoint modify (key : string) (f : V -> V) (obj : t) : t :=
  match obj with
  | [] => []
  | (k, v) :: r =>
      if String.eqb k key then (k, f v) :: r
      else (k, v) :: modify key f r
  end.

End Dict.
End Dict.

(* ================================================================== *)
(** * The tool module behind [server.ts]                                *)
(* ================================================================== *)

Module Summary.

Import JS DateOps.

(** [formatDuration(millis)] of this module: [h m s].  For an integer
    [millis], [Math.floor((millis / 1000) % 60)] is the floor of the
    seconds minus sixty times the truncated minutes. *)
Definition formatDuration (millis : Z) : string :=
  let seconds := millis / 1000 - 60 * (millis ÷ 60000) in
  let minutes := millis / 60000 - 60 * (millis ÷ 3600000) in
  let hours := millis / 3600000 in
  toString hours ++ "h " ++ toString minutes ++ "m " ++ toString seconds ++ "s".

Record DateRange := {
  start_date : string;
  end_date : string
}.

Section Resolver.
Context {cal : Calendar}.

(** [formatDate(timestamp)] on a number. *)
Definition formatDate (timestamp : Z) : string := toLocaleString timestamp.

(** [getDateRangeForPeriod(period)]; [now] is the value of [new Date()]. *)
Definition getDateRangeForPeriod (now : Z) (period : string) : DateRange :=
  let today := newDate3 (getFullYear now) (getMonth now) (getDate now) in
  if String.eqb period "today" then
    {| start_date := toString today; end_date := toString now |}
  else if String.eqb period "yesterday" then
    let yesterday := today in
    let yesterday := setDate yesterday (getDate yesterday - 1) in
    {| start_date := toString yesterday; end_date := toString today |}
  else if String.eqb period "this_week" then
    let firstDayOfWeek := today in
    let day := getDay today in
    let firstDayOfWeek := setDate firstDayOfWeek (getDate today - day) in
    {| start_date := toString firstDayOfWeek; end_date := toString now |}
  else if String.eqb period "last_week" then
    let firstDayOfLastWeek := today in
    let day := getDay today in
    let firstDayOfLastWeek :=
      setDate firstDayOfLastWeek (getDate today - day - 7) in
    let lastDayOfLastWeek := firstDayOfLastWeek in
    let lastDayOfLastWeek :=
      setDate lastDayOfLastWeek (getDate firstDayOfLastWeek + 6) in
    let lastDayOfLastWeek := setHours lastDayOfLastWeek 23 59 59 999 in
    {| start_date := toString firstDayOfLastWeek;
       end_date := toString lastDayOfLastWeek |}
  else if String.eqb period "this_month" then
    let firstDayOfMonth :=
      newDate3 (getFullYear today) (getMonth today) 1 in
    {| start_date := toString firstDayOfMonth; end_date := toString now |}
  else if String.eqb period "last_month" then
    let firstDayOfLastMonth :=
      newDate3 (getFullYear today) (getMonth today - 1) 1 in
    let lastDayOfLastMonth :=
      newDate3 (getFullYear today) (getMonth today) 0 in
    let lastDayOfLastMonth := setHours lastDayOfLastMonth 23 59 59 999 in
    {| start_date := toString firstDayOfLastMonth;
       end_date := toString lastDayOfLastMonth |}
  else
    {| start_date := toString today; end_date := toString now |}.

End Resolver.

(** [handleStartTimer]'s parameters. *)
Record StartTimerParams := {
  p_taskId : option string;
  p_taskName : option string;
  p_description : option string;
  p_billable : option bool;
  p_tags : option (list string)
}.

(** [StartTimerOptions] as the handler fills them. *)
Record StartTimerOptions := {
  o_description : string;
  o_billable : bool;
  o_tags : list string
}.

(** What [handleStartTimer] answers: the two JSON bodies and the error
    text. *)
Inductive StartTimerResult :=
| NotStarted (msg : string) (taskId taskName started : string)
    (description : option string)
| Started (msg : string) (timeEntry : TimeEntry) (started : string)
| StartErrorText (text : string).

(** What [handleGetCurrentTimer] answers. *)
Inductive CurrentTimerResult :=
| NotRunning (msg : string)
| Running (timeEntry : TimeEntry) (started : string) (elapsedTime : Z)
    (elapsedTimeFormatted : string)
| CurrentErrorText (text : string).

(** What [handleStopTimer] answers. *)
Inductive StopTimerResult :=
| NothingToStop (msg : string)
| Stopped (msg : string) (timeEntry : TimeEntry) (duration : option Z)
| StopErrorText (text : string).

Section Handlers.
Context {cal : Calendar} {fold : CaseMapping}.
Variable W : Type.
Variable clock : W -> Z.

(** [workspaceService], [taskService] and [timeTrackingService] of
    [services/shared.js]. *)
Variable getWorkspaceHierarchy : Async W Hierarchy.
Variable getTasks : string -> Async W (list Task).
Variable getCurrentTimer : Async W (option TimeEntry).
Variable startTimer : string -> StartTimerOptions -> Async W TimeEntry.
Variable stopTimer : Async W TimeEntry.

Definition nameMatches (taskName : string) (t : Task) : bool :=
  String.eqb (toLowerCase (task_name t)) (toLowerCase taskName).

(** One [for (const listNode of ...)] loop of [findTaskIDByName]; [next]
    is what follows the loop. *)
Fixpoint searchLists (taskName : string) (lists : list Node)
  (next : Async W (option string)) : Async W (option string) :=
  match lists with
  | [] => next
  | listNode :: rest =>
      (tasks <- getTasks (node_id listNode) ;;
       match find (nameMatches taskName) tasks with
       | Some task => ret (Some (task_id task))
       | None => searchLists taskName rest next
       end)%async
  end.

(** [for (const folderNode of spaceNode.children.filter(folder))]. *)
Fixpoint searchFolders (taskName : string) (folders : list Node)
  (next : Async W (option string)) : Async W (option string) :=
  match folders with
  | [] => next
  | folderNode :: rest =>
      searchLists taskName
        (filter (isType ListT) (node_children folderNode))
        (searchFolders taskName rest next)
  end.

(** [for (const spaceNode of hierarchy.root.children)], then
    [return undefined]. *)
Fixpoint searchSpaces (taskName : string) (spaces : list Node)
  : Async W (option string) :=
  match spaces with
  | [] => ret None
  | spaceNode :: rest =>
      searchLists taskName
        (filter (isType ListT) (node_children spaceNode))
        (searchFolders taskName
           (filter (isType FolderT) (node_children spaceNode))
           (searchSpaces taskName rest))
  end.

(** [findTaskIDByName(taskName)]; the [catch] logs and answers
    [undefined]. *)
Definition findTaskIDByName (taskName : string) : Async W (option string) :=
  tryCatch
    (hierarchy <- getWorkspaceHierarchy ;;
     searchSpaces taskName (root_children hierarchy))%async
    (fun _ => ret None).

(** The task resolution that opens [handleStartTimer] (and
    [handleAddTimeEntry], [handleGetTimeTracking]). *)
Definition resolveTask (taskId taskName : option string) : Async W string :=
  (taskIdToUse <-
     (if truthyO taskName && negb (truthyO taskId) then
        let taskName := Tools.orEmpty taskName in
        found <- findTaskIDByName taskName ;;
        if negb (truthyO found) then
          throw (PlainError
                   ("Task with name " ++ dq ++ taskName ++ dq ++ " not found"))
        else ret found
      else ret taskId) ;;
   if negb (truthyO taskIdToUse) then
     throw (PlainError "Either taskId or taskName must be provided")
   else ret (Tools.orEmpty taskIdToUse))%async.

(** [handleStartTimer(parameters)]. *)
Definition handleStartTimer (parameters : StartTimerParams)
  : Async W StartTimerResult :=
  (taskIdToUse <- resolveTask (p_taskId parameters) (p_taskName parameters) ;;
   tryCatch
     (currentTimer <- getCurrentTimer ;;
      match currentTimer with
      | Some currentTimer =>
          ret (NotStarted
                 ("There's already a timer running for task " ++ dq
                  ++ entry_task_name currentTimer
                  ++ dq ++ ". Please stop it first.")
                 (entry_task_id currentTimer)
                 (entry_task_name currentTimer)
                 (formatDate (entry_start currentTimer))
                 (entry_description currentTimer))
      | None =>
          timeEntry <-
            startTimer taskIdToUse
              {| o_description := Tools.orEmpty (p_description parameters);
                 o_billable := match p_billable parameters with
                               | Some b => b | None => false end;
                 o_tags := match p_tags parameters with
                           | Some t => t | None => [] end |} ;;
          ret (Started
                 ("Timer started for task " ++ dq
                  ++ entry_task_name timeEntry ++ dq)
                 timeEntry (formatDate (entry_start timeEntry)))
      end)
     (fun error =>
        ret (StartErrorText ("Error starting timer: " ++ message error)))
  )%async.

(** [handleStopTimer()]. *)
Definition handleStopTimer : Async W StopTimerResult :=
  tryCatch
    (currentTimer <- getCurrentTimer ;;
     match currentTimer with
     | None => ret (NothingToStop "No timer is currently running")
     | Some _ =>
         timeEntry <- stopTimer ;;
         let duration :=
           match entry_end timeEntry with
           | Some e => Some (e - entry_start timeEntry)
           | None => None
           end in
         ret (Stopped
                ("Timer stopped for task " ++ dq
                 ++ entry_task_name timeEntry ++ dq)
                timeEntry duration)
     end)%async
    (fun error =>
       ret (StopErrorText ("Error stopping timer: " ++ message error))).

(** [handleGetCurrentTimer()]. *)
Definition handleGetCurrentTimer : Async W CurrentTimerResult :=
  tryCatch
    (currentTimer <- getCurrentTimer ;;
     match currentTimer with
     | None => ret (NotRunning "No timer is currently running")
     | Some currentTimer =>
         let startTime := entry_start currentTimer in
         now <- Tools.getNow clock ;;
         let elapsed := now - startTime in
         ret (Running currentTimer (formatDate (entry_start currentTimer))
                elapsed (formatDuration elapsed))
     end)%async
    (fun error =>
       ret (CurrentErrorText
              ("Error getting current timer: " ++ message error))).

End Handlers.

(** One task inside a group of [summaryItems]. *)
Record TaskItem := {
  ti_id : string;
  ti_name : string;
  ti_time : Z
}.

(** One entry of [summaryItems]. *)
Record SummaryItem := {
  si_groupName : string;
  si_time : Z;
  si_tasks : Dict.t TaskItem
}.

(** One task of a [GroupSummary]. *)
Record TaskSummary := {
  ts_id : string;
  ts_name : string;
  ts_time : Z;
  ts_timeFormatted : string;
  ts_percentage : float
}.

(** One element of [summaryArray]. *)
Record GroupSummary := {
  groupKey : string;
  groupName : string;
  g_time : Z;
  g_timeFormatted : string;
  g_percentage : float;
  g_tasks : list TaskSummary
}.

(** The JSON body of a successful summary. *)
Record SummaryBody := {
  sb_period : string;
  sb_groupedBy : string;
  sb_totalTime : Z;
  sb_totalTimeFormatted : string;
  sb_start : string;
  sb_end : string;
  sb_summary : list GroupSummary
}.

Inductive SummaryResult :=
| SummaryOk (body : SummaryBody)
| SummaryErrorText (text : string).

(** [handleGetTimeTrackingSummary]'s parameters; a missing [groupBy]
    defaults to ['task']. *)
Record SummaryParams := {
  sp_period : string;
  sp_start_date : option string;
  sp_end_date : option string;
  sp_groupBy : option string
}.

(** [TimeTrackingFilters], the fields the summary sets. *)
Record Filters := {
  f_task_id : option string;
  f_start_date : string;
  f_end_date : string
}.

(** [summaryItems[k].time += amount]. *)
Definition addTime (amount : Z) (item : SummaryItem) : SummaryItem :=
  {| si_groupName := si_groupName item;
     si_time := si_time item + amount;
     si_tasks := si_tasks item |}.

(** A statement acting on [summaryItems[k].tasks]. *)
Definition onTasks (f : Dict.t TaskItem -> Dict.t TaskItem)
  (item : SummaryItem) : SummaryItem :=
  {| si_groupName := si_groupName item;
     si_time := si_time item;
     si_tasks := f (si_tasks item) |}.

(** [tasks[taskId].time += amount]. *)
Definition addTaskTime (amount : Z) (t : TaskItem) : TaskItem :=
  {| ti_id := ti_id t; ti_name := ti_name t; ti_time := ti_time t + amount |}.

(** The four statements both branches run on [summaryItems] (lines 616-635
    for an entry of a day, lines 648-667 otherwise): create the group if
    absent, add to its time, create the task in it if absent, add to the
    task's time. *)
Definition accumulate (key name taskId taskName : string) (amount : Z)
  (summaryItems : Dict.t SummaryItem) : Dict.t SummaryItem :=
  let summaryItems :=
    Dict.ensure key
      {| si_groupName := name; si_time := 0; si_tasks := [] |}
      summaryItems in
  let summaryItems := Dict.modify key (addTime amount) summaryItems in
  let summaryItems :=
    Dict.modify key
      (onTasks (Dict.ensure taskId
                  {| ti_id := taskId; ti_name := taskName; ti_time := 0 |}))
      summaryItems in
  Dict.modify key
    (onTasks (Dict.modify taskId (addTaskTime amount))) summaryItems.

(** [text.split(',')[0]]. *)
Fixpoint beforeComma (text : string) : string :=
  match text with
  | EmptyString => EmptyString
  | String c r => if Ascii.eqb c ","%char then EmptyString
                  else String c (beforeComma r)
  end.

(** [Math.round((part / whole) * 100)]. *)
Definition percentOf (part whole : Z) : float :=
  Math_round (num part / num whole * 100)%float.

(** One element of [Object.keys(item.tasks).map(...)]. *)
Definition taskSummaryOf (item : SummaryItem) (kv : string * TaskItem)
  : TaskSummary :=
  {| ts_id := fst kv;
     ts_name := ti_name (snd kv);
     ts_time := ti_time (snd kv);
     ts_timeFormatted := formatDuration (ti_time (snd kv));
     ts_percentage := percentOf (ti_time (snd kv)) (si_time item) |}.

(** One element of [Object.keys(summaryItems).map(...)]. *)
Definition groupSummaryOf (totalTime : Z) (kv : string * SummaryItem)
  : GroupSummary :=
  let item := snd kv in
  let tasksArray := map (taskSummaryOf item) (si_tasks item) in
  let tasksArray := sortBy (fun a b => ts_time b - ts_time a) tasksArray in
  {| groupKey := fst kv;
     groupName := si_groupName item;
     g_time := si_time item;
     g_timeFormatted := formatDuration (si_time item);
     g_percentage := percentOf (si_time item) totalTime;
     g_tasks := tasksArray |}.

(** Lines 673-700: [summaryArray], sorted. *)
Definition summarize (totalTime : Z) (summaryItems : Dict.t SummaryItem)
  : list GroupSummary :=
  sortBy (fun a b => g_time b - g_time a)
    (map (groupSummaryOf totalTime) summaryItems).

Definition periodText (period : string) : string :=
  if String.eqb period "today" then "Today"
  else if String.eqb period "yesterday" then "Yesterday"
  else if String.eqb period "this_week" then "This week"
  else if String.eqb period "last_week" then "Last week"
  else if String.eqb period "this_month" then "This month"
  else if String.eqb period "last_month" then "Last month"
  else if String.eqb period "custom" then "Custom period"
  else EmptyString.

Section SummaryHandler.
Context {cal : Calendar}.
Variable W : Type.
Variable clock : W -> Z.
Variable getTimeTrackingReport : DateRange -> Async W (option TimeReport).
Variable getTask : string -> Async W TaskDetail.
Variable getTimeEntries : Filters -> Async W (list TimeEntry).

(** [formatDate(parseInt(text))]. *)
Definition formatDateOf (text : string) : string :=
  match parseInt text with
  | Some t => formatDate t
  | None => "Invalid Date"
  end.

(** The body of [for (const entry of entries)] in the ['day'] case. *)
Definition addEntry (taskId : string) (task : TaskDetail)
  (summaryItems : Dict.t SummaryItem) (entry : TimeEntry)
  : Dict.t SummaryItem :=
  let entryDate := entry_start entry in
  let dayKey :=
    toString (getFullYear entryDate) ++ "-"
    ++ toString (getMonth entryDate + 1) ++ "-"
    ++ toString (getDate entryDate) in
  let entryDuration :=
    match entry_duration entry with Some d => d | None => 0 end in
  accumulate dayKey (beforeComma (formatDate entryDate)) taskId
    (td_name task) entryDuration summaryItems.

(** The body of [for (const taskId in userData.tasks)], then the rest of
    that loop. *)
Fixpoint processTasks (groupBy : string) (dateRange : DateRange)
  (tasks : list (string * TaskTime)) (summaryItems : Dict.t SummaryItem)
  : Async W (Dict.t SummaryItem) :=
  match tasks with
  | [] => ret summaryItems
  | (taskId, taskData) :: rest =>
      (task <- getTask taskId ;;
       if String.eqb groupBy "day" then
         entries <- getTimeEntries
                      {| f_task_id := Some taskId;
                         f_start_date := start_date dateRange;
                         f_end_date := end_date dateRange |} ;;
         processTasks groupBy dateRange rest
           (fold_left (addEntry taskId task) entries summaryItems)
       else
         let '(groupingKey, groupName) :=
           if String.eqb groupBy "task" then (taskId, tt_name taskData)
           else if String.eqb groupBy "list"
                then (td_list_id task, td_list_name task)
           else if String.eqb groupBy "space"
                then (td_space_id task, td_space_name task)
           else (taskId, tt_name taskData) in
         processTasks groupBy dateRange rest
           (accumulate groupingKey groupName taskId (td_name task)
              (tt_time taskData) summaryItems))%async
  end.

(** [for (const userData of report.data)]. *)
Fixpoint processUsers (groupBy : string) (dateRange : DateRange)
  (data : list TimeReportData) (totalTime : Z)
  (summaryItems : Dict.t SummaryItem)
  : Async W (Z * Dict.t SummaryItem) :=
  match data with
  | [] => ret (totalTime, summaryItems)
  | userData :: rest =>
      let totalTime := totalTime + ur_time userData in
      (summaryItems <-
         processTasks groupBy dateRange (ur_tasks userData) summaryItems ;;
       processUsers groupBy dateRange rest totalTime summaryItems)%async
  end.

(** Lines 573-671: [totalTime] and [summaryItems] of a fetched report. *)
Definition collect (groupBy : string) (dateRange : DateRange)
  (report : option TimeReport) : Async W (Z * Dict.t SummaryItem) :=
  match report with
  | Some {| report_data := Some data |} =>
      processUsers groupBy dateRange data 0 []
  | _ => ret (0, [])
  end.

(** Lines 555-564: the date range of the request. *)
Definition resolveRange (now : Z) (parameters : SummaryParams)
  : Outcome DateRange :=
  if String.eqb (sp_period parameters) "custom" then
    if negb (truthyO (sp_start_date parameters))
       || negb (truthyO (sp_end_date parameters))
    then Throw (PlainError
                  "Custom period requires both start_date and end_date")
    else Return {| start_date := Tools.orEmpty (sp_start_date parameters);
                   end_date := Tools.orEmpty (sp_end_date parameters) |}
  else Return (getDateRangeForPeriod now (sp_period parameters)).

(** [handleGetTimeTrackingSummary(parameters)]. *)
Definition handleGetTimeTrackingSummary (parameters : SummaryParams)
  : Async W SummaryResult :=
  let period := sp_period parameters in
  let groupBy :=
    match sp_groupBy parameters with Some g => g | None => "task" end in
  tryCatch
    (now <- Tools.getNow clock ;;
     dateRange <- lift (resolveRange now parameters) ;;
     report <- getTimeTrackingReport dateRange ;;
     collected <- collect groupBy dateRange report ;;
     let '(totalTime, summaryItems) := collected in
     ret (SummaryOk
            {| sb_period := periodText period;
               sb_groupedBy := groupBy;
               sb_totalTime := totalTime;
               sb_totalTimeFormatted := formatDuration totalTime;
               sb_start := formatDateOf (start_date dateRange);
               sb_end := formatDateOf (end_date dateRange);
               sb_summary := summarize totalTime summaryItems |}))%async
    (fun error =>
       ret (SummaryErrorText
              ("Error getting time tracking summary: " ++ message error))).

End SummaryHandler.
End Summary.

(* ================================================================== *)
(** * Quantities the specification speaks of                           *)
(* ================================================================== *)

Module SpecSide.

(** The sum over all user records of their per-task times. *)
Definition taskTimeSum (data : list TimeReportData) : Z :=
  fold_right Z.add 0
    (map (fun u => fold_right Z.add 0
                     (map (fun kv => tt_time (snd kv)) (ur_tasks u)))
         data).

(** The sum of the user-level [time] fields. *)
Definition userTimeSum (data : list TimeReportData) : Z :=
  fold_right Z.add 0 (map ur_time data).

(** [report && report.data], or no records. *)
Definition recordsOf (report : option TimeReport) : list TimeReportData :=
  match report with
  | Some {| report_data := Some data |} => data
  | _ => []
  end.

(** The lists of a space in traversal order: the lists directly under the
    space, then the lists under each of its folders. *)
Definition listsOfSpace (space : Node) : list Node :=
  (filter (isType ListT) (node_children space)
   ++ flat_map (fun folder => filter (isType ListT) (node_children folder))
        (filter (isType FolderT) (node_children space)))%list.

(** Every list of the workspace in traversal order. *)
Definition traversal (h : Hierarchy) : list Node :=
  flat_map listsOfSpace (root_children h).

(** The period tokens of the report tool, and those of the summary tool. *)
Definition reportPeriods : list string :=
  ["today"; "yesterday"; "this_week"; "last_week"; "this_month";
   "last_month"].

Definition summaryPeriods : list string := (reportPeriods ++ ["custom"])%list.



(** The sum of the task times recorded inside one entry of
    [summaryItems]. *)
Definition taskItemSum (tasks : Dict.t Summary.TaskItem) : Z :=
  fold_right Z.add 0 (map (fun kv => Summary.ti_time (snd kv)) tasks).

(** An entry of [summaryItems] whose time is the sum of its task times. *)
Definition balanced (kv : string * Summary.SummaryItem) : Prop :=
  Summary.si_time (snd kv) = taskItemSum (Summary.si_tasks (snd kv)).

(** A collaborator that answers whatever it is asked, in every state. *)
Definition answers {W A} (m : Async W A) : Prop :=
  forall w, exists a w', m w = (Return a, w').

(** The sum of [tasks[*].time] of a group summary. *)
Definition groupTaskSum (g : Summary.GroupSummary) : Z :=
  fold_right Z.add 0 (map Summary.ts_time (Summary.g_tasks g)).

Section Fetching.
Variable W : Type.
Variable getTasks : string -> Async W (list Task).

(** The task-listing collaborator answers for each list of [lists] in
    turn, from state [w] to state [w'], and none of the answered task
    sets holds a task for which [hit] is true. *)
Inductive missed (hit : Task -> bool) : list Node -> W -> W -> Prop :=
| missed_nil : forall w, missed hit [] w w
| missed_cons : forall l rest w w1 w' tasks,
    getTasks (node_id l) w = (Return tasks, w1) ->
    find hit tasks = None ->
    missed hit rest w1 w' ->
    missed hit (l :: rest) w w'.
End Fetching.

End SpecSide.

(* ================================================================== *)
(** * A small workspace to run the handlers on                         *)
(* ================================================================== *)

Module Demo.

(** The upstream state: the clock, the running timer, whether the
    service is reachable, and the calls received so far. *)
Record World := {
  w_now : Z;
  w_timer : option TimeEntry;
  w_up : bool;
  w_calls : list string
}.

Definition logged (call : string) (w : World) : World :=
  {| w_now := w_now w; w_timer := w_timer w; w_up := w_up w;
     w_calls := (w_calls w ++ [call])%list |}.

Definition down : Error := AxiosError "Network Error" None true.

(** A collaborator that answers [a] when the service is up. *)
Definition answering {A} (call : string) (a : A) : Async World A :=
  fun w => (if w_up w then Return a else Throw down, logged call w).

Definition mkList (id name : string) : Node :=
  {| node_id := id; node_name := name; node_type := ListT;
     node_children := [] |}.

(** One space holding a folder (with list [L2]) and, after it, the direct
    lists [L0] and [L1]. *)
Definition hierarchy : Hierarchy :=
  {| root_children :=
       [ {| node_id := "S1"; node_name := "Space"; node_type := SpaceT;
            node_children :=
              [ {| node_id := "F1"; node_name := "Folder";
                   node_type := FolderT;
                   node_children := [mkList "L2" "Backlog"] |};
                mkList "L0" "Planning";
                mkList "L1" "Inbox" ] |} ] |}.

Definition tasksOf (listId : string) : list Task :=
  if String.eqb listId "L1" then
    [ {| task_id := "t0"; task_name := "Write docs" |};
      {| task_id := "t1"; task_name := "Fix Bug" |} ]
  else if String.eqb listId "L2" then
    [ {| task_id := "t2"; task_name := "FIX BUG" |} ]
  else if String.eqb listId "L0" then
    [ {| task_id := "t3"; task_name := "Plan sprint" |} ]
  else [].

Definition getWorkspaceHierarchy : Async World Hierarchy :=
  answering "getWorkspaceHierarchy" hierarchy.

Definition getTasks (listId : string) : Async World (list Task) :=
  answering ("getTasks " ++ listId) (tasksOf listId).

(** The letter E with acute accent, upper case (U+00C9) and lower case
    (U+00E9), in UTF-8. *)
Definition eAcuteUpper : string :=
  String (ascii_of_nat 195) (String (ascii_of_nat 137) EmptyString).

Definition eAcuteLower : string :=
  String (ascii_of_nat 195) (String (ascii_of_nat 169) EmptyString).

(** Task sets with an accented name: upper case in [L0], lower case in
    [L1]. *)
Definition tasksAccented (listId : string) : list Task :=
  if String.eqb listId "L0" then
    [ {| task_id := "t5"; task_name := eAcuteUpper ++ "COLE" |} ]
  else if String.eqb listId "L1" then
    [ {| task_id := "t6"; task_name := eAcuteLower ++ "cole" |} ]
  else [].

Definition getTasksAccented (listId : string) : Async World (list Task) :=
  answering ("getTasks " ++ listId) (tasksAccented listId).

(** A task-listing collaborator that fails on the list [L1] only. *)
Definition getTasksBroken (listId : string) : Async World (list Task) :=
  fun w => (if String.eqb listId "L1" then Throw down
            else Return (tasksOf listId),
            logged ("getTasks " ++ listId) w).

Definition getCurrentTimer : Async World (option TimeEntry) :=
  fun w => (if w_up w then Return (w_timer w) else Throw down,
            logged "getCurrentTimer" w).

Definition entryFor (taskId : string) (start : Z) (description : string)
  : TimeEntry :=
  {| entry_id := "e-" ++ taskId; entry_task_id := taskId;
     entry_task_name := "Task " ++ taskId; entry_task_url := None;
     entry_start := start; entry_end := None; entry_duration := None;
     entry_description := Some description; entry_billable := Some false;
     entry_tags := Some [] |}.

Definition startTimer (taskId : string) (o : Summary.StartTimerOptions)
  : Async World TimeEntry :=
  fun w =>
    let e := entryFor taskId (w_now w) (Summary.o_description o) in
    (if w_up w then Return e else Throw down,
     {| w_now := w_now w; w_timer := if w_up w then Some e else w_timer w;
        w_up := w_up w;
        w_calls := (w_calls w ++ [("startTimer " ++ taskId)%string])%list |}).

Definition startTimerV1 (p : Tools.ServiceStartTimerParams)
  : Async World TimeEntry :=
  startTimer (Tools.sp_task_id p)
    {| Summary.o_description := Tools.orEmpty (Tools.sp_description p);
       Summary.o_billable := false; Summary.o_tags := [] |}.

(** Two users; the second also logged time on ["t1"]; the first user's
    own total (5000) is not the sum of that user's tasks (4000). *)
Definition report : TimeReport :=
  {| report_data :=
       Some [ {| ur_user := "u1"; ur_time := 5000;
                 ur_tasks :=
                   [ ("t1", {| tt_id := "t1"; tt_name := "A";
                               tt_time := 3000 |});
                     ("t2", {| tt_id := "t2"; tt_name := "B";
                               tt_time := 1000 |}) ] |};
              {| ur_user := "u2"; ur_time := 2000;
                 ur_tasks :=
                   [ ("t1", {| tt_id := "t1"; tt_name := "A";
                               tt_time := 2000 |}) ] |} ] |}.

(** The report of the specification's end-to-end scenario. *)
Definition scenario : TimeReport :=
  {| report_data :=
       Some [ {| ur_user := "u1"; ur_time := 5000;
                 ur_tasks :=
                   [ ("t1", {| tt_id := "t1"; tt_name := "A";
                               tt_time := 3000 |});
                     ("t2", {| tt_id := "t2"; tt_name := "B";
                               tt_time := 2000 |}) ] |} ] |}.

(** A period without tracked time: a user record whose times are 0. *)
Definition idleReport : TimeReport :=
  {| report_data :=
       Some [ {| ur_user := "u1"; ur_time := 0;
                 ur_tasks :=
                   [ ("t1", {| tt_id := "t1"; tt_name := "A";
                               tt_time := 0 |}) ] |} ] |}.

Definition getTimeTrackingReport (r : option TimeReport)
  : Summary.DateRange -> Async World (option TimeReport) :=
  fun _ => answering "getTimeTrackingReport" r.

Definition getTask (taskId : string) : Async World TaskDetail :=
  answering ("getTask " ++ taskId)
    {| td_name := "Task " ++ taskId;
       td_list_id := "L1"; td_list_name := "Inbox";
       td_space_id := "S1"; td_space_name := "Space" |}.

Definition getTimeEntries (f : Summary.Filters)
  : Async World (list TimeEntry) :=
  answering "getTimeEntries"
    [ {| entry_id := "e1"; entry_task_id := "t1"; entry_task_name := "A";
         entry_task_url := None; entry_start := 1699950000000;
         entry_end := Some 1699950600000; entry_duration := Some 600000;
         entry_description := None; entry_billable := None;
         entry_tags := None |};
      {| entry_id := "e2"; entry_task_id := "t1"; entry_task_name := "A";
         entry_task_url := None; entry_start := 1699860000000;
         entry_end := Some 1699860300000; entry_duration := Some 300000;
         entry_description := None; entry_billable := None;
         entry_tags := None |} ].

(** Tuesday 2023-11-14 22:13:20 UTC, nothing running, service up. *)
Definition world : World :=
  {| w_now := 1700000000000; w_timer := None; w_up := true;
     w_calls := [] |}.

(** The same instant with a timer running on task ["t9"]. *)
Definition busy : World :=
  {| w_now := 1700000000000;
     w_timer := Some (entryFor "t9" 1699999000000 "deep work");
     w_up := true; w_calls := [] |}.

(** The same instant with the service unreachable. *)
Definition offline : World :=
  {| w_now := 1700000000000; w_timer := None; w_up := false;
     w_calls := [] |}.

(** The service answering 404 to a request. *)
Definition notFound : Error :=
  AxiosError "Request failed with status code 404" (Some 404) true.

(** A hierarchy index that knows no list. *)
Definition findNothing (h : Hierarchy) (name : string) (t : NodeType)
  : option (string * string) := None.

(** The current-timer endpoint answering with the given outcome. *)
Definition requestCurrent (o : Outcome Body) : Async World Body :=
  fun w => (o, logged "GET time_entries/current" w).

End Demo.

(* ================================================================== *)
(** * Further quantities of the aggregation                            *)
(* ================================================================== *)

Module Measures.

(** The sum of the times of the entries of [summaryItems]. *)
Definition itemTimeSum (items : Dict.t Summary.SummaryItem) : Z :=
  fold_right Z.add 0 (map (fun kv => Summary.si_time (snd kv)) items).

(** The sum of the times of the groups of a summary. *)
Definition groupTimeSum (groups : list Summary.GroupSummary) : Z :=
  fold_right Z.add 0 (map Summary.g_time groups).

(** The per-task times of one user record, added up. *)
Definition userTaskSum (tasks : list (string * TaskTime)) : Z :=
  fold_right Z.add 0 (map (fun kv => tt_time (snd kv)) tasks).

(** In non-increasing order of [f]: every element is at least as large as
    every later one. *)
Definition descending {A} (f : A -> Z) (l : list A) : Prop :=
  StronglySorted (fun a b => f b <= f a) l.

(** The grouping mode a request asks for ([groupBy = 'task'] by default). *)
Definition groupByOf (parameters : Summary.SummaryParams) : string :=
  match Summary.sp_groupBy parameters with Some g => g | None => "task" end.

(** An entry of [summaryItems] whose tasks have distinct ids. *)
Definition distinctTasks (kv : string * Summary.SummaryItem) : Prop :=
  NoDup (map fst (Summary.si_tasks (snd kv))).

(** What the loops keep true of [summaryItems]: distinct group keys, and
    distinct task ids inside every group. *)
Definition wellKeyed (items : Dict.t Summary.SummaryItem) : Prop :=
  NoDup (map fst items) /\ Forall distinctTasks items.

End Measures.

(* ================================================================== *)
(** * Landmarks of the UTC calendar, decimal numerals                  *)
(* ================================================================== *)

Module Days.

(** The midnight (UTC) that opens the day of the instant [t]. *)
Definition dayStart (t : Z) : Z := t / 86400000 * 86400000.

End Days.

Module Digits.

(** The characters of a decimal numeral. *)
Definition digitsOf (d : Decimal.uint) : list ascii :=
  list_ascii_of_string (NilEmpty.string_of_uint d).

End Digits.

(* ================================================================== *)
(** * The two other handlers of the tool module behind [server.ts]      *)
(* ================================================================== *)

Module Entries.

Import JS.

(** [TimeTrackingFilters], the fields [handleGetTimeTracking] sets. *)
Record TrackingFilters := {
  tf_start_date : option string;
  tf_end_date : option string;
  tf_task_id : option string;
  tf_list_id : option string
}.



(** One element of [taskSummaries] in the ['summary'] format. *)
Record TaskLine := {
  tl_taskId : string;
  tl_taskName : string;
  tl_time : Z;
  tl_timeFormatted : string;
  tl_percentage : float
}.


(** [value] when it is truthy, for an optional string. *)
Definition whenTruthy (o : option string) : option string :=
  if truthyO o then o else None.

(** The body of [for (const taskId in userData.tasks)]. *)
Definition taskLine (totalTime : Z) (kv : string * TaskTime) : TaskLine :=
  let taskData := snd kv in
  {| tl_taskId := tt_id taskData;
     tl_taskName := tt_name taskData;
     tl_time := tt_time taskData;
     tl_timeFormatted := Summary.formatDuration (tt_time taskData);
     tl_percentage := Summary.percentOf (tt_time taskData) totalTime |}.

(** The body of [for (const userData of report.data)]. *)
Definition processUser (acc : Z * list TaskLine) (userData : TimeReportData)
  : Z * list TaskLine :=
  let totalTime := fst acc + ur_time userData in
  (totalTime, (snd acc ++ map (taskLine totalTime) (ur_tasks userData))%list).


(** [handleAddTimeEntry]'s [start] parameter: a string or a number. *)
Inductive StartValue :=
| StartText (text : string)
| StartNumber (n : Z).



Section Handlers.
Context {cal : Calendar} {fold : CaseMapping}.
Variable W : Type.
Variable clock : W -> Z.
Variable getWorkspaceHierarchy : Async W Hierarchy.
Variable findIDByNameInHierarchy :
  Hierarchy -> string -> NodeType -> option (string * string).
Variable getTasks : string -> Async W (list Task).
Variable getTimeTrackingReport : TrackingFilters -> Async W (option TimeReport).
Variable getTimeEntries : TrackingFilters -> Async W (list TimeEntry).

(** [timeTrackingService.addTimeEntry(taskId, start, duration, options)];
    a [start] of [None] is [NaN]. *)
Variable addTimeEntry :
  string -> option Z -> Z -> Summary.StartTimerOptions -> Async W TimeEntry.


(** [start_date ? formatDate(start_date) : undefined]. *)
Definition rangeText (bound : option string) : option string :=
  match whenTruthy bound with
  | Some text => Some (Summary.formatDateOf text)
  | None => None
  end.




(** [start ? (typeof start === 'string' ? parseInt(start) : start)
    : Date.now()]; [None] is [NaN]. *)
Definition startTimeOf (start : option StartValue) : Async W (option Z) :=
  match start with
  | Some (StartText text) =>
      if truthyS text then ret (parseInt text)
      else (now <- Tools.getNow clock ;; ret (Some now))%async
  | Some (StartNumber n) =>
      if n =? 0 then (now <- Tools.getNow clock ;; ret (Some now))%async
      else ret (Some n)
  | None => (now <- Tools.getNow clock ;; ret (Some now))%async
  end.


End Handlers.
End Entries.

(* ================================================================== *)
(** * Further quantities and demo collaborators                        *)
(* ================================================================== *)

Module EntryMeasures.




End EntryMeasures.

Module DemoEntries.

Definition getTimeEntries (f : Entries.TrackingFilters)
  : Async Demo.World (list TimeEntry) :=
  Demo.getTimeEntries
    {| Summary.f_task_id := Entries.tf_task_id f;
       Summary.f_start_date := Tools.orEmpty (Entries.tf_start_date f);
       Summary.f_end_date := Tools.orEmpty (Entries.tf_end_date f) |}.

Definition getTimeTrackingReport (f : Entries.TrackingFilters)
  : Async Demo.World (option TimeReport) :=
  Demo.answering "getTimeTrackingReport" (Some Demo.report).




End DemoEntries.

(* ================================================================== *)
(** * Resources, their index, and the prompts that link to them        *)
(* ================================================================== *)

(** Further JavaScript primitives. *)
Module Prim.

(** [String(x)] for the values [Math.round] returns: [NaN], the
    infinities, and integers (below 10^21 in magnitude, where JavaScript
    still writes all digits). *)
Definition numberToString (x : float) : string :=
  match Prim2SF x with
  | S754_nan => "NaN"
  | S754_infinity false => "Infinity"
  | S754_infinity true => "-Infinity"
  | S754_zero _ => "0"
  | S754_finite s m e =>
      let v := if 0 <=? e then Z.pos m * 2 ^ e else Z.pos m / 2 ^ (- e) in
      (if s then "-" else EmptyString) ++ JS.toString v
  end.

(** [s.split(sep)] for a separator that is not empty: [piece] is the
    piece being read, [skip] the characters of a separator still to pass
    over. *)
Fixpoint splitFrom (sep : string) (skip : nat) (piece s : string)
  : list string :=
  match s with
  | EmptyString => [piece]
  | String c r =>
      match skip with
      | S n => splitFrom sep n piece r
      | O =>
          if String.prefix sep s
          then piece :: splitFrom sep (String.length sep - 1) EmptyString r
          else splitFrom sep 0 (piece ++ String c EmptyString) r
      end
  end.

Definition split (sep s : string) : list string :=
  splitFrom sep 0 EmptyString s.

(** [array.slice(0, count)]; a negative [count] counts from the end. *)
Definition slice0 {A} (count : Z) (l : list A) : list A :=
  if count <? 0
  then firstn (Z.to_nat (Z.of_nat (List.length l) + count)) l
  else firstn (Z.to_nat count) l.

End Prim.

(** [src/resources/timetracking.ts]: the report and the history. *)
Module ResourceTexts.

Import JS Resources.

(** One row of the tasks table. *)
Definition taskRow (task : Tools.TaskTimeSummary) : string :=
  "| " ++ Tools.taskName task ++ " | " ++ Tools.timeFormatted task ++ " | "
  ++ Prim.numberToString (Tools.percentage task) ++ "% |" ++ nl.

Definition periodName (period : string) : string :=
  if String.eqb period "today" then "Today"
  else if String.eqb period "yesterday" then "Yesterday"
  else if String.eqb period "this_week" then "This Week"
  else if String.eqb period "last_week" then "Last Week"
  else if String.eqb period "this_month" then "This Month"
  else if String.eqb period "last_month" then "Last Month"
  else "Custom Period".

Section Texts.
Context {cal : Calendar}.
Variable W : Type.
Variable clock : W -> Z.

(** [timeTrackingService] of [services/shared.js]; [getTimeEntries()]
    answers [response.data.data], which may be missing. *)
Variable getTimeTrackingReport :
  Tools.DateRange -> Async W (option TimeReport).
Variable getTimeEntries : Async W (option (list TimeEntry)).

(** [getTimeTrackingReportAsText(period)]. *)
Definition getTimeTrackingReportAsText (period : string) : Async W string :=
  tryCatch
    (now <- Tools.getNow clock ;;
     dateRange <- lift (Tools.getDateRangeForPeriod now period) ;;
     report <- getTimeTrackingReport dateRange ;;
     let '(totalTime, taskSummaries) := Tools.aggregate report in
     let markdown :=
       "# Time Tracking Report: " ++ periodName period ++ nl ++ nl in
     let markdown :=
       markdown ++ "**Period:** "
       ++ toLocaleString (Tools.start_date dateRange) ++ " to "
       ++ toLocaleString (Tools.end_date dateRange) ++ nl in
     let markdown :=
       markdown ++ "**Total Time Tracked:** "
       ++ Tools.formatDuration totalTime ++ nl ++ nl in
     let markdown :=
       match taskSummaries with
       | [] => markdown ++ "No time entries found for this period." ++ nl
       | _ =>
           let markdown := markdown ++ "## Tasks Breakdown" ++ nl ++ nl in
           let markdown :=
             markdown ++ "| Task | Time | Percentage |" ++ nl in
           let markdown :=
             markdown ++ "|------|------|------------|" ++ nl in
           fold_left (fun markdown task => markdown ++ taskRow task)
             taskSummaries markdown
       end in
     ret markdown)%async
    (fun error =>
       ret ("Error generating time tracking report: " ++ message error)).

(** The body of [for (const entry of recentEntries)]. *)
Definition entryText (markdown : string) (entry : TimeEntry) : string :=
  let markdown := markdown ++ "## " ++ entry_task_name entry ++ nl in
  let markdown :=
    markdown ++ "**Time:** "
    ++ Tools.formatDuration
         (match entry_duration entry with Some d => d | None => 0 end)
    ++ nl in
  let markdown :=
    markdown ++ "**When:** " ++ toLocaleString (entry_start entry) in
  let markdown :=
    match entry_end entry with
    | Some e => markdown ++ " to " ++ toLocaleString e ++ nl
    | None => markdown ++ " (Running)" ++ nl
    end in
  let markdown :=
    match entry_description entry with
    | Some d =>
        if truthyS d then markdown ++ "**Description:** " ++ d ++ nl
        else markdown
    | None => markdown
    end in
  let markdown :=
    match entry_billable entry with
    | Some true => markdown ++ "**Billable:** Yes" ++ nl
    | _ => markdown
    end in
  let markdown :=
    match entry_tags entry with
    | Some (t :: ts) => markdown ++ "**Tags:** " ++ join ", " (t :: ts) ++ nl
    | _ => markdown
    end in
  markdown ++ nl.

(** [getTimeTrackingHistoryAsText(count)]. *)
Definition getTimeTrackingHistoryAsText (count : Z) : Async W string :=
  tryCatch
    (entries <- getTimeEntries ;;
     match entries with
     | None =>
         throw (PlainError
                  "Cannot read properties of undefined (reading 'slice')")
     | Some entries =>
         let recentEntries := Prim.slice0 count entries in
         let markdown := "# Recent Time Entries" ++ nl ++ nl in
         let markdown :=
           match recentEntries with
           | [] => markdown ++ "No recent time entries found." ++ nl
           | _ => fold_left entryText recentEntries markdown
           end in
         ret markdown
     end)%async
    (fun error =>
       ret ("Error getting time tracking history: " ++ message error)).

End Texts.
End ResourceTexts.

(** [src/resources/index.ts]. *)
Module ResourceIndex.



Section Index.
Context {cal : Calendar}.
Variable W : Type.
Variable clock : W -> Z.
Variable getTimeTrackingReport :
  Tools.DateRange -> Async W (option TimeReport).
Variable getCurrentTimer : Async W (option TimeEntry).
Variable getTimeEntries : Async W (option (list TimeEntry)).

(** A text, as the content of a resource. *)
Definition found (text : Async W string) : Async W (option string) :=
  (content <- text ;; ret (Some content))%async.

(** [getResourceContent(uri)]; [None] is [undefined]. *)
Definition getResourceContent (uri : string) : Async W (option string) :=
  match nth_error (Prim.split "://" uri) 1 with
  | None => ret None
  | Some rest =>
      let parts := Prim.split "/" rest in
      match parts with
      | resourceType :: resourceId :: _ =>
          if String.eqb resourceType "timetracking" then
            if String.eqb resourceId "today" then
              found (ResourceTexts.getTimeTrackingReportAsText clock
                       getTimeTrackingReport "today")
            else if String.eqb resourceId "yesterday" then
              found (ResourceTexts.getTimeTrackingReportAsText clock
                       getTimeTrackingReport "yesterday")
            else if String.eqb resourceId "week" then
              found (ResourceTexts.getTimeTrackingReportAsText clock
                       getTimeTrackingReport "this_week")
            else if String.eqb resourceId "month" then
              found (ResourceTexts.getTimeTrackingReportAsText clock
                       getTimeTrackingReport "this_month")
            else if String.eqb resourceId "current" then
              found (Resources.getCurrentTimerAsText clock getCurrentTimer)
            else if String.eqb resourceId "history" then
              found (ResourceTexts.getTimeTrackingHistoryAsText
                       getTimeEntries 10)
            else ret None
          else ret None
      | _ => ret None
      end
  end.

(** The [ReadResource] request handler of [server.ts]. *)
Definition readResource (uri : string) : Async W string :=
  (content <- getResourceContent uri ;;
   match content with
   | Some text =>
       if JS.truthyS text then ret text
       else throw (PlainError ("Resource not found: " ++ uri))
   | None => throw (PlainError ("Resource not found: " ++ uri))
   end)%async.

End Index.
End ResourceIndex.

(** The prompts of the server. *)
Module Prompts.

(** A message of a prompt answer: a text, or a link to a resource. *)
Inductive Message :=
| TextMessage (text : string)
| ResourceMessage (uri : string).

(** [handleAnalyzeTimeUsagePrompt({ period })]. *)
Definition handleAnalyzeTimeUsagePrompt (period : string) : list Message :=
  let periodText :=
    if String.eqb period "today" then "today"
    else if String.eqb period "yesterday" then "yesterday"
    else if String.eqb period "this_week" then "this week so far"
    else if String.eqb period "last_week" then "last week"
    else if String.eqb period "this_month" then "this month so far"
    else if String.eqb period "last_month" then "last month"
    else period in
  [ TextMessage
      ("Please analyze my time usage for " ++ periodText
       ++ ". Show me which tasks took the most time, identify any patterns or insights in how I'm spending my time, and suggest ways I could be more efficient.");
    ResourceMessage
      ("clickup://timetracking/"
       ++ (if String.eqb period "this_week" then "week"
           else if String.eqb period "this_month" then "month"
           else period)) ].

(** [handleManageTimerPrompt({ action, taskName })]. *)
Definition handleManageTimerPrompt (action : string)
  (taskName : option string) : Outcome (list Message) :=
  if String.eqb action "start" then
    if negb (JS.truthyO taskName) then
      Throw (PlainError "Task name is required for starting a timer")
    else
      Return
        [ TextMessage
            ("Please start a timer for the task " ++ JS.dq
             ++ Tools.orEmpty taskName ++ JS.dq
             ++ ". Let me know when the timer is started, and confirm what task it's tracking time for.") ]
  else if String.eqb action "stop" then
    Return
      [ TextMessage
          "Please stop the current timer if there is one running. Let me know how much time was tracked and for which task." ]
  else if String.eqb action "check" then
    Return
      [ TextMessage
          "Please check if I have a timer currently running. If so, tell me which task it's for and how long it's been running.";
        ResourceMessage "clickup://timetracking/current" ]
  else Throw (PlainError ("Unknown action: " ++ action)).

(** [handleTimeTrackingRecommendationsPrompt()]. *)
Definition handleTimeTrackingRecommendationsPrompt : list Message :=
  [ TextMessage
      "Based on my time tracking history, please provide recommendations for how I could improve my time tracking habits and productivity. Analyze patterns in how I use my time and suggest concrete improvements.";
    ResourceMessage "clickup://timetracking/history" ].

(** The arguments of a prompt request. *)
Record PromptArgs := {
  arg_period : string;
  arg_action : string;
  arg_taskName : option string
}.

(** [handlePrompt(promptName, args)]. *)
Definition handlePrompt (promptName : string) (args : PromptArgs)
  : Outcome (list Message) :=
  if String.eqb promptName "analyze_time_usage" then
    Return (handleAnalyzeTimeUsagePrompt (arg_period args))
  else if String.eqb promptName "manage_timer" then
    handleManageTimerPrompt (arg_action args) (arg_taskName args)
  else if String.eqb promptName "time_tracking_recommendations" then
    Return handleTimeTrackingRecommendationsPrompt
  else Throw (PlainError ("Unknown prompt: " ++ promptName)).

(** The resources a prompt answer links to. *)
Definition links (messages : list Message) : list string :=
  flat_map (fun m => match m with
                     | ResourceMessage uri => [uri]
                     | TextMessage _ => []
                     end) messages.

End Prompts.

Module ResourceMeasures.

(** The texts the index serves. *)
Inductive Route :=
| ReportOf (period : string)
| CurrentTimer
| History.

(** The text a URI leads to, if any. *)
Definition routeOf (uri : string) : option Route :=
  match nth_error (Prim.split "://" uri) 1 with
  | None => None
  | Some rest =>
      match Prim.split "/" rest with
      | resourceType :: resourceId :: _ =>
          if String.eqb resourceType "timetracking" then
            if String.eqb resourceId "today" then Some (ReportOf "today")
            else if String.eqb resourceId "yesterday"
                 then Some (ReportOf "yesterday")
            else if String.eqb resourceId "week"
                 then Some (ReportOf "this_week")
            else if String.eqb resourceId "month"
                 then Some (ReportOf "this_month")
            else if String.eqb resourceId "current" then Some CurrentTimer
            else if String.eqb resourceId "history" then Some History
            else None
          else None
      | _ => None
      end
  end.

(** A resource that can be read: in every state of the services the
    [ReadResource] handler answers with a text. *)
Definition readable {W} (read : string -> Async W string) (uri : string)
  : Prop :=
  forall w, exists text w', read uri w = (Return text, w').

(** A resource that is not there: reading it throws "Resource not found"
    and asks nothing of the services. *)
Definition missing {W} (read : string -> Async W string) (uri : string)
  : Prop :=
  forall w, read uri w = (Throw (PlainError ("Resource not found: " ++ uri)), w).

(** A text that is always answered and never empty. *)
Definition served {W} (text : Async W string) : Prop :=
  forall w, exists content w',
    text w = (Return content, w') /\ JS.truthyS content = true.

Section Routes.
Context {cal : Calendar}.
Variable W : Type.
Variable clock : W -> Z.
Variable getTimeTrackingReport :
  Tools.DateRange -> Async W (option TimeReport).
Variable getCurrentTimer : Async W (option TimeEntry).
Variable getTimeEntries : Async W (option (list TimeEntry)).

(** The text behind a route. *)
Definition textOf (r : Route) : Async W string :=
  match r with
  | ReportOf period =>
      ResourceTexts.getTimeTrackingReportAsText clock getTimeTrackingReport
        period
  | CurrentTimer => Resources.getCurrentTimerAsText clock getCurrentTimer
  | History => ResourceTexts.getTimeTrackingHistoryAsText getTimeEntries 10
  end.

End Routes.

End ResourceMeasures.

Module DemoResources.

Definition getTimeTrackingReport (r : Tools.DateRange)
  : Async Demo.World (option TimeReport) :=
  Demo.answering "getTimeTrackingReport" (Some Demo.scenario).

Definition getTimeEntries : Async Demo.World (option (list TimeEntry)) :=
  Demo.answering "getTimeEntries" (Some []).

Definition readResource : string -> Async Demo.World string :=
  ResourceIndex.readResource (cal := UTC.calendar) Demo.w_now
    getTimeTrackingReport Demo.getCurrentTimer getTimeEntries.

End DemoResources.

(* ================================================================== *)
(** * Strings: concatenation and trimming                              *)
(* ================================================================== *)

Module StringFacts.

Import JS.












End StringFacts.

(* ================================================================== *)
(** * The duration formatter                                           *)
(* ================================================================== *)

Module FormatDuration.

Import JS StringFacts SpecSide.






End FormatDuration.



(* ================================================================== *)
(** * Running asynchronous computations                                *)
(* ================================================================== *)

Module AsyncFacts.
Section AsyncFacts.
Variable W : Type.

Lemma bind_return {A B} (m : Async W A) (k : A -> Async W B) w a w1 :
  m w = (Return a, w1) -> bind m k w = k a w1.
Proof. intros H. unfold bind. now rewrite H. Qed.

Lemma bind_throw {A B} (m : Async W A) (k : A -> Async W B) w e w1 :
  m w = (Throw e, w1) -> bind m k w = (Throw e, w1).
Proof. intros H. unfold bind. now rewrite H. Qed.

Lemma bind_inv {A B} (m : Async W A) (k : A -> Async W B) w b w' :
  bind m k w = (Return b, w') ->
  exists a w1, m w = (Return a, w1) /\ k a w1 = (Return b, w').
Proof.
  unfold bind. destruct (m w) as [[a|e] w1]; intros H.
  - now exists a, w1.
  - discriminate.
Qed.

Lemma tryCatch_return {A} (m : Async W A) h w a w1 :
  m w = (Return a, w1) -> tryCatch m h w = (Return a, w1).
Proof. intros H. unfold tryCatch. now rewrite H. Qed.

Lemma tryCatch_throw {A} (m : Async W A) h w e w1 :
  m w = (Throw e, w1) -> tryCatch m h w = h e w1.
Proof. intros H. unfold tryCatch. now rewrite H. Qed.

End AsyncFacts.
End AsyncFacts.

(* ================================================================== *)
(** * The grand total                                                  *)
(* ================================================================== *)

Module TotalFacts.

Import SpecSide AsyncFacts.

Lemma processUser_total data acc :
  fst (fold_left Tools.processUser data acc) = fst acc + userTimeSum data.
Proof.
  revert acc. induction data as [|u data IH]; intros acc; simpl.
  - unfold userTimeSum. simpl. lia.
  - rewrite IH. unfold userTimeSum. simpl. lia.
Qed.

Lemma aggregate_total report :
  fst (Tools.aggregate report) = userTimeSum (recordsOf report).
Proof.
  unfold Tools.aggregate, recordsOf.
  destruct report as [[[data|]]|]; try reflexivity.
  pose proof (processUser_total data (0, [])) as H.
  destruct (fold_left Tools.processUser data (0, [])) as [t l].
  simpl in *. lia.
Qed.

(** The report tool formats, as its total, the sum of the user-level times
    of the report fetched for it. *)
Lemma report_handler_total {cal : Calendar} (W : Type) (clock : W -> Z)
  (getTimeTrackingReport : Tools.DateRange -> Async W (option TimeReport))
  period w result w' :
  Tools.getTimeTrackingReportTool_handler clock getTimeTrackingReport period w
  = (Return result, w') ->
  exists dateRange report w1,
    getTimeTrackingReport dateRange w = (Return report, w1)
    /\ Tools.rr_total_time result
       = Tools.formatDuration (userTimeSum (recordsOf report)).
Proof.
  unfold Tools.getTimeTrackingReportTool_handler. intros E.
  apply bind_inv in E. destruct E as (now & w1 & Hn & E).
  unfold Tools.getNow in Hn. inversion Hn; subst now w1. clear Hn.
  apply bind_inv in E. destruct E as (dateRange & w2 & Hd & E).
  unfold lift in Hd. inversion Hd; subst w2.
  apply bind_inv in E. destruct E as (report & w3 & Hr & E).
  exists dateRange, report, w3. split; [exact Hr|].
  pose proof (aggregate_total report) as Ht.
  destruct (Tools.aggregate report) as [total summaries].
  unfold ret in E. inversion E; subst. cbn in *. now rewrite Ht.
Qed.

Section Summary.
Context {cal : Calendar}.
Variable W : Type.
Variable getTask : string -> Async W TaskDetail.
Variable getTimeEntries : Summary.Filters -> Async W (list TimeEntry).

Lemma processUsers_total groupBy dateRange data :
  forall total items w total' items' w',
    Summary.processUsers getTask getTimeEntries groupBy dateRange data
      total items w = (Return (total', items'), w') ->
    total' = total + userTimeSum data.
Proof.
  induction data as [|u data IH]; intros total items w total' items' w' H.
  - simpl in H. unfold ret in H. inversion H. unfold userTimeSum.
    simpl. lia.
  - simpl in H. apply bind_inv in H. destruct H as (items1 & w1 & _ & H).
    apply IH in H. unfold userTimeSum in *. simpl. lia.
Qed.

Lemma collect_total groupBy dateRange report w total items w' :
  Summary.collect getTask getTimeEntries groupBy dateRange report w
  = (Return (total, items), w') ->
  total = userTimeSum (recordsOf report).
Proof.
  unfold Summary.collect, recordsOf.
  destruct report as [[[data|]]|]; intros H;
    try (unfold ret in H; inversion H; reflexivity).
  apply processUsers_total in H. lia.
Qed.

Variable clock : W -> Z.
Variable getTimeTrackingReport :
  Summary.DateRange -> Async W (option TimeReport).

(** The total a summary carries is the sum of the user-level times of the
    report fetched for it. *)
Lemma handler_total parameters w body w' :
  Summary.handleGetTimeTrackingSummary clock getTimeTrackingReport getTask
    getTimeEntries parameters w
  = (Return (Summary.SummaryOk body), w') ->
  exists dateRange report w1,
    getTimeTrackingReport dateRange w = (Return report, w1)
    /\ Summary.sb_totalTime body = userTimeSum (recordsOf report).
Proof.
  unfold Summary.handleGetTimeTrackingSummary, tryCatch.
  match goal with
  | |- (match ?m w with _ => _ end) = _ -> _ =>
      destruct (m w) as [[r|e] w1] eqn:E
  end; [|unfold ret; intros H; inversion H].
  intros H. inversion H; subst r w1. clear H.
  apply bind_inv in E. destruct E as (now & w1 & Hn & E).
  unfold Tools.getNow in Hn. inversion Hn; subst now w1. clear Hn.
  apply bind_inv in E. destruct E as (dateRange & w2 & Hd & E).
  unfold lift in Hd. inversion Hd; subst w2.
  apply bind_inv in E. destruct E as (report & w3 & Hr & E).
  apply bind_inv in E. destruct E as ([total items] & w4 & Hc & E).
  unfold ret in E. inversion E; subst. cbn [Summary.sb_totalTime].
  exists dateRange, report, w3. split; [exact Hr|].
  eapply collect_total. exact Hc.
Qed.
End Summary.

End TotalFacts.

(** C1, as the code has it: in both aggregations the grand total is the sum
    of the user-level [time] fields of the report's records; the per-task
    times take no part in it.  For the report tool this is the total of
    [aggregate], which the handler formats as [total_time]; for the summary
    tool it is the [totalTime] of every summary the handler answers, over
    the report fetched for it. *)
Theorem C1_total_is_sum_of_user_times :
  (forall report,
      fst (Tools.aggregate report)
      = SpecSide.userTimeSum (SpecSide.recordsOf report))
  /\ (forall (cal : Calendar) (W : Type) (clock : W -> Z)
        (getTimeTrackingReport :
           Tools.DateRange -> Async W (option TimeReport))
        period w result w',
         Tools.getTimeTrackingReportTool_handler clock getTimeTrackingReport
           period w
         = (Return result, w') ->
         exists dateRange report w1,
           getTimeTrackingReport dateRange w = (Return report, w1)
           /\ Tools.rr_total_time result
              = Tools.formatDuration
                  (SpecSide.userTimeSum (SpecSide.recordsOf report)))
  /\ (forall (cal : Calendar) (W : Type) (clock : W -> Z)
        (getTimeTrackingReport :
           Summary.DateRange -> Async W (option TimeReport))
        (getTask : string -> Async W TaskDetail)
        (getTimeEntries : Summary.Filters -> Async W (list TimeEntry))
        parameters w body w',
         Summary.handleGetTimeTrackingSummary clock getTimeTrackingReport
           getTask getTimeEntries parameters w
         = (Return (Summary.SummaryOk body), w') ->
         exists dateRange report w1,
           getTimeTrackingReport dateRange w = (Return report, w1)
           /\ Summary.sb_totalTime body
              = SpecSide.userTimeSum (SpecSide.recordsOf report)).
Proof.
  split; [|split].
  - apply TotalFacts.aggregate_total.
  - intros. eapply TotalFacts.report_handler_total; eassumption.
  - intros. eapply TotalFacts.handler_total; eassumption.
Qed.

(** C1, witness: the demo report (user-level times 5000 and 2000) totals
    7000 in the report aggregation and in the summary answered for it, and
    the report tool formats that total ("0m", seven seconds). *)
Lemma C1_total_witness :
  fst (Tools.aggregate (Some Demo.report)) = 7000
  /\ (exists result w' report w1,
         Tools.getTimeTrackingReportTool_handler (cal := UTC.calendar)
           Demo.w_now (fun _ => Demo.answering "getTimeTrackingReport"
                                  (Some Demo.report))
           "today" Demo.world
         = (Return result, w')
         /\ Demo.answering "getTimeTrackingReport" (Some Demo.report)
              Demo.world
            = (Return report, w1)
         /\ Tools.rr_total_time result
            = Tools.formatDuration
                (SpecSide.userTimeSum (SpecSide.recordsOf report))
         /\ Tools.rr_total_time result = "0m")
  /\ exists body w' dateRange report w1,
      Summary.handleGetTimeTrackingSummary (cal := UTC.calendar)
        Demo.w_now (Demo.getTimeTrackingReport (Some Demo.report))
        Demo.getTask Demo.getTimeEntries
        {| Summary.sp_period := "today"; Summary.sp_start_date := None;
           Summary.sp_end_date := None; Summary.sp_groupBy := Some "list" |}
        Demo.world
      = (Return (Summary.SummaryOk body), w')
      /\ Demo.getTimeTrackingReport (Some Demo.report) dateRange Demo.world
         = (Return report, w1)
      /\ Summary.sb_totalTime body
         = SpecSide.userTimeSum (SpecSide.recordsOf report)
      /\ Summary.sb_totalTime body = 7000.
Proof.
  split; [|split].
  - exact (proj1 C1_total_is_sum_of_user_times (Some Demo.report)).
  - eexists. eexists.
    assert (H : Tools.getTimeTrackingReportTool_handler (cal := UTC.calendar)
                  Demo.w_now (fun _ => Demo.answering "getTimeTrackingReport"
                                         (Some Demo.report))
                  "today" Demo.world
                = (Return _, _))
      by (vm_compute; reflexivity).
    destruct (proj1 (proj2 C1_total_is_sum_of_user_times) _ _ _ _ _ _ _ _ H)
      as (dateRange & report & w1 & Hr & Ht).
    exists report, w1.
    split; [exact H|]. split; [exact Hr|]. split; [exact Ht | reflexivity].
  - eexists. eexists.
    assert (H : Summary.handleGetTimeTrackingSummary (cal := UTC.calendar)
                  Demo.w_now (Demo.getTimeTrackingReport (Some Demo.report))
                  Demo.getTask Demo.getTimeEntries
                  {| Summary.sp_period := "today";
                     Summary.sp_start_date := None;
                     Summary.sp_end_date := None;
                     Summary.sp_groupBy := Some "list" |}
                  Demo.world
                = (Return (Summary.SummaryOk _), _))
      by (vm_compute; reflexivity).
    destruct (proj2 (proj2 C1_total_is_sum_of_user_times)
                _ _ _ _ _ _ _ _ _ _ H)
      as (dateRange & report & w1 & Hr & Ht).
    exists dateRange, report, w1.
    split; [exact H|]. split; [exact Hr|]. split; [exact Ht|]. reflexivity.
Defined.

(** C1, the claim as stated fails: on a report whose first user-level total
    (5000) exceeds that user's task times (3000 and 1000) the grand total
    is 7000 in both aggregations, while the per-task times sum to 6000. *)
Lemma C1_total_differs_from_task_times :
  SpecSide.taskTimeSum (SpecSide.recordsOf (Some Demo.report)) = 6000
  /\ fst (Tools.aggregate (Some Demo.report)) = 7000
  /\ exists body w',
      Summary.handleGetTimeTrackingSummary (cal := UTC.calendar)
        Demo.w_now (Demo.getTimeTrackingReport (Some Demo.report))
        Demo.getTask Demo.getTimeEntries
        {| Summary.sp_period := "today"; Summary.sp_start_date := None;
           Summary.sp_end_date := None; Summary.sp_groupBy := Some "task" |}
        Demo.world
      = (Return (Summary.SummaryOk body), w')
      /\ Summary.sb_totalTime body = 7000.
Proof.
  split; [reflexivity|]. split; [reflexivity|].
  eexists. eexists. split; vm_compute; reflexivity.
Qed.

(* ================================================================== *)
(** * Percentages over a zero whole                                    *)
(* ================================================================== *)

Module PercentFacts.

Import JS.

(** A quotient by zero, times one hundred, rounded, is never a finite
    number: it is NaN or an infinity. *)
Lemma round_of_quotient_by_zero (x z : float) (s : bool) :
  Prim2SF z = S754_zero s ->
  isFinite (Math_round (x / z * 100)%float) = false.
Proof.
  intros Hz.
  assert (H : Prim2SF (x / z * 100)%float = S754_nan
              \/ exists b, Prim2SF (x / z * 100)%float = S754_infinity b).
  { rewrite mul_spec, div_spec, Hz.
    destruct (Prim2SF x) as [sx|sx| |sx mx ex]; cbn; eauto. }
  unfold isFinite, Math_round.
  destruct H as [H | [b H]]; rewrite H; rewrite H; reflexivity.
Qed.

Lemma num_zero : Prim2SF (num 0) = S754_zero false.
Proof. vm_compute. reflexivity. Qed.

Lemma percentOf_zero_whole (part : Z) :
  isFinite (Summary.percentOf part 0) = false.
Proof.
  unfold Summary.percentOf.
  apply round_of_quotient_by_zero with (s := false). exact num_zero.
Qed.

Lemma summarize_zero_total (kv : string * TaskTime) :
  isFinite (Tools.percentage (Tools.summarize 0 kv)) = false.
Proof.
  unfold Tools.summarize. cbn [Tools.percentage].
  apply round_of_quotient_by_zero with (s := false). exact num_zero.
Qed.

End PercentFacts.

(** C2, as the code has it: the percentage is [Math.round((part / whole) *
    100)] with no guard.  Over a whole of 0 it is never 0 nor any other
    finite number, for every part, in the report aggregation and in the
    summary aggregation alike: it is NaN for the part 0 and Infinity for the
    part 3000.  (No exception is involved: the division is a floating-point
    one.) *)
Theorem C2_percentage_of_zero_whole :
  (forall part, JS.isFinite (Summary.percentOf part 0) = false)
  /\ (forall kv, JS.isFinite (Tools.percentage (Tools.summarize 0 kv)) = false)
  /\ JS.isNaN (Summary.percentOf 0 0) = true
  /\ Summary.percentOf 3000 0 = infinity.
Proof.
  split; [exact PercentFacts.percentOf_zero_whole|].
  split; [exact PercentFacts.summarize_zero_total|].
  split; vm_compute; reflexivity.
Qed.

(** C2, the claim as stated fails: the percentage of 0 in 0 is NaN, not 0,
    and a report of a period without tracked time is summarised with NaN
    percentages. *)
Lemma C2_zero_of_zero_is_NaN :
  Summary.percentOf 0 0 <> 0%float
  /\ JS.isNaN (Summary.percentOf 0 0) = true
  /\ exists body w',
      Summary.handleGetTimeTrackingSummary (cal := UTC.calendar)
        Demo.w_now (Demo.getTimeTrackingReport (Some Demo.idleReport))
        Demo.getTask Demo.getTimeEntries
        {| Summary.sp_period := "today"; Summary.sp_start_date := None;
           Summary.sp_end_date := None; Summary.sp_groupBy := Some "task" |}
        Demo.world
      = (Return (Summary.SummaryOk body), w')
      /\ map (fun g => JS.isNaN (Summary.g_percentage g))
           (Summary.sb_summary body) = [true].
Proof.
  split; [|split].
  - intros H. apply (f_equal Prim2SF) in H. vm_compute in H. discriminate.
  - vm_compute. reflexivity.
  - eexists. eexists. split; vm_compute; reflexivity.
Qed.

(* ================================================================== *)
(** * Period resolution                                                *)
(* ================================================================== *)

Module PeriodFacts.

Import SpecSide.

Section PeriodFacts.
Context {cal : Calendar}.

(** The exported resolver ends "yesterday" one millisecond before
    "today" starts. *)
Lemma tools_yesterday_end (now : Z) :
  exists y t,
    Tools.getDateRangeForPeriod now "yesterday" = Return y
    /\ Tools.getDateRangeForPeriod now "today" = Return t
    /\ Tools.end_date y = Tools.start_date t - 1.
Proof.
  eexists. eexists. split; [reflexivity|]. split; reflexivity.
Qed.

(** The summary tool's resolver ends "yesterday" at the very instant
    "today" starts. *)
Lemma summary_yesterday_end (now : Z) :
  Summary.end_date (Summary.getDateRangeForPeriod now "yesterday")
  = Summary.start_date (Summary.getDateRangeForPeriod now "today").
Proof. reflexivity. Qed.

Lemma eqb_of_not_in (period token : string) (tokens : list string) :
  ~ In period tokens -> In token tokens ->
  String.eqb period token = false.
Proof.
  intros Hn Hi. apply String.eqb_neq. intros ->. contradiction.
Qed.

Lemma tools_unknown_period (now : Z) (period : string) :
  ~ In period reportPeriods ->
  Tools.getDateRangeForPeriod now period
  = Throw (PlainError ("Invalid period: " ++ period)).
Proof.
  intros Hn. unfold Tools.getDateRangeForPeriod.
  repeat (rewrite (@eqb_of_not_in period _ reportPeriods Hn)
            by (simpl; tauto)).
  reflexivity.
Qed.

Lemma summary_unknown_period (now : Z) (period : string) :
  ~ In period reportPeriods ->
  Summary.getDateRangeForPeriod now period
  = Summary.getDateRangeForPeriod now "today".
Proof.
  intros Hn. unfold Summary.getDateRangeForPeriod.
  repeat (rewrite (@eqb_of_not_in period _ reportPeriods Hn)
            by (simpl; tauto)).
  reflexivity.
Qed.

End PeriodFacts.
End PeriodFacts.

(** C3, where the code departs from the claim: the resolver of the summary
    tool returns for "yesterday" an end equal to the start it returns for
    "today" (not that start minus 1), at every instant; the exported
    resolver of [src/tools/timetracking.ts] returns the start minus 1, as
    the claim says.  On Tuesday 2023-11-14 22:13:20 UTC the summary tool
    ends yesterday at 1699920000000, the exported resolver at
    1699919999999. *)
Theorem C3_summary_yesterday_ends_at_today_start :
  (forall (cal : Calendar) now,
      Summary.end_date (Summary.getDateRangeForPeriod now "yesterday")
      = Summary.start_date (Summary.getDateRangeForPeriod now "today"))
  /\ (forall (cal : Calendar) now,
         exists y t,
           Tools.getDateRangeForPeriod now "yesterday" = Return y
           /\ Tools.getDateRangeForPeriod now "today" = Return t
           /\ Tools.end_date y = Tools.start_date t - 1)
  /\ Summary.getDateRangeForPeriod (cal := UTC.calendar) 1700000000000
       "yesterday"
     = {| Summary.start_date := "1699833600000";
          Summary.end_date := "1699920000000" |}
  /\ Summary.getDateRangeForPeriod (cal := UTC.calendar) 1700000000000
       "today"
     = {| Summary.start_date := "1699920000000";
          Summary.end_date := "1700000000000" |}
  /\ Tools.getDateRangeForPeriod (cal := UTC.calendar) 1700000000000
       "yesterday"
     = Return {| Tools.start_date := 1699833600000;
                 Tools.end_date := 1699919999999 |}
  /\ JS.parseInt "1699920000000" = Some 1699920000000.
Proof.
  split; [intros; apply PeriodFacts.summary_yesterday_end|].
  split; [intros; apply PeriodFacts.tools_yesterday_end|].
  repeat split; vm_compute; reflexivity.
Qed.

(** C4, as the code has it.  In [src/tools/timetracking.ts] every period
    outside the six report tokens ("custom" included) makes
    [getDateRangeForPeriod] throw "Invalid period: <period>".  In the
    summary tool, "custom" with a missing (or empty) bound throws "Custom
    period requires both start_date and end_date", which the handler
    answers as an error text without calling the service; and a period
    that is none of the tokens resolves to the range of "today". *)
Theorem C4_unrecognised_period :
  forall (cal : Calendar) (now : Z) (period : string),
    (~ In period SpecSide.reportPeriods ->
     Tools.getDateRangeForPeriod now period
     = Throw (PlainError ("Invalid period: " ++ period)))
    /\ (forall s e g,
           JS.truthyO s && JS.truthyO e = false ->
           Summary.resolveRange now
             {| Summary.sp_period := "custom"; Summary.sp_start_date := s;
                Summary.sp_end_date := e; Summary.sp_groupBy := g |}
           = Throw (PlainError
                      "Custom period requires both start_date and end_date"))
    /\ (forall s e g W clock report getTask getTimeEntries (w : W),
           JS.truthyO s && JS.truthyO e = false ->
           Summary.handleGetTimeTrackingSummary clock report getTask
             getTimeEntries
             {| Summary.sp_period := "custom"; Summary.sp_start_date := s;
                Summary.sp_end_date := e; Summary.sp_groupBy := g |} w
           = (Return
                (Summary.SummaryErrorText
                   "Error getting time tracking summary: Custom period requires both start_date and end_date"),
              w))
    /\ (~ In period SpecSide.summaryPeriods ->
        forall s e g,
          Summary.resolveRange now
            {| Summary.sp_period := period; Summary.sp_start_date := s;
               Summary.sp_end_date := e; Summary.sp_groupBy := g |}
          = Return (Summary.getDateRangeForPeriod now "today")).
Proof.
  intros cal now period. split; [|split; [|split]].
  - apply PeriodFacts.tools_unknown_period.
  - intros s e g H. unfold Summary.resolveRange. cbn.
    destruct (JS.truthyO s), (JS.truthyO e); try discriminate; reflexivity.
  - intros s e g W clock report getTask getTimeEntries w H.
    unfold Summary.handleGetTimeTrackingSummary, tryCatch, bind, Tools.getNow,
      lift, Summary.resolveRange. cbn.
    destruct (JS.truthyO s), (JS.truthyO e); try discriminate; reflexivity.
  - intros Hn s e g. unfold Summary.resolveRange. cbn.
    assert (Hc : String.eqb period "custom" = false).
    { apply (@PeriodFacts.eqb_of_not_in period _ SpecSide.summaryPeriods Hn).
      simpl. tauto. }
    rewrite Hc. f_equal. apply PeriodFacts.summary_unknown_period.
    intros Hi. apply Hn. unfold SpecSide.summaryPeriods.
    apply in_or_app. now left.
Qed.

(** C4, witness: "custom" and "tomorrow" at the demo instant. *)
Lemma C4_unrecognised_period_witness :
  Tools.getDateRangeForPeriod (cal := UTC.calendar) 1700000000000 "custom"
  = Throw (PlainError "Invalid period: custom")
  /\ Summary.resolveRange (cal := UTC.calendar) 1700000000000
       {| Summary.sp_period := "custom";
          Summary.sp_start_date := Some "1699920000000";
          Summary.sp_end_date := None; Summary.sp_groupBy := None |}
     = Throw (PlainError
                "Custom period requires both start_date and end_date")
  /\ Summary.handleGetTimeTrackingSummary (cal := UTC.calendar)
       Demo.w_now (Demo.getTimeTrackingReport (Some Demo.report))
       Demo.getTask Demo.getTimeEntries
       {| Summary.sp_period := "custom"; Summary.sp_start_date := None;
          Summary.sp_end_date := Some "1700000000000";
          Summary.sp_groupBy := None |} Demo.world
     = (Return
          (Summary.SummaryErrorText
             "Error getting time tracking summary: Custom period requires both start_date and end_date"),
        Demo.world)
  /\ Summary.resolveRange (cal := UTC.calendar) 1700000000000
       {| Summary.sp_period := "tomorrow"; Summary.sp_start_date := None;
          Summary.sp_end_date := None; Summary.sp_groupBy := None |}
     = Return {| Summary.start_date := "1699920000000";
                 Summary.end_date := "1700000000000" |}.
Proof.
  split; [|split; [|split]].
  - apply (proj1 (C4_unrecognised_period UTC.calendar 1700000000000 "custom")).
    vm_compute. intuition discriminate.
  - apply (proj1 (proj2 (C4_unrecognised_period UTC.calendar 1700000000000
                           "custom"))).
    reflexivity.
  - apply (proj1 (proj2 (proj2 (C4_unrecognised_period UTC.calendar
                                  1700000000000 "custom")))).
    reflexivity.
  - apply (proj2 (proj2 (proj2
             (C4_unrecognised_period UTC.calendar 1700000000000 "tomorrow")))).
    vm_compute. intuition discriminate.
Defined.

(** C4, the claim as stated fails: the summary tool resolves the unknown
    period "tomorrow" to today's range and answers with a summary. *)
Lemma C4_unknown_period_defaults_to_today :
  Summary.getDateRangeForPeriod (cal := UTC.calendar) 1700000000000 "tomorrow"
  = {| Summary.start_date := "1699920000000";
       Summary.end_date := "1700000000000" |}
  /\ exists body w',
      Summary.handleGetTimeTrackingSummary (cal := UTC.calendar)
        Demo.w_now (Demo.getTimeTrackingReport (Some Demo.report))
        Demo.getTask Demo.getTimeEntries
        {| Summary.sp_period := "tomorrow"; Summary.sp_start_date := None;
           Summary.sp_end_date := None; Summary.sp_groupBy := None |}
        Demo.world
      = (Return (Summary.SummaryOk body), w').
Proof.
  split.
  - vm_compute. reflexivity.
  - eexists. eexists. vm_compute. reflexivity.
Qed.


(* ================================================================== *)
(** * Group totals of the summary                                      *)
(* ================================================================== *)

Module GroupFacts.

Import SpecSide AsyncFacts Summary.

Section Sorting.
Variable A : Type.
Variable cmp : A -> A -> Z.
Variable f : A -> Z.

Lemma sum_insertSorted x l :
  fold_right Z.add 0 (map f (insertSorted cmp x l))
  = f x + fold_right Z.add 0 (map f l).
Proof.
  induction l as [|y l IH]; simpl; [reflexivity|].
  destruct (cmp x y <=? 0); simpl; [reflexivity|]. rewrite IH. lia.
Qed.

Lemma sum_sortBy l :
  fold_right Z.add 0 (map f (sortBy cmp l)) = fold_right Z.add 0 (map f l).
Proof.
  induction l as [|x l IH]; simpl; [reflexivity|].
  now rewrite sum_insertSorted, IH.
Qed.

Lemma Forall_insertSorted (P : A -> Prop) x l :
  P x -> Forall P l -> Forall P (insertSorted cmp x l).
Proof.
  intros Hx Hl. induction Hl as [|y l Hy Hl IH]; simpl.
  - now constructor.
  - destruct (cmp x y <=? 0); repeat constructor; auto.
Qed.

Lemma Forall_sortBy (P : A -> Prop) l : Forall P l -> Forall P (sortBy cmp l).
Proof.
  induction 1; simpl; [constructor | now apply Forall_insertSorted].
Qed.
End Sorting.

Section Dicts.
Variable V : Type.

Lemma get_app_miss key (obj : Dict.t V) v :
  Dict.get key obj = None ->
  Dict.get key (obj ++ [(key, v)])%list = Some v.
Proof.
  induction obj as [|[k x] obj IH]; simpl; intros H.
  - now rewrite String.eqb_refl.
  - destruct (String.eqb k key); [discriminate | now apply IH].
Qed.

Lemma get_ensure key init (obj : Dict.t V) :
  exists v, Dict.get key (Dict.ensure key init obj) = Some v.
Proof.
  unfold Dict.ensure. destruct (Dict.get key obj) as [v|] eqn:E.
  - now exists v.
  - exists init. now apply get_app_miss.
Qed.

Lemma modify_modify key (g h : V -> V) (obj : Dict.t V) :
  Dict.modify key g (Dict.modify key h obj)
  = Dict.modify key (fun v => g (h v)) obj.
Proof.
  induction obj as [|[k x] obj IH]; simpl; [reflexivity|].
  destruct (String.eqb k key) eqn:E; simpl; rewrite E; [reflexivity|].
  now rewrite IH.
Qed.

Lemma Forall_modify (P : string * V -> Prop) key (g : V -> V) obj :
  (forall k v, P (k, v) -> P (k, g v)) ->
  Forall P obj -> Forall P (Dict.modify key g obj).
Proof.
  intros Hg. induction 1 as [|[k x] obj Hx Hobj IH]; simpl.
  - constructor.
  - destruct (String.eqb k key); constructor; auto.
Qed.

Lemma Forall_ensure (P : string * V -> Prop) key init obj :
  P (key, init) -> Forall P obj -> Forall P (Dict.ensure key init obj).
Proof.
  intros Hi Hobj. unfold Dict.ensure. destruct (Dict.get key obj); auto.
  apply Forall_app. split; [assumption | now constructor].
Qed.
End Dicts.

(** Adding to a task that is present adds as much to the sum. *)
Lemma sum_modify taskId amount tasks v :
  Dict.get taskId tasks = Some v ->
  taskItemSum (Dict.modify taskId (addTaskTime amount) tasks)
  = taskItemSum tasks + amount.
Proof.
  unfold taskItemSum.
  induction tasks as [|[k x] tasks IH]; simpl; [discriminate|].
  destruct (String.eqb k taskId); simpl; intros H.
  - lia.
  - rewrite (IH H). lia.
Qed.

(** Creating a task at time 0 leaves the sum alone. *)
Lemma sum_ensure taskId name tasks :
  taskItemSum
    (Dict.ensure taskId
       {| ti_id := taskId; ti_name := name; ti_time := 0 |} tasks)
  = taskItemSum tasks.
Proof.
  unfold Dict.ensure, taskItemSum.
  destruct (Dict.get taskId tasks); [reflexivity|].
  rewrite map_app, fold_right_app. simpl.
  reflexivity.
Qed.

(** The four statements of [accumulate] keep every group balanced. *)
Lemma accumulate_balanced key name taskId taskName amount items :
  Forall balanced items ->
  Forall balanced (accumulate key name taskId taskName amount items).
Proof.
  intros H. unfold accumulate. rewrite !modify_modify.
  apply Forall_modify.
  - intros k v Hv. unfold balanced in *. simpl in *.
    destruct (get_ensure taskId
                {| ti_id := taskId; ti_name := taskName; ti_time := 0 |}
                (si_tasks v)) as [t Ht].
    erewrite sum_modify by exact Ht. rewrite sum_ensure. lia.
  - apply Forall_ensure; [reflexivity | assumption].
Qed.

Section Handler.
Context {cal : Calendar}.
Variable W : Type.
Variable clock : W -> Z.
Variable getTimeTrackingReport : DateRange -> Async W (option TimeReport).
Variable getTask : string -> Async W TaskDetail.
Variable getTimeEntries : Filters -> Async W (list TimeEntry).

Lemma addEntries_balanced taskId task entries items :
  Forall balanced items ->
  Forall balanced (fold_left (addEntry taskId task) entries items).
Proof.
  revert items. induction entries as [|e entries IH]; intros items H; simpl.
  - assumption.
  - apply IH. unfold addEntry. now apply accumulate_balanced.
Qed.

Lemma processTasks_balanced groupBy dateRange tasks :
  forall items w items' w',
    Forall balanced items ->
    processTasks getTask getTimeEntries groupBy dateRange tasks items w
    = (Return items', w') ->
    Forall balanced items'.
Proof.
  induction tasks as [|[taskId taskData] tasks IH];
    intros items w items' w' Hb H; simpl in H.
  - unfold ret in H. now inversion H; subst.
  - apply bind_inv in H. destruct H as (task & w1 & _ & H).
    destruct (String.eqb groupBy "day").
    + apply bind_inv in H. destruct H as (entries & w2 & _ & H).
      eapply IH; [|exact H]. now apply addEntries_balanced.
    + destruct (if String.eqb groupBy "task" then _ else _) as [k n].
      eapply IH; [|exact H]. now apply accumulate_balanced.
Qed.

Lemma processUsers_balanced groupBy dateRange data :
  forall total items w total' items' w',
    Forall balanced items ->
    processUsers getTask getTimeEntries groupBy dateRange data total items w
    = (Return (total', items'), w') ->
    Forall balanced items'.
Proof.
  induction data as [|u data IH];
    intros total items w total' items' w' Hb H; simpl in H.
  - unfold ret in H. now inversion H; subst.
  - apply bind_inv in H. destruct H as (items1 & w1 & H1 & H).
    eapply IH; [|exact H]. eapply processTasks_balanced; eassumption.
Qed.

Lemma collect_balanced groupBy dateRange report w total items w' :
  collect getTask getTimeEntries groupBy dateRange report w
  = (Return (total, items), w') ->
  Forall balanced items.
Proof.
  unfold collect.
  destruct report as [[[data|]]|]; intros H;
    try (unfold ret in H; inversion H; constructor).
  eapply processUsers_balanced; [constructor | exact H].
Qed.

(** Every group summary built from a balanced entry carries, in its sorted
    tasks, exactly the group's time. *)
Lemma groupSummaryOf_sum total kv :
  balanced kv ->
  groupTaskSum (groupSummaryOf total kv) = g_time (groupSummaryOf total kv).
Proof.
  intros Hb. unfold groupTaskSum, groupSummaryOf. cbn [g_tasks g_time].
  rewrite sum_sortBy, map_map. cbn [taskSummaryOf ts_time].
  symmetry. exact Hb.
Qed.

Lemma summarize_sums total items :
  Forall balanced items ->
  Forall (fun g => groupTaskSum g = g_time g) (summarize total items).
Proof.
  intros H. unfold summarize. apply Forall_sortBy.
  apply Forall_map. revert H. apply Forall_impl.
  intros kv. apply groupSummaryOf_sum.
Qed.

Lemma handler_sums parameters w body w' :
  handleGetTimeTrackingSummary clock getTimeTrackingReport getTask
    getTimeEntries parameters w
  = (Return (SummaryOk body), w') ->
  Forall (fun g => groupTaskSum g = g_time g) (sb_summary body).
Proof.
  unfold handleGetTimeTrackingSummary, tryCatch.
  match goal with
  | |- (match ?m w with _ => _ end) = _ -> _ =>
      destruct (m w) as [[r|e] w1] eqn:E
  end; [|unfold ret; intros H; inversion H].
  intros H. inversion H; subst r w1. clear H.
  apply bind_inv in E. destruct E as (now & w1 & _ & E).
  apply bind_inv in E. destruct E as (dateRange & w2 & _ & E).
  apply bind_inv in E. destruct E as (report & w3 & _ & E).
  apply bind_inv in E. destruct E as ([total items] & w4 & Hc & E).
  unfold ret in E. inversion E; subst. cbn [sb_summary].
  apply summarize_sums. eapply collect_balanced. exact Hc.
Qed.

(** Collaborators that answer make the loops answer. *)
Lemma processTasks_answers groupBy dateRange tasks :
  (forall id, answers (getTask id)) ->
  (forall f, answers (getTimeEntries f)) ->
  forall items,
    answers (processTasks getTask getTimeEntries groupBy dateRange tasks items).
Proof.
  intros Ht He.
  induction tasks as [|[taskId taskData] tasks IH]; intros items w; simpl.
  - unfold ret. eauto.
  - destruct (Ht taskId w) as (task & w1 & H1).
    erewrite bind_return by exact H1.
    destruct (String.eqb groupBy "day").
    + destruct (He {| f_task_id := Some taskId;
                      f_start_date := start_date dateRange;
                      f_end_date := end_date dateRange |} w1)
        as (entries & w2 & H2).
      erewrite bind_return by exact H2. apply IH.
    + destruct (if String.eqb groupBy "task" then _ else _) as [k n].
      apply IH.
Qed.

Lemma processUsers_answers groupBy dateRange data :
  (forall id, answers (getTask id)) ->
  (forall f, answers (getTimeEntries f)) ->
  forall total items,
    answers (processUsers getTask getTimeEntries groupBy dateRange data
               total items).
Proof.
  intros Ht He.
  induction data as [|u data IH]; intros total items w; simpl.
  - unfold ret. eauto.
  - destruct (processTasks_answers groupBy dateRange (ur_tasks u) Ht He
                items w) as (items1 & w1 & H1).
    erewrite bind_return by exact H1. apply IH.
Qed.

(** With collaborators that answer and a period other than "custom", the
    handler answers with a summary. *)
Lemma handler_answers parameters :
  (forall r, answers (getTimeTrackingReport r)) ->
  (forall id, answers (getTask id)) ->
  (forall f, answers (getTimeEntries f)) ->
  String.eqb (sp_period parameters) "custom" = false ->
  forall w, exists body w',
    handleGetTimeTrackingSummary clock getTimeTrackingReport getTask
      getTimeEntries parameters w
    = (Return (SummaryOk body), w').
Proof.
  intros Hr Ht He Hp w.
  unfold handleGetTimeTrackingSummary.
  unfold tryCatch, bind at 1 2, Tools.getNow, lift, resolveRange.
  rewrite Hp.
  set (dr := getDateRangeForPeriod (clock w) (sp_period parameters)).
  destruct (Hr dr w) as (report & w1 & H1).
  erewrite bind_return by exact H1.
  set (groupBy := match sp_groupBy parameters with
                  | Some g => g | None => "task" end).
  assert (Hc : exists c w2,
             collect getTask getTimeEntries groupBy dr report w1
             = (Return c, w2)).
  { unfold collect. destruct report as [[[data|]]|];
      try (unfold ret; eauto).
    apply processUsers_answers; assumption. }
  destruct Hc as ([total items] & w2 & H2).
  erewrite bind_return by exact H2. unfold ret. eauto.
Qed.

End Handler.

(** The end-to-end scenario of the specification: grouped by task, the
    report yields A (3000, 60%) before B (2000, 40%). *)
Lemma scenario_by_task :
  exists body w',
    handleGetTimeTrackingSummary (cal := UTC.calendar) Demo.w_now
      (Demo.getTimeTrackingReport (Some Demo.scenario)) Demo.getTask
      Demo.getTimeEntries
      {| sp_period := "today"; sp_start_date := None; sp_end_date := None;
         sp_groupBy := Some "task" |} Demo.world
    = (Return (SummaryOk body), w')
    /\ map (fun g => (groupName g, g_time g, g_percentage g))
         (sb_summary body)
       = [("A", 3000, 60%float); ("B", 2000, 40%float)].
Proof. eexists. eexists. split; vm_compute; reflexivity. Qed.

End GroupFacts.

(** C7: in every group summary the summary handler produces, for every
    report, grouping mode and behaviour of the collaborators, the task times
    of the group add up to the group's time exactly, also when several
    users logged time on one task of the group. *)
Theorem C7_group_time_is_sum_of_its_tasks :
  forall (cal : Calendar) (W : Type) (clock : W -> Z)
    (getTimeTrackingReport : Summary.DateRange -> Async W (option TimeReport))
    (getTask : string -> Async W TaskDetail)
    (getTimeEntries : Summary.Filters -> Async W (list TimeEntry))
    parameters w body w',
    Summary.handleGetTimeTrackingSummary clock getTimeTrackingReport getTask
      getTimeEntries parameters w
    = (Return (Summary.SummaryOk body), w') ->
    Forall (fun g => SpecSide.groupTaskSum g = Summary.g_time g)
      (Summary.sb_summary body).
Proof.
  intros. eapply GroupFacts.handler_sums. eassumption.
Qed.


(** C7, witness: the demo report (two users on task "t1") summarised by
    task against the demo workspace. *)
Lemma C7_group_time_witness :
  exists body w',
    Summary.handleGetTimeTrackingSummary (cal := UTC.calendar)
      Demo.w_now (Demo.getTimeTrackingReport (Some Demo.report))
      Demo.getTask Demo.getTimeEntries
      {| Summary.sp_period := "yesterday"; Summary.sp_start_date := None;
         Summary.sp_end_date := None; Summary.sp_groupBy := Some "task" |}
      Demo.world
    = (Return (Summary.SummaryOk body), w')
    /\ map Summary.g_time (Summary.sb_summary body) = [5000; 1000]
    /\ Forall (fun g => SpecSide.groupTaskSum g = Summary.g_time g)
         (Summary.sb_summary body).
Proof.
  eexists. eexists. split; [vm_compute; reflexivity|].
  split; [reflexivity|].
  eapply (@C7_group_time_is_sum_of_its_tasks UTC.calendar Demo.World
            Demo.w_now (Demo.getTimeTrackingReport (Some Demo.report))
            Demo.getTask Demo.getTimeEntries
            {| Summary.sp_period := "yesterday";
               Summary.sp_start_date := None;
               Summary.sp_end_date := None;
               Summary.sp_groupBy := Some "task" |}
            Demo.world).
  vm_compute. reflexivity.
Defined.

(* ================================================================== *)
(** * Task-name resolution                                             *)
(* ================================================================== *)

Module ResolutionFacts.

Import SpecSide AsyncFacts Summary.

Section ResolutionFacts.
Context {fold : JS.CaseMapping}.
Variable W : Type.
Variable getWorkspaceHierarchy : Async W Hierarchy.
Variable getTasks : string -> Async W (list Task).

Lemma searchLists_ext name lists (k1 k2 : Async W (option string)) :
  (forall w, k1 w = k2 w) ->
  forall w, searchLists getTasks name lists k1 w
            = searchLists getTasks name lists k2 w.
Proof.
  intros Hk. induction lists as [|l lists IH]; intros w; simpl.
  - apply Hk.
  - unfold bind. destruct (getTasks (node_id l) w) as [[tasks|e] w1];
      [|reflexivity].
    destruct (find (nameMatches name) tasks); [reflexivity | apply IH].
Qed.

Lemma searchLists_app name a b next :
  forall w, searchLists getTasks name (a ++ b) next w
            = searchLists getTasks name a (searchLists getTasks name b next) w.
Proof.
  induction a as [|l a IH]; intros w; simpl.
  - reflexivity.
  - unfold bind. destruct (getTasks (node_id l) w) as [[tasks|e] w1];
      [|reflexivity].
    destruct (find (nameMatches name) tasks); [reflexivity | apply IH].
Qed.

Lemma searchFolders_flat name folders next :
  forall w, searchFolders getTasks name folders next w
            = searchLists getTasks name
                (flat_map (fun folder =>
                             filter (isType ListT) (node_children folder))
                   folders) next w.
Proof.
  induction folders as [|f folders IH]; intros w; simpl.
  - reflexivity.
  - rewrite searchLists_app. apply searchLists_ext. exact IH.
Qed.

(** The three nested loops visit the lists in traversal order. *)
Lemma searchSpaces_flat name spaces :
  forall w, searchSpaces getTasks name spaces w
            = searchLists getTasks name (flat_map listsOfSpace spaces)
                (ret None) w.
Proof.
  induction spaces as [|s spaces IH]; intros w; simpl.
  - reflexivity.
  - unfold listsOfSpace at 1. rewrite <- app_assoc.
    rewrite searchLists_app. apply searchLists_ext. intros w1.
    rewrite searchLists_app, searchFolders_flat.
    apply searchLists_ext. exact IH.
Qed.

(** Lists without a match are passed over; the first list with a match
    decides. *)
Lemma searchLists_first name pre l post next w w' tasks w'' task :
  missed getTasks (nameMatches name) pre w w' ->
  getTasks (node_id l) w' = (Return tasks, w'') ->
  find (nameMatches name) tasks = Some task ->
  searchLists getTasks name (pre ++ l :: post) next w
  = (Return (Some (task_id task)), w'').
Proof.
  intros Hm Hl Hf. induction Hm as [w | p rest w w1 w' ts Hp Hn Hm IH]; simpl.
  - unfold bind. now rewrite Hl, Hf.
  - unfold bind. rewrite Hp, Hn. now apply IH.
Qed.

(** Lists without a match, all of them: nothing is found. *)
Lemma searchLists_none name lists w w' :
  missed getTasks (nameMatches name) lists w w' ->
  searchLists getTasks name lists (ret None) w = (Return None, w').
Proof.
  induction 1 as [w | p rest w w1 w' ts Hp Hn Hm IH]; simpl.
  - reflexivity.
  - unfold bind. now rewrite Hp, Hn.
Qed.

Lemma findTaskIDByName_first name h pre l post w w1 w2 tasks w3 task :
  getWorkspaceHierarchy w = (Return h, w1) ->
  traversal h = (pre ++ l :: post)%list ->
  missed getTasks (nameMatches name) pre w1 w2 ->
  getTasks (node_id l) w2 = (Return tasks, w3) ->
  find (nameMatches name) tasks = Some task ->
  findTaskIDByName getWorkspaceHierarchy getTasks name w
  = (Return (Some (task_id task)), w3).
Proof.
  intros Hh Ht Hm Hl Hf. unfold findTaskIDByName.
  apply tryCatch_return. erewrite bind_return by exact Hh.
  rewrite searchSpaces_flat. fold (traversal h). rewrite Ht.
  eapply searchLists_first; eassumption.
Qed.

(** The comparison is equality of the lower-cased names. *)
Lemma nameMatches_iff name t :
  nameMatches name t = true
  <-> JS.toLowerCase (task_name t) = JS.toLowerCase name.
Proof. unfold nameMatches. apply String.eqb_eq. Qed.

(** A task set that holds a matching task yields a match: the first one. *)
Lemma find_first_match name tasks t :
  In t tasks -> nameMatches name t = true ->
  exists t', find (nameMatches name) tasks = Some t'
             /\ JS.toLowerCase (task_name t') = JS.toLowerCase name.
Proof.
  intros Hi Hm. destruct (find (nameMatches name) tasks) as [t'|] eqn:E.
  - exists t'. split; [reflexivity|].
    apply find_some in E. now apply nameMatches_iff.
  - rewrite (find_none _ _ E t Hi) in Hm. discriminate.
Qed.

(** On ASCII names the comparison is that of the names with A-Z folded. *)
Lemma nameMatches_ascii name t :
  JS.isAscii name = true -> JS.isAscii (task_name t) = true ->
  nameMatches name t
  = String.eqb (JS.lowerAscii (task_name t)) (JS.lowerAscii name).
Proof.
  intros Hn Ht. unfold nameMatches.
  now rewrite (JS.toLowerCase_ascii _ Hn), (JS.toLowerCase_ascii _ Ht).
Qed.

End ResolutionFacts.

End ResolutionFacts.

(** C6: task-name resolution matches a task exactly when its lower-cased
    name equals the lower-cased query, lower-casing being the host's
    [String.prototype.toLowerCase]; so a task named "Fix Bug" in a fetched
    task set is matched by the query "fix bug" (and not by "fix"); and
    [findTaskIDByName] answers with the first match of the first list, in
    traversal order (per space the lists directly under it, then the lists
    under its folders), that holds a match: lists before it without a match
    are passed over, lists after it are not consulted, and no ambiguity
    error exists. *)
Theorem C6_first_match_case_insensitive :
  forall (fold : JS.CaseMapping) (W : Type)
    (getWorkspaceHierarchy : Async W Hierarchy)
    (getTasks : string -> Async W (list Task)),
    (forall tasks t,
        In t tasks -> task_name t = "Fix Bug" ->
        exists t', find (Summary.nameMatches "fix bug") tasks = Some t'
                   /\ JS.toLowerCase (task_name t') = "fix bug")
    /\ (forall name t,
           Summary.nameMatches name t = true
           <-> JS.toLowerCase (task_name t) = JS.toLowerCase name)
    /\ (forall id, Summary.nameMatches "fix"
                     {| task_id := id; task_name := "Fix Bug" |} = false)
    /\ (forall name h pre l post w w1 w2 tasks w3 task,
           getWorkspaceHierarchy w = (Return h, w1) ->
           SpecSide.traversal h = (pre ++ l :: post)%list ->
           SpecSide.missed getTasks (Summary.nameMatches name) pre w1 w2 ->
           getTasks (node_id l) w2 = (Return tasks, w3) ->
           find (Summary.nameMatches name) tasks = Some task ->
           Summary.findTaskIDByName getWorkspaceHierarchy getTasks name w
           = (Return (Some (task_id task)), w3)).
Proof.
  intros fold W getH getTasks. split; [|split; [|split]].
  - intros tasks t Hi Hn.
    assert (Hq : JS.toLowerCase "fix bug" = "fix bug")
      by (now rewrite JS.toLowerCase_ascii).
    destruct (@ResolutionFacts.find_first_match fold "fix bug" tasks t Hi)
      as (t' & Hf & Hl).
    + rewrite ResolutionFacts.nameMatches_ascii;
        [|reflexivity|now rewrite Hn].
      now rewrite Hn.
    + exists t'. split; [exact Hf|]. now rewrite Hl.
  - apply ResolutionFacts.nameMatches_iff.
  - intros id. now rewrite ResolutionFacts.nameMatches_ascii.
  - intros. eapply ResolutionFacts.findTaskIDByName_first; eassumption.
Qed.

(** C6, witness, on the reference host for Latin-1 text: in the demo
    workspace the lists are visited in the order L0, L1, L2 (L2 sits in a
    folder that precedes L0 and L1 among the children of the space);
    "fix bug" misses L0 and is answered from L1 by the task "Fix Bug",
    although L2 holds "FIX BUG"; and with an upper-case accented name in L0
    and the same name in lower case in L1, the lower-case query is answered
    from L0, the first list, and L1 is not fetched. *)
Lemma C6_first_match_witness :
  (exists t',
      find (Summary.nameMatches (fold := Latin1.caseMapping) "fix bug")
        (Demo.tasksOf "L1") = Some t'
      /\ JS.toLowerCase (CaseMapping := Latin1.caseMapping) (task_name t')
         = "fix bug")
  /\ Summary.findTaskIDByName (fold := Latin1.caseMapping)
       Demo.getWorkspaceHierarchy Demo.getTasks "fix bug" Demo.world
     = (Return (Some "t1"),
        Demo.logged "getTasks L1"
          (Demo.logged "getTasks L0"
             (Demo.logged "getWorkspaceHierarchy" Demo.world)))
  /\ Summary.findTaskIDByName (fold := Latin1.caseMapping)
       Demo.getWorkspaceHierarchy Demo.getTasksAccented
       (Demo.eAcuteLower ++ "cole") Demo.world
     = (Return (Some "t5"),
        Demo.logged "getTasks L0"
          (Demo.logged "getWorkspaceHierarchy" Demo.world)).
Proof.
  split; [|split].
  - apply (proj1 (C6_first_match_case_insensitive Latin1.caseMapping
                    Demo.getWorkspaceHierarchy Demo.getTasks)
             (Demo.tasksOf "L1")
             {| task_id := "t1"; task_name := "Fix Bug" |}).
    + simpl. tauto.
    + reflexivity.
  - refine (proj2 (proj2 (proj2 (C6_first_match_case_insensitive
                                   Latin1.caseMapping
                                   Demo.getWorkspaceHierarchy Demo.getTasks)))
              "fix bug" Demo.hierarchy [Demo.mkList "L0" "Planning"]
              (Demo.mkList "L1" "Inbox") [Demo.mkList "L2" "Backlog"]
              Demo.world
              (Demo.logged "getWorkspaceHierarchy" Demo.world)
              (Demo.logged "getTasks L0"
                 (Demo.logged "getWorkspaceHierarchy" Demo.world))
              (Demo.tasksOf "L1")
              (Demo.logged "getTasks L1"
                 (Demo.logged "getTasks L0"
                    (Demo.logged "getWorkspaceHierarchy" Demo.world)))
              {| task_id := "t1"; task_name := "Fix Bug" |} _ _ _ _ _).
    + reflexivity.
    + reflexivity.
    + eapply SpecSide.missed_cons; [reflexivity | reflexivity |].
      apply SpecSide.missed_nil.
    + reflexivity.
    + reflexivity.
  - refine (proj2 (proj2 (proj2 (C6_first_match_case_insensitive
                                   Latin1.caseMapping
                                   Demo.getWorkspaceHierarchy
                                   Demo.getTasksAccented)))
              (Demo.eAcuteLower ++ "cole") Demo.hierarchy []
              (Demo.mkList "L0" "Planning")
              [Demo.mkList "L1" "Inbox"; Demo.mkList "L2" "Backlog"]
              Demo.world
              (Demo.logged "getWorkspaceHierarchy" Demo.world)
              (Demo.logged "getWorkspaceHierarchy" Demo.world)
              (Demo.tasksAccented "L0")
              (Demo.logged "getTasks L0"
                 (Demo.logged "getWorkspaceHierarchy" Demo.world))
              {| task_id := "t5";
                 task_name := Demo.eAcuteUpper ++ "COLE" |} _ _ _ _ _).
    + reflexivity.
    + reflexivity.
    + apply SpecSide.missed_nil.
    + reflexivity.
    + reflexivity.
Defined.

(* ================================================================== *)
(** * Timers                                                           *)
(* ================================================================== *)

Module TimerFacts.

Import SpecSide AsyncFacts Summary.

Section TimerFacts.
Context {cal : Calendar} {fold : JS.CaseMapping}.
Variable W : Type.
Variable clock : W -> Z.
Variable getWorkspaceHierarchy : Async W Hierarchy.
Variable getTasks : string -> Async W (list Task).
Variable getCurrentTimer : Async W (option TimeEntry).
Variable startTimer : string -> StartTimerOptions -> Async W TimeEntry.
Variable stopTimer : Async W TimeEntry.

(** A task identified and a timer running: the handler answers "not
    started" from the state the timer query left. *)
Lemma handleStartTimer_running parameters w taskId w1 timer w2 :
  resolveTask getWorkspaceHierarchy getTasks (p_taskId parameters)
    (p_taskName parameters) w = (Return taskId, w1) ->
  getCurrentTimer w1 = (Return (Some timer), w2) ->
  handleStartTimer getWorkspaceHierarchy getTasks getCurrentTimer startTimer
    parameters w
  = (Return
       (NotStarted
          ("There's already a timer running for task " ++ JS.dq
           ++ entry_task_name timer ++ JS.dq ++ ". Please stop it first.")
          (entry_task_id timer) (entry_task_name timer)
          (formatDate (entry_start timer)) (entry_description timer)),
     w2).
Proof.
  intros Hr Hc. unfold handleStartTimer.
  erewrite bind_return by exact Hr.
  apply tryCatch_return. erewrite bind_return by exact Hc. reflexivity.
Qed.

(** No task identified: the handler throws before any call. *)
Lemma handleStartTimer_no_task parameters w :
  JS.truthyO (p_taskId parameters) = false ->
  JS.truthyO (p_taskName parameters) = false ->
  handleStartTimer getWorkspaceHierarchy getTasks getCurrentTimer startTimer
    parameters w
  = (Throw (PlainError "Either taskId or taskName must be provided"), w).
Proof.
  intros Hi Hn. unfold handleStartTimer, resolveTask, bind, ret, throw.
  rewrite Hn. cbn [andb]. rewrite Hi. reflexivity.
Qed.

(** [findTaskIDByName] never rejects. *)
Lemma findTaskIDByName_answers name :
  answers (findTaskIDByName getWorkspaceHierarchy getTasks name).
Proof.
  intros w. unfold findTaskIDByName, tryCatch.
  match goal with
  | |- exists a w', (match ?m with _ => _ end) = _ =>
      destruct m as [[r|e] w1]
  end; unfold ret; eauto.
Qed.

(** A failing hierarchy fetch is answered as "no such task". *)
Lemma findTaskIDByName_hierarchy_fails name w e w1 :
  getWorkspaceHierarchy w = (Throw e, w1) ->
  findTaskIDByName getWorkspaceHierarchy getTasks name w = (Return None, w1).
Proof.
  intros H. unfold findTaskIDByName.
  erewrite tryCatch_throw; [reflexivity|].
  apply bind_throw. exact H.
Qed.

(** A failing task-listing fetch, before a match, likewise. *)
Lemma findTaskIDByName_listing_fails name h pre l post w w1 w2 e w3 :
  getWorkspaceHierarchy w = (Return h, w1) ->
  traversal h = (pre ++ l :: post)%list ->
  missed getTasks (nameMatches name) pre w1 w2 ->
  getTasks (node_id l) w2 = (Throw e, w3) ->
  findTaskIDByName getWorkspaceHierarchy getTasks name w = (Return None, w3).
Proof.
  intros Hh Ht Hm Hl. unfold findTaskIDByName.
  erewrite tryCatch_throw; [reflexivity|].
  erewrite bind_return by exact Hh.
  rewrite ResolutionFacts.searchSpaces_flat. fold (traversal h). rewrite Ht.
  clear Hh Ht. induction Hm as [wa | p rest wa wb wc ts Hp Hn Hm IH]; simpl.
  - apply bind_throw. exact Hl.
  - erewrite bind_return by exact Hp. rewrite Hn. apply IH. exact Hl.
Qed.

(** What [handleStartTimer] does once the name lookup has come back
    empty-handed, for whatever reason. *)
Lemma handleStartTimer_unresolved parameters name w w1 :
  p_taskName parameters = Some name ->
  JS.truthyS name = true ->
  JS.truthyO (p_taskId parameters) = false ->
  findTaskIDByName getWorkspaceHierarchy getTasks name w = (Return None, w1) ->
  handleStartTimer getWorkspaceHierarchy getTasks getCurrentTimer startTimer
    parameters w
  = (Throw (PlainError
              ("Task with name " ++ JS.dq ++ name ++ JS.dq ++ " not found")),
     w1).
Proof.
  intros Hn Ht Hi Hf. unfold handleStartTimer, resolveTask.
  rewrite Hn, Hi. cbn [JS.truthyO Tools.orEmpty]. rewrite Ht. cbn [andb negb].
  unfold bind. rewrite Hf. reflexivity.
Qed.

(** "No timer" is answered as such by every handler of this module. *)
Lemma handleGetCurrentTimer_none w w1 :
  getCurrentTimer w = (Return None, w1) ->
  handleGetCurrentTimer clock getCurrentTimer w
  = (Return (NotRunning "No timer is currently running"), w1).
Proof.
  intros H. unfold handleGetCurrentTimer. apply tryCatch_return.
  erewrite bind_return by exact H. reflexivity.
Qed.

Lemma handleStopTimer_none w w1 :
  getCurrentTimer w = (Return None, w1) ->
  handleStopTimer getCurrentTimer stopTimer w
  = (Return (NothingToStop "No timer is currently running"), w1).
Proof.
  intros H. unfold handleStopTimer. apply tryCatch_return.
  erewrite bind_return by exact H. reflexivity.
Qed.

Lemma handleGetCurrentTimer_error w e w1 :
  getCurrentTimer w = (Throw e, w1) ->
  handleGetCurrentTimer clock getCurrentTimer w
  = (Return (CurrentErrorText ("Error getting current timer: " ++ message e)),
     w1).
Proof.
  intros H. unfold handleGetCurrentTimer.
  erewrite tryCatch_throw; [reflexivity|]. apply bind_throw. exact H.
Qed.

Lemma tool_handler_none w w1 :
  getCurrentTimer w = (Return None, w1) ->
  Tools.getCurrentTimerTool_handler clock getCurrentTimer w
  = (Return Tools.NoTimerRunning, w1).
Proof.
  intros H. unfold Tools.getCurrentTimerTool_handler. apply tryCatch_return.
  erewrite bind_return by exact H. reflexivity.
Qed.

Lemma resource_none w w1 :
  getCurrentTimer w = (Return None, w1) ->
  Resources.getCurrentTimerAsText clock getCurrentTimer w
  = (Return ("# Timer Status" ++ Resources.nl ++ Resources.nl
             ++ "No timer is currently running."), w1).
Proof.
  intros H. unfold Resources.getCurrentTimerAsText. apply tryCatch_return.
  erewrite bind_return by exact H. reflexivity.
Qed.

(** A rejecting timer query is answered, not thrown, by each of the five
    operations that ask it. *)
Lemma handleStopTimer_error w e w1 :
  getCurrentTimer w = (Throw e, w1) ->
  handleStopTimer getCurrentTimer stopTimer w
  = (Return (StopErrorText ("Error stopping timer: " ++ message e)), w1).
Proof.
  intros H. unfold handleStopTimer.
  erewrite tryCatch_throw; [reflexivity|]. apply bind_throw. exact H.
Qed.

Lemma tool_handler_error w e w1 :
  getCurrentTimer w = (Throw e, w1) ->
  Tools.getCurrentTimerTool_handler clock getCurrentTimer w
  = (Return (Tools.StatusError (message e)), w1).
Proof.
  intros H. unfold Tools.getCurrentTimerTool_handler.
  erewrite tryCatch_throw; [reflexivity|]. apply bind_throw. exact H.
Qed.

Lemma resource_error w e w1 :
  getCurrentTimer w = (Throw e, w1) ->
  Resources.getCurrentTimerAsText clock getCurrentTimer w
  = (Return ("Error getting current timer: " ++ message e), w1).
Proof.
  intros H. unfold Resources.getCurrentTimerAsText.
  erewrite tryCatch_throw; [reflexivity|]. apply bind_throw. exact H.
Qed.

Lemma handleStartTimer_error parameters w taskId w1 e w2 :
  resolveTask getWorkspaceHierarchy getTasks (p_taskId parameters)
    (p_taskName parameters) w = (Return taskId, w1) ->
  getCurrentTimer w1 = (Throw e, w2) ->
  handleStartTimer getWorkspaceHierarchy getTasks getCurrentTimer startTimer
    parameters w
  = (Return (StartErrorText ("Error starting timer: " ++ message e)), w2).
Proof.
  intros Hr Hc. unfold handleStartTimer.
  erewrite bind_return by exact Hr.
  erewrite tryCatch_throw; [reflexivity|]. apply bind_throw. exact Hc.
Qed.

(** A task identified and no timer running: the handler has no "no timer"
    status; it calls the service's [startTimer] and answers with what that
    call says. *)
Lemma handleStartTimer_idle parameters w taskId w1 w2 :
  resolveTask getWorkspaceHierarchy getTasks (p_taskId parameters)
    (p_taskName parameters) w = (Return taskId, w1) ->
  getCurrentTimer w1 = (Return None, w2) ->
  handleStartTimer getWorkspaceHierarchy getTasks getCurrentTimer startTimer
    parameters w
  = match startTimer taskId
            {| o_description := Tools.orEmpty (p_description parameters);
               o_billable := match p_billable parameters with
                             | Some b => b | None => false end;
               o_tags := match p_tags parameters with
                         | Some t => t | None => [] end |} w2 with
    | (Return timeEntry, w3) =>
        (Return (Started
                   ("Timer started for task " ++ JS.dq
                    ++ entry_task_name timeEntry ++ JS.dq)
                   timeEntry (formatDate (entry_start timeEntry))), w3)
    | (Throw e, w3) =>
        (Return (StartErrorText ("Error starting timer: " ++ message e)), w3)
    end.
Proof.
  intros Hr Hc. unfold handleStartTimer.
  erewrite bind_return by exact Hr.
  unfold tryCatch, bind, ret. rewrite Hc.
  destruct (startTimer taskId _ w2) as [[timeEntry|e] w3]; reflexivity.
Qed.

End TimerFacts.

Section Services.
Variable W : Type.
Variable requestCurrent : Async W Body.

(** First generation: a 404 is "no timer". *)
Lemma v1_not_found w e w1 :
  requestCurrent w = (Throw e, w1) ->
  response_status e = Some 404 ->
  Service.getCurrentTimer requestCurrent w = (Return None, w1).
Proof.
  intros H Hs. unfold Service.getCurrentTimer.
  erewrite tryCatch_throw by (apply bind_throw; exact H).
  rewrite Hs. reflexivity.
Qed.

(** First generation: a body without [data] is "no timer". *)
Lemma v1_empty w w1 :
  requestCurrent w = (Return (BodyObject None), w1) ->
  Service.getCurrentTimer requestCurrent w = (Return None, w1).
Proof.
  intros H. unfold Service.getCurrentTimer. apply tryCatch_return.
  erewrite bind_return by exact H. reflexivity.
Qed.

(** Second generation: a body without [data] is "no timer". *)
Lemma v2_empty w w1 :
  requestCurrent w = (Return (BodyObject None), w1) ->
  ServiceV2.getCurrentTimer requestCurrent w = (Return None, w1).
Proof.
  intros H. unfold ServiceV2.getCurrentTimer. apply tryCatch_return.
  erewrite bind_return by exact H. reflexivity.
Qed.

(** Second generation: a failed request is rethrown, whatever its status. *)
Lemma v2_failed w e w1 :
  requestCurrent w = (Throw e, w1) ->
  ServiceV2.getCurrentTimer requestCurrent w
  = (Throw (if ServiceV2.isServiceError e then e
            else ClickUpServiceError
                   ("Failed to get current timer: " ++ message e)
                   UNKNOWN None),
     w1).
Proof.
  intros H. unfold ServiceV2.getCurrentTimer.
  erewrite tryCatch_throw by (apply bind_throw; exact H).
  destruct (ServiceV2.isServiceError e); reflexivity.
Qed.

End Services.

(** The start-timer tool of [src/tools/timetracking.ts], given a task id,
    answers with what the service's [startTimer] says. *)
Lemma startTimerTool_forwards {cal : Calendar} {fold : JS.CaseMapping}
  (W : Type)
  (startTimer : Tools.ServiceStartTimerParams -> Async W TimeEntry)
  getWorkspaceHierarchy findIDByNameInHierarchy getTasks params taskId w :
  Tools.p_taskId params = Some taskId ->
  JS.truthyS taskId = true ->
  Tools.startTimerTool_handler startTimer getWorkspaceHierarchy
    findIDByNameInHierarchy getTasks params w
  = match startTimer {| Tools.sp_task_id := taskId;
                        Tools.sp_description := Tools.p_description params;
                        Tools.sp_billable := Tools.p_billable params;
                        Tools.sp_tags := Tools.p_tags params |} w with
    | (Return timer, w') =>
        (Return (Tools.TimerStarted taskId (entry_task_name timer)
                   (toISOString (entry_start timer))
                   (Tools.orEmpty (Tools.p_description params))), w')
    | (Throw e, w') => (Return (Tools.StartError (message e)), w')
    end.
Proof.
  intros Hp Ht.
  assert (Ho : Tools.orEmpty (Some taskId) = taskId).
  { unfold Tools.orEmpty. now rewrite Ht. }
  unfold Tools.startTimerTool_handler, tryCatch, bind, ret, throw.
  rewrite Hp. cbn [JS.truthyO]. rewrite Ht. cbn [negb andb].
  cbn [JS.truthyO]. rewrite Ht, Ho. cbn [negb].
  destruct (startTimer _ w) as [[timer|e] w']; reflexivity.
Qed.

End TimerFacts.

(** C8, as the code has it.  [handleStartTimer]: when the request
    identifies a task (its task resolution returns an id) and the timer
    query then reports a running timer, the handler answers the structured
    "not started" result naming that timer, from the very state the timer
    query left (the service's [startTimer] is not called) and without
    throwing; a request that identifies no task throws "Either taskId or
    taskName must be provided" before the timer is consulted.  The
    start-timer tool of [src/tools/timetracking.ts] does not consult the
    current timer: given a task id it answers "Timer started" or an error
    status, as the service's [startTimer] resolves or rejects. *)
Theorem C8_start_while_running :
  forall (cal : Calendar) (fold : JS.CaseMapping) (W : Type)
    (getWorkspaceHierarchy : Async W Hierarchy)
    (getTasks : string -> Async W (list Task))
    (getCurrentTimer : Async W (option TimeEntry))
    (startTimer : string -> Summary.StartTimerOptions -> Async W TimeEntry)
    (startTimerV1 : Tools.ServiceStartTimerParams -> Async W TimeEntry)
    (findIDByNameInHierarchy :
       Hierarchy -> string -> NodeType -> option (string * string)),
    (forall parameters w taskId w1 timer w2,
        Summary.resolveTask getWorkspaceHierarchy getTasks
          (Summary.p_taskId parameters) (Summary.p_taskName parameters) w
        = (Return taskId, w1) ->
        getCurrentTimer w1 = (Return (Some timer), w2) ->
        Summary.handleStartTimer getWorkspaceHierarchy getTasks
          getCurrentTimer startTimer parameters w
        = (Return
             (Summary.NotStarted
                ("There's already a timer running for task " ++ JS.dq
                 ++ entry_task_name timer ++ JS.dq
                 ++ ". Please stop it first.")
                (entry_task_id timer) (entry_task_name timer)
                (Summary.formatDate (entry_start timer))
                (entry_description timer)),
           w2))
    /\ (forall parameters w,
           JS.truthyO (Summary.p_taskId parameters) = false ->
           JS.truthyO (Summary.p_taskName parameters) = false ->
           Summary.handleStartTimer getWorkspaceHierarchy getTasks
             getCurrentTimer startTimer parameters w
           = (Throw (PlainError "Either taskId or taskName must be provided"),
              w))
    /\ (forall params taskId w,
           Tools.p_taskId params = Some taskId ->
           JS.truthyS taskId = true ->
           Tools.startTimerTool_handler startTimerV1 getWorkspaceHierarchy
             findIDByNameInHierarchy getTasks params w
           = match startTimerV1
                     {| Tools.sp_task_id := taskId;
                        Tools.sp_description := Tools.p_description params;
                        Tools.sp_billable := Tools.p_billable params;
                        Tools.sp_tags := Tools.p_tags params |} w with
             | (Return timer, w') =>
                 (Return
                    (Tools.TimerStarted taskId (entry_task_name timer)
                       (toISOString (entry_start timer))
                       (Tools.orEmpty (Tools.p_description params))), w')
             | (Throw e, w') => (Return (Tools.StartError (message e)), w')
             end).
Proof.
  intros. split; [|split].
  - intros. eapply TimerFacts.handleStartTimer_running; eassumption.
  - intros. now apply TimerFacts.handleStartTimer_no_task.
  - intros. now apply TimerFacts.startTimerTool_forwards.
Qed.

(** C8, witness: the demo workspace with a timer running on "t9". *)
Lemma C8_start_while_running_witness :
  Summary.handleStartTimer (cal := UTC.calendar)
    (fold := Latin1.caseMapping) Demo.getWorkspaceHierarchy
    Demo.getTasks Demo.getCurrentTimer Demo.startTimer
    {| Summary.p_taskId := None; Summary.p_taskName := Some "fix bug";
       Summary.p_description := None; Summary.p_billable := None;
       Summary.p_tags := None |} Demo.busy
  = (Return
       (Summary.NotStarted
          ("There's already a timer running for task " ++ JS.dq ++ "Task t9"
           ++ JS.dq ++ ". Please stop it first.")
          "t9" "Task t9" "11/14/2023, 21:56:40" (Some "deep work")),
     Demo.logged "getCurrentTimer"
       (Demo.logged "getTasks L1"
          (Demo.logged "getTasks L0"
             (Demo.logged "getWorkspaceHierarchy" Demo.busy))))
  /\ Summary.handleStartTimer (cal := UTC.calendar)
       (fold := Latin1.caseMapping)
       Demo.getWorkspaceHierarchy Demo.getTasks Demo.getCurrentTimer
       Demo.startTimer
       {| Summary.p_taskId := None; Summary.p_taskName := None;
          Summary.p_description := None; Summary.p_billable := None;
          Summary.p_tags := None |} Demo.busy
     = (Throw (PlainError "Either taskId or taskName must be provided"),
        Demo.busy)
  /\ exists w',
      Tools.startTimerTool_handler (cal := UTC.calendar)
        (fold := Latin1.caseMapping) Demo.startTimerV1
        Demo.getWorkspaceHierarchy Demo.findNothing Demo.getTasks
        {| Tools.p_taskId := Some "t1"; Tools.p_taskName := None;
           Tools.p_listName := None; Tools.p_description := None;
           Tools.p_billable := None; Tools.p_tags := None |} Demo.busy
      = (Return (Tools.TimerStarted "t1" "Task t1" "11/14/2023, 22:13:20"
                   EmptyString), w').
Proof.
  destruct (@C8_start_while_running UTC.calendar Latin1.caseMapping
              Demo.World
              Demo.getWorkspaceHierarchy Demo.getTasks Demo.getCurrentTimer
              Demo.startTimer Demo.startTimerV1 Demo.findNothing)
    as (H1 & H2 & H3).
  split; [|split].
  - refine (H1 _ Demo.busy "t1"
              (Demo.logged "getTasks L1"
                 (Demo.logged "getTasks L0"
                    (Demo.logged "getWorkspaceHierarchy" Demo.busy)))
              (Demo.entryFor "t9" 1699999000000 "deep work") _ _ _);
      reflexivity.
  - apply H2; reflexivity.
  - eexists. etransitivity; [apply H3; reflexivity|]. reflexivity.
Defined.

(** C8, the claim as stated fails: with a timer running, a request that
    names no task is answered by a thrown error, and the start-timer tool
    of [src/tools/timetracking.ts] starts a second timer and reports
    "Timer started". *)
Lemma C8_running_timer_not_reported :
  Summary.handleStartTimer (cal := UTC.calendar)
    (fold := Latin1.caseMapping) Demo.getWorkspaceHierarchy
    Demo.getTasks Demo.getCurrentTimer Demo.startTimer
    {| Summary.p_taskId := None; Summary.p_taskName := None;
       Summary.p_description := None; Summary.p_billable := None;
       Summary.p_tags := None |} Demo.busy
  = (Throw (PlainError "Either taskId or taskName must be provided"),
     Demo.busy)
  /\ exists w',
      Tools.startTimerTool_handler (cal := UTC.calendar)
        (fold := Latin1.caseMapping) Demo.startTimerV1
        Demo.getWorkspaceHierarchy Demo.findNothing Demo.getTasks
        {| Tools.p_taskId := Some "t1"; Tools.p_taskName := None;
           Tools.p_listName := None; Tools.p_description := None;
           Tools.p_billable := None; Tools.p_tags := None |} Demo.busy
      = (Return (Tools.TimerStarted "t1" "Task t1" "11/14/2023, 22:13:20"
                   EmptyString), w')
      /\ Demo.w_calls w' = ["startTimer t1"].
Proof.
  split; [reflexivity|]. eexists. split; reflexivity.
Qed.

(** C9, as the code has it: [findTaskIDByName] never rejects; when the
    hierarchy fetch fails, or a task-listing fetch fails before a match has
    been found, it answers [undefined] as it does when no task matches; and
    [handleStartTimer], given only a task name, then throws "Task with name
    ... not found", a message that carries nothing of the original
    failure. *)
Theorem C9_lookup_failure_reads_as_not_found :
  forall (cal : Calendar) (fold : JS.CaseMapping) (W : Type)
    (getWorkspaceHierarchy : Async W Hierarchy)
    (getTasks : string -> Async W (list Task))
    (getCurrentTimer : Async W (option TimeEntry))
    (startTimer : string -> Summary.StartTimerOptions -> Async W TimeEntry),
    (forall name,
        SpecSide.answers
          (Summary.findTaskIDByName getWorkspaceHierarchy getTasks name))
    /\ (forall name w e w1,
           getWorkspaceHierarchy w = (Throw e, w1) ->
           Summary.findTaskIDByName getWorkspaceHierarchy getTasks name w
           = (Return None, w1))
    /\ (forall name h pre l post w w1 w2 e w3,
           getWorkspaceHierarchy w = (Return h, w1) ->
           SpecSide.traversal h = (pre ++ l :: post)%list ->
           SpecSide.missed getTasks (Summary.nameMatches name) pre w1 w2 ->
           getTasks (node_id l) w2 = (Throw e, w3) ->
           Summary.findTaskIDByName getWorkspaceHierarchy getTasks name w
           = (Return None, w3))
    /\ (forall parameters name w w1,
           Summary.p_taskName parameters = Some name ->
           JS.truthyS name = true ->
           JS.truthyO (Summary.p_taskId parameters) = false ->
           Summary.findTaskIDByName getWorkspaceHierarchy getTasks name w
           = (Return None, w1) ->
           Summary.handleStartTimer getWorkspaceHierarchy getTasks
             getCurrentTimer startTimer parameters w
           = (Throw (PlainError
                       ("Task with name " ++ JS.dq ++ name ++ JS.dq
                        ++ " not found")), w1)).
Proof.
  intros. split; [|split; [|split]].
  - apply TimerFacts.findTaskIDByName_answers.
  - intros. eapply TimerFacts.findTaskIDByName_hierarchy_fails; eassumption.
  - intros. eapply TimerFacts.findTaskIDByName_listing_fails; eassumption.
  - intros. now apply TimerFacts.handleStartTimer_unresolved.
Qed.

(** C9, witness: the demo workspace unreachable, and reachable with the
    task listing of L1 failing. *)
Lemma C9_lookup_failure_witness :
  Summary.findTaskIDByName (fold := Latin1.caseMapping)
    Demo.getWorkspaceHierarchy Demo.getTasks "fix bug"
    Demo.offline
  = (Return None, Demo.logged "getWorkspaceHierarchy" Demo.offline)
  /\ Summary.findTaskIDByName (fold := Latin1.caseMapping)
    Demo.getWorkspaceHierarchy Demo.getTasksBroken
       "fix bug" Demo.world
     = (Return None,
        Demo.logged "getTasks L1"
          (Demo.logged "getTasks L0"
             (Demo.logged "getWorkspaceHierarchy" Demo.world)))
  /\ Summary.handleStartTimer (cal := UTC.calendar)
       (fold := Latin1.caseMapping)
       Demo.getWorkspaceHierarchy Demo.getTasksBroken Demo.getCurrentTimer
       Demo.startTimer
       {| Summary.p_taskId := None; Summary.p_taskName := Some "fix bug";
          Summary.p_description := None; Summary.p_billable := None;
          Summary.p_tags := None |} Demo.world
     = (Throw (PlainError
                 ("Task with name " ++ JS.dq ++ "fix bug" ++ JS.dq
                  ++ " not found")),
        Demo.logged "getTasks L1"
          (Demo.logged "getTasks L0"
             (Demo.logged "getWorkspaceHierarchy" Demo.world))).
Proof.
  split; [|split].
  - apply (proj1 (proj2 (@C9_lookup_failure_reads_as_not_found UTC.calendar Latin1.caseMapping
                           Demo.World Demo.getWorkspaceHierarchy
                           Demo.getTasks Demo.getCurrentTimer
                           Demo.startTimer))
             "fix bug" Demo.offline Demo.down).
    reflexivity.
  - refine (proj1 (proj2 (proj2 (@C9_lookup_failure_reads_as_not_found
                                   UTC.calendar Latin1.caseMapping Demo.World
                                   Demo.getWorkspaceHierarchy
                                   Demo.getTasksBroken Demo.getCurrentTimer
                                   Demo.startTimer)))
              "fix bug" Demo.hierarchy [Demo.mkList "L0" "Planning"]
              (Demo.mkList "L1" "Inbox") [Demo.mkList "L2" "Backlog"]
              Demo.world
              (Demo.logged "getWorkspaceHierarchy" Demo.world)
              (Demo.logged "getTasks L0"
                 (Demo.logged "getWorkspaceHierarchy" Demo.world))
              Demo.down _ _ _ _ _).
    + reflexivity.
    + reflexivity.
    + eapply SpecSide.missed_cons; [reflexivity | reflexivity |].
      apply SpecSide.missed_nil.
    + reflexivity.
  - apply (proj2 (proj2 (proj2 (@C9_lookup_failure_reads_as_not_found
                                  UTC.calendar Latin1.caseMapping Demo.World
                                  Demo.getWorkspaceHierarchy
                                  Demo.getTasksBroken Demo.getCurrentTimer
                                  Demo.startTimer))));
      reflexivity.
Defined.

(** C9, the claim as stated fails: with the service unreachable ("Network
    Error") the start-timer handler throws "Task with name "fix bug" not
    found", the same error as for a task that does not exist, and the
    message holds no trace of the failure. *)
Lemma C9_network_error_becomes_not_found :
  Summary.handleStartTimer (cal := UTC.calendar)
    (fold := Latin1.caseMapping) Demo.getWorkspaceHierarchy
    Demo.getTasks Demo.getCurrentTimer Demo.startTimer
    {| Summary.p_taskId := None; Summary.p_taskName := Some "fix bug";
       Summary.p_description := None; Summary.p_billable := None;
       Summary.p_tags := None |} Demo.offline
  = (Throw (PlainError
              ("Task with name " ++ JS.dq ++ "fix bug" ++ JS.dq
               ++ " not found")),
     Demo.logged "getWorkspaceHierarchy" Demo.offline)
  /\ Demo.getWorkspaceHierarchy Demo.offline
     = (Throw Demo.down, Demo.logged "getWorkspaceHierarchy" Demo.offline)
  /\ JS.includes (message Demo.down)
       ("Task with name " ++ JS.dq ++ "fix bug" ++ JS.dq ++ " not found")
     = false.
Proof. repeat split; reflexivity. Qed.

(** C10, as the code has it.  [getCurrentTimer] of
    [src/services/clickup/timetracking.ts] answers "no timer" (a falsy
    value) when the request fails with an error whose response status is
    404 and when the answered object carries no [data].  [getCurrentTimer]
    of the second service class answers [null] when the answered object
    carries no [data], but rejects when the request fails, a 404 included:
    a service error is rethrown, any other error is wrapped as "Failed to
    get current timer: ...".  Five operations are built on
    [getCurrentTimer].  When it answers "no timer", [handleGetCurrentTimer],
    [handleStopTimer], [getCurrentTimerTool.handler] and
    [getCurrentTimerAsText] answer their "no timer running" status, and
    [handleStartTimer], which has no such status, calls [startTimer] for
    the task it resolved and answers with what that call says.  When it
    rejects, none of the five throws: [handleGetCurrentTimer],
    [handleStopTimer], [handleStartTimer] (once the task is resolved) and
    [getCurrentTimerAsText] answer an error text that ends with the error's
    message, and [getCurrentTimerTool.handler] answers the status object
    "Error" carrying that message. *)
Theorem C10_no_timer_is_not_an_error :
  forall (cal : Calendar) (fold : JS.CaseMapping) (W : Type) (clock : W -> Z)
    (requestCurrent : Async W Body)
    (getWorkspaceHierarchy : Async W Hierarchy)
    (getTasks : string -> Async W (list Task))
    (getCurrentTimer : Async W (option TimeEntry))
    (startTimer : string -> Summary.StartTimerOptions -> Async W TimeEntry)
    (stopTimer : Async W TimeEntry),
    (forall w e w1,
        requestCurrent w = (Throw e, w1) ->
        response_status e = Some 404 ->
        Service.getCurrentTimer requestCurrent w = (Return None, w1))
    /\ (forall w w1,
           requestCurrent w = (Return (BodyObject None), w1) ->
           Service.getCurrentTimer requestCurrent w = (Return None, w1)
           /\ ServiceV2.getCurrentTimer requestCurrent w = (Return None, w1))
    /\ (forall w e w1,
           requestCurrent w = (Throw e, w1) ->
           ServiceV2.getCurrentTimer requestCurrent w
           = (Throw (if ServiceV2.isServiceError e then e
                     else ClickUpServiceError
                            ("Failed to get current timer: " ++ message e)
                            UNKNOWN None), w1))
    /\ (forall w w1,
           getCurrentTimer w = (Return None, w1) ->
           Summary.handleGetCurrentTimer clock getCurrentTimer w
           = (Return (Summary.NotRunning "No timer is currently running"), w1)
           /\ Summary.handleStopTimer getCurrentTimer stopTimer w
              = (Return (Summary.NothingToStop
                           "No timer is currently running"), w1)
           /\ Tools.getCurrentTimerTool_handler clock getCurrentTimer w
              = (Return Tools.NoTimerRunning, w1)
           /\ Resources.getCurrentTimerAsText clock getCurrentTimer w
              = (Return ("# Timer Status" ++ Resources.nl ++ Resources.nl
                         ++ "No timer is currently running."), w1))
    /\ (forall parameters w taskId w1 w2,
           Summary.resolveTask getWorkspaceHierarchy getTasks
             (Summary.p_taskId parameters) (Summary.p_taskName parameters) w
           = (Return taskId, w1) ->
           getCurrentTimer w1 = (Return None, w2) ->
           Summary.handleStartTimer getWorkspaceHierarchy getTasks
             getCurrentTimer startTimer parameters w
           = match startTimer taskId
                     {| Summary.o_description :=
                          Tools.orEmpty (Summary.p_description parameters);
                        Summary.o_billable :=
                          match Summary.p_billable parameters with
                          | Some b => b | None => false end;
                        Summary.o_tags :=
                          match Summary.p_tags parameters with
                          | Some t => t | None => [] end |} w2 with
             | (Return timeEntry, w3) =>
                 (Return (Summary.Started
                            ("Timer started for task " ++ JS.dq
                             ++ entry_task_name timeEntry ++ JS.dq)
                            timeEntry
                            (Summary.formatDate (entry_start timeEntry))),
                  w3)
             | (Throw e, w3) =>
                 (Return (Summary.StartErrorText
                            ("Error starting timer: " ++ message e)), w3)
             end)
    /\ (forall w e w1,
           getCurrentTimer w = (Throw e, w1) ->
           Summary.handleGetCurrentTimer clock getCurrentTimer w
           = (Return (Summary.CurrentErrorText
                        ("Error getting current timer: " ++ message e)), w1)
           /\ Summary.handleStopTimer getCurrentTimer stopTimer w
              = (Return (Summary.StopErrorText
                           ("Error stopping timer: " ++ message e)), w1)
           /\ Tools.getCurrentTimerTool_handler clock getCurrentTimer w
              = (Return (Tools.StatusError (message e)), w1)
           /\ Resources.getCurrentTimerAsText clock getCurrentTimer w
              = (Return ("Error getting current timer: " ++ message e), w1))
    /\ (forall parameters w taskId w1 e w2,
           Summary.resolveTask getWorkspaceHierarchy getTasks
             (Summary.p_taskId parameters) (Summary.p_taskName parameters) w
           = (Return taskId, w1) ->
           getCurrentTimer w1 = (Throw e, w2) ->
           Summary.handleStartTimer getWorkspaceHierarchy getTasks
             getCurrentTimer startTimer parameters w
           = (Return (Summary.StartErrorText
                        ("Error starting timer: " ++ message e)), w2)).
Proof.
  intros. split; [|split; [|split; [|split; [|split; [|split]]]]].
  - intros. eapply TimerFacts.v1_not_found; eassumption.
  - intros. split.
    + now apply TimerFacts.v1_empty.
    + now apply TimerFacts.v2_empty.
  - intros. now apply TimerFacts.v2_failed.
  - intros w w1 H. repeat split.
    + now apply TimerFacts.handleGetCurrentTimer_none.
    + now apply TimerFacts.handleStopTimer_none.
    + now apply TimerFacts.tool_handler_none.
    + now apply TimerFacts.resource_none.
  - intros. eapply TimerFacts.handleStartTimer_idle; eassumption.
  - intros w e w1 H. repeat split.
    + now apply TimerFacts.handleGetCurrentTimer_error.
    + now apply TimerFacts.handleStopTimer_error.
    + now apply TimerFacts.tool_handler_error.
    + now apply TimerFacts.resource_error.
  - intros. eapply TimerFacts.handleStartTimer_error; eassumption.
Qed.

(** C10, witness: the current-timer endpoint of the demo workspace
    answering 404, and answering an object without [data]; and the
    operations built on the second service class when the endpoint answers
    404. *)
Lemma C10_no_timer_witness :
  Service.getCurrentTimer (Demo.requestCurrent (Throw Demo.notFound))
    Demo.world
  = (Return None, Demo.logged "GET time_entries/current" Demo.world)
  /\ ServiceV2.getCurrentTimer
       (Demo.requestCurrent (Return (BodyObject None))) Demo.world
     = (Return None, Demo.logged "GET time_entries/current" Demo.world)
  /\ ServiceV2.getCurrentTimer (Demo.requestCurrent (Throw Demo.notFound))
       Demo.world
     = (Throw (ClickUpServiceError
                 "Failed to get current timer: Request failed with status code 404"
                 UNKNOWN None),
        Demo.logged "GET time_entries/current" Demo.world)
  /\ Summary.handleGetCurrentTimer (cal := UTC.calendar) Demo.w_now
       (ServiceV2.getCurrentTimer
          (Demo.requestCurrent (Return (BodyObject None)))) Demo.world
     = (Return (Summary.NotRunning "No timer is currently running"),
        Demo.logged "GET time_entries/current" Demo.world)
  /\ Summary.handleGetCurrentTimer (cal := UTC.calendar) Demo.w_now
       (ServiceV2.getCurrentTimer (Demo.requestCurrent (Throw Demo.notFound)))
       Demo.world
     = (Return (Summary.CurrentErrorText
                  "Error getting current timer: Failed to get current timer: Request failed with status code 404"),
        Demo.logged "GET time_entries/current" Demo.world)
  /\ Tools.getCurrentTimerTool_handler (cal := UTC.calendar) Demo.w_now
       (ServiceV2.getCurrentTimer (Demo.requestCurrent (Throw Demo.notFound)))
       Demo.world
     = (Return (Tools.StatusError
                  "Failed to get current timer: Request failed with status code 404"),
        Demo.logged "GET time_entries/current" Demo.world)
  /\ Summary.handleStartTimer (cal := UTC.calendar)
       (fold := Latin1.caseMapping) Demo.getWorkspaceHierarchy Demo.getTasks
       (ServiceV2.getCurrentTimer (Demo.requestCurrent (Throw Demo.notFound)))
       Demo.startTimer
       {| Summary.p_taskId := Some "t1"; Summary.p_taskName := None;
          Summary.p_description := None; Summary.p_billable := None;
          Summary.p_tags := None |} Demo.world
     = (Return (Summary.StartErrorText
                  "Error starting timer: Failed to get current timer: Request failed with status code 404"),
        Demo.logged "GET time_entries/current" Demo.world).
Proof.
  pose (stop := Demo.answering "stopTimer" (Demo.entryFor "t9" 0 EmptyString)).
  pose (failed := ClickUpServiceError
                    "Failed to get current timer: Request failed with status code 404"
                    UNKNOWN None).
  pose (asked := Demo.logged "GET time_entries/current" Demo.world).
  destruct (@C10_no_timer_is_not_an_error UTC.calendar Latin1.caseMapping
              Demo.World Demo.w_now
              (Demo.requestCurrent (Throw Demo.notFound))
              Demo.getWorkspaceHierarchy Demo.getTasks
              (ServiceV2.getCurrentTimer
                 (Demo.requestCurrent (Throw Demo.notFound)))
              Demo.startTimer stop)
    as (A1 & _ & A3 & _ & _ & A6 & A7).
  destruct (@C10_no_timer_is_not_an_error UTC.calendar Latin1.caseMapping
              Demo.World Demo.w_now
              (Demo.requestCurrent (Return (BodyObject None)))
              Demo.getWorkspaceHierarchy Demo.getTasks
              (ServiceV2.getCurrentTimer
                 (Demo.requestCurrent (Return (BodyObject None))))
              Demo.startTimer stop)
    as (_ & B2 & _ & B4 & _).
  destruct (A6 Demo.world failed asked eq_refl) as (E1 & _ & E3 & _).
  split; [|split; [|split; [|split; [|split; [|split]]]]].
  - exact (A1 Demo.world Demo.notFound asked eq_refl eq_refl).
  - exact (proj2 (B2 Demo.world asked eq_refl)).
  - exact (A3 Demo.world Demo.notFound asked eq_refl).
  - exact (proj1 (B4 Demo.world asked eq_refl)).
  - exact E1.
  - exact E3.
  - exact (A7 {| Summary.p_taskId := Some "t1"; Summary.p_taskName := None;
                 Summary.p_description := None; Summary.p_billable := None;
                 Summary.p_tags := None |}
              Demo.world "t1" Demo.world failed asked eq_refl eq_refl).
Defined.

(** C10, the claim as stated fails: when the service answers 404, the
    second service class rejects instead of answering [null], and the
    current-timer handler built on it answers an error text, not "no timer
    running". *)
Lemma C10_not_found_is_an_error_in_v2 :
  ServiceV2.getCurrentTimer (Demo.requestCurrent (Throw Demo.notFound))
    Demo.world
  = (Throw (ClickUpServiceError
              "Failed to get current timer: Request failed with status code 404"
              UNKNOWN None),
     Demo.logged "GET time_entries/current" Demo.world)
  /\ Summary.handleGetCurrentTimer (cal := UTC.calendar) Demo.w_now
       (ServiceV2.getCurrentTimer (Demo.requestCurrent (Throw Demo.notFound)))
       Demo.world
     = (Return (Summary.CurrentErrorText
                  "Error getting current timer: Failed to get current timer: Request failed with status code 404"),
        Demo.logged "GET time_entries/current" Demo.world).
Proof. split; reflexivity. Qed.


(* ================================================================== *)
(** * The summary as a whole: sums, order, distinct groups             *)
(* ================================================================== *)

Module SummaryFacts.

Import SpecSide Measures AsyncFacts Summary.

Section Sorting.
Variable A : Type.
Variable f : A -> Z.

Lemma sortBy_perm (l : list A) :
  Permutation (sortBy (fun a b => f b - f a) l) l.
Proof.
  induction l as [|x l IH]; simpl; [constructor|].
  transitivity (x :: sortBy (fun a b => f b - f a) l); [|now constructor].
  generalize (sortBy (fun a b => f b - f a) l). clear IH.
  intros s. induction s as [|y s IH]; simpl; [reflexivity|].
  destruct (f y - f x <=? 0); [reflexivity|].
  transitivity (y :: x :: s); [now constructor | constructor].
Qed.

Lemma insertSorted_descending x (l : list A) :
  descending f l -> descending f (insertSorted (fun a b => f b - f a) x l).
Proof.
  unfold descending. induction 1 as [|y l Hl IH Hy]; simpl.
  - repeat constructor.
  - destruct (Z.leb_spec (f y - f x) 0) as [Hle|Hgt].
    + constructor; [now constructor|].
      constructor; [lia|]. revert Hy. apply Forall_impl. intros; lia.
    + constructor; [exact IH|].
      assert (Hp : Permutation (insertSorted (fun a b => f b - f a) x l)
                     (x :: l)).
      { clear. induction l as [|z l IH]; simpl; [reflexivity|].
        destruct (f z - f x <=? 0); [reflexivity|].
        transitivity (z :: x :: l); [now constructor | constructor]. }
      eapply Permutation_Forall; [symmetry; exact Hp|].
      constructor; [lia | exact Hy].
Qed.

Lemma sortBy_descending (l : list A) :
  descending f (sortBy (fun a b => f b - f a) l).
Proof.
  induction l as [|x l IH]; simpl.
  - constructor.
  - now apply insertSorted_descending.
Qed.
End Sorting.

Section Dicts.
Variable V : Type.

Lemma get_None_not_in key (obj : Dict.t V) :
  Dict.get key obj = None -> ~ In key (map fst obj).
Proof.
  induction obj as [|[k v] obj IH]; simpl; [tauto|].
  destruct (String.eqb_spec k key); [discriminate|].
  intros H [E|Hin]; [contradiction | now apply IH].
Qed.

Lemma keys_modify key (g : V -> V) (obj : Dict.t V) :
  map fst (Dict.modify key g obj) = map fst obj.
Proof.
  induction obj as [|[k v] obj IH]; simpl; [reflexivity|].
  destruct (String.eqb k key); simpl; [reflexivity | now rewrite IH].
Qed.

Lemma keys_ensure_nodup key init (obj : Dict.t V) :
  NoDup (map fst obj) -> NoDup (map fst (Dict.ensure key init obj)).
Proof.
  intros H. unfold Dict.ensure.
  destruct (Dict.get key obj) eqn:E; [exact H|].
  rewrite map_app. simpl.
  apply (Permutation_NoDup (l := key :: map fst obj)).
  - apply Permutation_cons_append.
  - constructor; [now apply get_None_not_in | exact H].
Qed.
End Dicts.

(** What one statement group of [accumulate] does to the sum of the group
    times: it adds the amount. *)
Lemma itemTimeSum_modify key (g : SummaryItem -> SummaryItem) amount items v :
  Dict.get key items = Some v ->
  (forall x, si_time (g x) = si_time x + amount) ->
  itemTimeSum (Dict.modify key g items) = itemTimeSum items + amount.
Proof.
  unfold itemTimeSum. intros Hget Hg.
  induction items as [|[k x] items IH]; simpl in *; [discriminate|].
  destruct (String.eqb k key); simpl.
  - rewrite Hg. lia.
  - rewrite (IH Hget). lia.
Qed.

Lemma itemTimeSum_ensure key name items :
  itemTimeSum
    (Dict.ensure key
       {| si_groupName := name; si_time := 0; si_tasks := [] |} items)
  = itemTimeSum items.
Proof.
  unfold Dict.ensure, itemTimeSum.
  destruct (Dict.get key items); [reflexivity|].
  rewrite map_app, fold_right_app. reflexivity.
Qed.

Lemma accumulate_sum key name taskId taskName amount items :
  itemTimeSum (accumulate key name taskId taskName amount items)
  = itemTimeSum items + amount.
Proof.
  unfold accumulate. rewrite !GroupFacts.modify_modify.
  destruct (GroupFacts.get_ensure key
              {| si_groupName := name; si_time := 0; si_tasks := [] |} items)
    as [v Hv].
  erewrite itemTimeSum_modify; [|exact Hv|reflexivity].
  now rewrite itemTimeSum_ensure.
Qed.

Lemma accumulate_keys key name taskId taskName amount items :
  NoDup (map fst items) ->
  NoDup (map fst (accumulate key name taskId taskName amount items)).
Proof.
  intros H. unfold accumulate. rewrite !keys_modify.
  now apply keys_ensure_nodup.
Qed.

Lemma accumulate_distinct key name taskId taskName amount items :
  Forall distinctTasks items ->
  Forall distinctTasks (accumulate key name taskId taskName amount items).
Proof.
  intros H. unfold accumulate. rewrite !GroupFacts.modify_modify.
  apply GroupFacts.Forall_modify.
  - intros k v Hv. unfold distinctTasks in *. simpl in *.
    rewrite keys_modify. now apply keys_ensure_nodup.
  - apply GroupFacts.Forall_ensure; [constructor | exact H].
Qed.

Section Handler.
Context {cal : Calendar}.
Variable W : Type.
Variable clock : W -> Z.
Variable getTimeTrackingReport : DateRange -> Async W (option TimeReport).
Variable getTask : string -> Async W TaskDetail.
Variable getTimeEntries : Filters -> Async W (list TimeEntry).

Lemma accumulate_wellKeyed key name taskId taskName amount items :
  wellKeyed items ->
  wellKeyed (accumulate key name taskId taskName amount items).
Proof.
  intros [H1 H2]. split.
  - now apply accumulate_keys.
  - now apply accumulate_distinct.
Qed.

Lemma addEntries_wellKeyed taskId task entries items :
  wellKeyed items ->
  wellKeyed (fold_left (addEntry taskId task) entries items).
Proof.
  revert items. induction entries as [|e entries IH]; intros items H; simpl.
  - assumption.
  - apply IH. unfold addEntry. now apply accumulate_wellKeyed.
Qed.

Lemma processTasks_wellKeyed groupBy dateRange tasks :
  forall items w items' w',
    wellKeyed items ->
    processTasks getTask getTimeEntries groupBy dateRange tasks items w
    = (Return items', w') ->
    wellKeyed items'.
Proof.
  induction tasks as [|[taskId taskData] tasks IH];
    intros items w items' w' Hb H; simpl in H.
  - unfold ret in H. now inversion H; subst.
  - apply bind_inv in H. destruct H as (task & w1 & _ & H).
    destruct (String.eqb groupBy "day").
    + apply bind_inv in H. destruct H as (entries & w2 & _ & H).
      eapply IH; [|exact H]. now apply addEntries_wellKeyed.
    + destruct (if String.eqb groupBy "task" then _ else _) as [k n].
      eapply IH; [|exact H]. now apply accumulate_wellKeyed.
Qed.

Lemma processUsers_wellKeyed groupBy dateRange data :
  forall total items w total' items' w',
    wellKeyed items ->
    processUsers getTask getTimeEntries groupBy dateRange data total items w
    = (Return (total', items'), w') ->
    wellKeyed items'.
Proof.
  induction data as [|u data IH];
    intros total items w total' items' w' Hb H; simpl in H.
  - unfold ret in H. now inversion H; subst.
  - apply bind_inv in H. destruct H as (items1 & w1 & H1 & H).
    eapply IH; [|exact H]. eapply processTasks_wellKeyed; eassumption.
Qed.

Lemma collect_wellKeyed groupBy dateRange report w total items w' :
  collect getTask getTimeEntries groupBy dateRange report w
  = (Return (total, items), w') ->
  wellKeyed items.
Proof.
  unfold collect.
  destruct report as [[[data|]]|]; intros H;
    try (unfold ret in H; inversion H; split; constructor).
  eapply processUsers_wellKeyed; [|exact H]. split; constructor.
Qed.

(** Outside the ['day'] mode every task of the report adds its time to
    exactly one group. *)
Lemma processTasks_sum groupBy dateRange tasks :
  String.eqb groupBy "day" = false ->
  forall items w items' w',
    processTasks getTask getTimeEntries groupBy dateRange tasks items w
    = (Return items', w') ->
    itemTimeSum items' = itemTimeSum items + userTaskSum tasks.
Proof.
  intros Hday.
  induction tasks as [|[taskId taskData] tasks IH];
    intros items w items' w' H; simpl in H.
  - unfold ret in H. inversion H; subst. unfold userTaskSum. simpl. lia.
  - apply bind_inv in H. destruct H as (task & w1 & _ & H).
    rewrite Hday in H.
    destruct (if String.eqb groupBy "task" then _ else _) as [k n].
    apply IH in H. rewrite H, accumulate_sum.
    unfold userTaskSum. simpl. lia.
Qed.

Lemma processUsers_sum groupBy dateRange data :
  String.eqb groupBy "day" = false ->
  forall total items w total' items' w',
    processUsers getTask getTimeEntries groupBy dateRange data total items w
    = (Return (total', items'), w') ->
    itemTimeSum items' = itemTimeSum items + taskTimeSum data.
Proof.
  intros Hday.
  induction data as [|u data IH];
    intros total items w total' items' w' H; simpl in H.
  - unfold ret in H. inversion H; subst. unfold taskTimeSum. simpl. lia.
  - apply bind_inv in H. destruct H as (items1 & w1 & H1 & H).
    apply IH in H. eapply processTasks_sum in H1; [|exact Hday].
    rewrite H, H1. unfold taskTimeSum, userTaskSum. simpl. lia.
Qed.

Lemma collect_sum groupBy dateRange report w total items w' :
  String.eqb groupBy "day" = false ->
  collect getTask getTimeEntries groupBy dateRange report w
  = (Return (total, items), w') ->
  itemTimeSum items = taskTimeSum (recordsOf report).
Proof.
  intros Hday. unfold collect, recordsOf.
  destruct report as [[[data|]]|]; intros H;
    try (unfold ret in H; inversion H; reflexivity).
  eapply processUsers_sum in H; [|exact Hday]. rewrite H. reflexivity.
Qed.

Lemma summarize_sum total items :
  groupTimeSum (summarize total items) = itemTimeSum items.
Proof.
  unfold groupTimeSum, summarize, itemTimeSum.
  rewrite (GroupFacts.sum_sortBy (fun a b => g_time b - g_time a) g_time).
  rewrite map_map. reflexivity.
Qed.

Lemma summarize_keys total items :
  Permutation (map groupKey (summarize total items)) (map fst items).
Proof.
  unfold summarize.
  rewrite (sortBy_perm g_time). rewrite map_map. reflexivity.
Qed.

Lemma summarize_task_ids total items :
  Forall distinctTasks items ->
  Forall (fun g => NoDup (map ts_id (g_tasks g))) (summarize total items).
Proof.
  intros H. unfold summarize.
  eapply Permutation_Forall; [symmetry; apply (sortBy_perm g_time)|].
  apply Forall_map. revert H. apply Forall_impl.
  intros kv Hkv. unfold groupSummaryOf. cbn [g_tasks].
  apply (Permutation_NoDup
           (l := map ts_id (map (taskSummaryOf (snd kv)) (si_tasks (snd kv))))).
  - apply Permutation_map. symmetry. apply (sortBy_perm ts_time).
  - rewrite map_map. exact Hkv.
Qed.

(** Opening up an answered summary: the report that was fetched and what
    the loops collected from it. *)
Lemma handler_inv parameters w body w' :
  handleGetTimeTrackingSummary clock getTimeTrackingReport getTask
    getTimeEntries parameters w
  = (Return (SummaryOk body), w') ->
  exists dateRange report w1 total items,
    getTimeTrackingReport dateRange w = (Return report, w1)
    /\ collect getTask getTimeEntries (groupByOf parameters) dateRange
         report w1 = (Return (total, items), w')
    /\ sb_summary body = summarize total items.
Proof.
  unfold handleGetTimeTrackingSummary, tryCatch.
  match goal with
  | |- (match ?m w with _ => _ end) = _ -> _ =>
      destruct (m w) as [[r|e] w1] eqn:E
  end; [|unfold ret; intros H; inversion H].
  intros H. inversion H; subst r w1. clear H.
  apply bind_inv in E. destruct E as (now & w1 & Hn & E).
  unfold Tools.getNow in Hn. inversion Hn; subst now w1. clear Hn.
  apply bind_inv in E. destruct E as (dateRange & w2 & Hd & E).
  unfold lift in Hd. inversion Hd; subst w2.
  apply bind_inv in E. destruct E as (report & w3 & Hr & E).
  apply bind_inv in E. destruct E as ([total items] & w4 & Hc & E).
  unfold ret in E. inversion E; subst. cbn [sb_summary].
  exists dateRange, report, w3, total, items. repeat split; assumption.
Qed.

End Handler.
End SummaryFacts.

(** X1: outside the ['day'] mode, the group times of an answered summary
    add up to the sum of all per-task times of the report fetched for it,
    however many users logged time on one task and whatever groups the
    tasks fall into. *)
Theorem X1_group_times_cover_the_report :
  forall (cal : Calendar) (W : Type) (clock : W -> Z)
    (getTimeTrackingReport : Summary.DateRange -> Async W (option TimeReport))
    (getTask : string -> Async W TaskDetail)
    (getTimeEntries : Summary.Filters -> Async W (list TimeEntry))
    parameters w body w',
    String.eqb (Measures.groupByOf parameters) "day" = false ->
    Summary.handleGetTimeTrackingSummary clock getTimeTrackingReport getTask
      getTimeEntries parameters w
    = (Return (Summary.SummaryOk body), w') ->
    exists dateRange report w1,
      getTimeTrackingReport dateRange w = (Return report, w1)
      /\ Measures.groupTimeSum (Summary.sb_summary body)
         = SpecSide.taskTimeSum (SpecSide.recordsOf report).
Proof.
  intros cal W clock getReport getTask getEntries parameters w body w' Hd H.
  apply SummaryFacts.handler_inv in H.
  destruct H as (dateRange & report & w1 & total & items & Hr & Hc & Hs).
  exists dateRange, report, w1. split; [exact Hr|].
  rewrite Hs, SummaryFacts.summarize_sum.
  eapply SummaryFacts.collect_sum; eassumption.
Qed.

(** X1, witness: the demo report grouped by list: one group of 6000. *)
Lemma X1_group_times_witness :
  exists body w' dateRange report w1,
    Summary.handleGetTimeTrackingSummary (cal := UTC.calendar)
      Demo.w_now (Demo.getTimeTrackingReport (Some Demo.report))
      Demo.getTask Demo.getTimeEntries
      {| Summary.sp_period := "today"; Summary.sp_start_date := None;
         Summary.sp_end_date := None; Summary.sp_groupBy := Some "list" |}
      Demo.world
    = (Return (Summary.SummaryOk body), w')
    /\ Demo.getTimeTrackingReport (Some Demo.report) dateRange Demo.world
       = (Return report, w1)
    /\ Measures.groupTimeSum (Summary.sb_summary body)
       = SpecSide.taskTimeSum (SpecSide.recordsOf report)
    /\ Measures.groupTimeSum (Summary.sb_summary body) = 6000.
Proof.
  eexists. eexists.
  assert (H : Summary.handleGetTimeTrackingSummary (cal := UTC.calendar)
                Demo.w_now (Demo.getTimeTrackingReport (Some Demo.report))
                Demo.getTask Demo.getTimeEntries
                {| Summary.sp_period := "today";
                   Summary.sp_start_date := None;
                   Summary.sp_end_date := None;
                   Summary.sp_groupBy := Some "list" |}
                Demo.world
              = (Return (Summary.SummaryOk _), _))
    by (vm_compute; reflexivity).
  assert (Hd : String.eqb
                 (Measures.groupByOf
                    {| Summary.sp_period := "today";
                       Summary.sp_start_date := None;
                       Summary.sp_end_date := None;
                       Summary.sp_groupBy := Some "list" |}) "day" = false)
    by reflexivity.
  destruct (@X1_group_times_cover_the_report UTC.calendar _ _ _ _ _ _ _ _ _
              Hd H)
    as (dateRange & report & w1 & Hr & Ht).
  exists dateRange, report, w1.
  split; [exact H|]. split; [exact Hr|]. split; [exact Ht | reflexivity].
Defined.

(** X2: an answered summary lists its groups in non-increasing order of
    time, and the tasks of every group likewise; the report tool lists its
    task summaries in non-increasing order of time. *)
Theorem X2_summaries_are_sorted :
  (forall report,
      Measures.descending Tools.time (snd (Tools.aggregate report)))
  /\ (forall (cal : Calendar) (W : Type) (clock : W -> Z)
        (getTimeTrackingReport :
           Summary.DateRange -> Async W (option TimeReport))
        (getTask : string -> Async W TaskDetail)
        (getTimeEntries : Summary.Filters -> Async W (list TimeEntry))
        parameters w body w',
         Summary.handleGetTimeTrackingSummary clock getTimeTrackingReport
           getTask getTimeEntries parameters w
         = (Return (Summary.SummaryOk body), w') ->
         Measures.descending Summary.g_time (Summary.sb_summary body)
         /\ Forall (fun g => Measures.descending Summary.ts_time
                               (Summary.g_tasks g))
              (Summary.sb_summary body)).
Proof.
  split.
  - intros report. unfold Tools.aggregate.
    destruct (match report with
              | Some {| report_data := Some data |} =>
                  fold_left Tools.processUser data (0, [])
              | _ => (0, [])
              end) as [total summaries].
    apply SummaryFacts.sortBy_descending.
  - intros cal W clock getReport getTask getEntries parameters w body w' H.
    apply SummaryFacts.handler_inv in H.
    destruct H as (dateRange & report & w1 & total & items & _ & _ & Hs).
    rewrite Hs. unfold Summary.summarize. split.
    + apply SummaryFacts.sortBy_descending.
    + eapply Permutation_Forall;
        [symmetry; apply (SummaryFacts.sortBy_perm Summary.g_time)|].
      apply Forall_map. apply Forall_forall. intros kv _.
      apply SummaryFacts.sortBy_descending.
Qed.

(** X2, witness: the demo report by task: groups of 5000 and 1000. *)
Lemma X2_summaries_are_sorted_witness :
  exists body w',
    Summary.handleGetTimeTrackingSummary (cal := UTC.calendar)
      Demo.w_now (Demo.getTimeTrackingReport (Some Demo.report))
      Demo.getTask Demo.getTimeEntries
      {| Summary.sp_period := "today"; Summary.sp_start_date := None;
         Summary.sp_end_date := None; Summary.sp_groupBy := Some "task" |}
      Demo.world
    = (Return (Summary.SummaryOk body), w')
    /\ map Summary.g_time (Summary.sb_summary body) = [5000; 1000]
    /\ Measures.descending Summary.g_time (Summary.sb_summary body).
Proof.
  eexists. eexists.
  assert (H : Summary.handleGetTimeTrackingSummary (cal := UTC.calendar)
                Demo.w_now (Demo.getTimeTrackingReport (Some Demo.report))
                Demo.getTask Demo.getTimeEntries
                {| Summary.sp_period := "today";
                   Summary.sp_start_date := None;
                   Summary.sp_end_date := None;
                   Summary.sp_groupBy := Some "task" |}
                Demo.world
              = (Return (Summary.SummaryOk _), _))
    by (vm_compute; reflexivity).
  split; [exact H|]. split; [reflexivity|].
  exact (proj1 (proj2 X2_summaries_are_sorted UTC.calendar _ _ _ _ _ _ _ _ _
                  H)).
Defined.

(** X3: an answered summary holds every group key once, and every group
    holds every task id once: times logged by several users on one task,
    or on several tasks of one list, space or day, are merged, never
    listed twice. *)
Theorem X3_groups_are_distinct :
  forall (cal : Calendar) (W : Type) (clock : W -> Z)
    (getTimeTrackingReport : Summary.DateRange -> Async W (option TimeReport))
    (getTask : string -> Async W TaskDetail)
    (getTimeEntries : Summary.Filters -> Async W (list TimeEntry))
    parameters w body w',
    Summary.handleGetTimeTrackingSummary clock getTimeTrackingReport getTask
      getTimeEntries parameters w
    = (Return (Summary.SummaryOk body), w') ->
    NoDup (map Summary.groupKey (Summary.sb_summary body))
    /\ Forall (fun g => NoDup (map Summary.ts_id (Summary.g_tasks g)))
         (Summary.sb_summary body).
Proof.
  intros cal W clock getReport getTask getEntries parameters w body w' H.
  apply SummaryFacts.handler_inv in H.
  destruct H as (dateRange & report & w1 & total & items & _ & Hc & Hs).
  apply SummaryFacts.collect_wellKeyed in Hc. destruct Hc as [Hk Ht].
  rewrite Hs. split.
  - eapply Permutation_NoDup;
      [symmetry; apply SummaryFacts.summarize_keys | exact Hk].
  - now apply SummaryFacts.summarize_task_ids.
Qed.

(** X3, witness: the demo report by day; both users' entries of task "t1"
    fall into the same two days. *)
Lemma X3_groups_are_distinct_witness :
  exists body w',
    Summary.handleGetTimeTrackingSummary (cal := UTC.calendar)
      Demo.w_now (Demo.getTimeTrackingReport (Some Demo.report))
      Demo.getTask Demo.getTimeEntries
      {| Summary.sp_period := "this_week"; Summary.sp_start_date := None;
         Summary.sp_end_date := None; Summary.sp_groupBy := Some "day" |}
      Demo.world
    = (Return (Summary.SummaryOk body), w')
    /\ map Summary.groupKey (Summary.sb_summary body)
       = ["2023-11-14"; "2023-11-13"]
    /\ NoDup (map Summary.groupKey (Summary.sb_summary body)).
Proof.
  eexists. eexists.
  assert (H : Summary.handleGetTimeTrackingSummary (cal := UTC.calendar)
                Demo.w_now (Demo.getTimeTrackingReport (Some Demo.report))
                Demo.getTask Demo.getTimeEntries
                {| Summary.sp_period := "this_week";
                   Summary.sp_start_date := None;
                   Summary.sp_end_date := None;
                   Summary.sp_groupBy := Some "day" |}
                Demo.world
              = (Return (Summary.SummaryOk _), _))
    by (vm_compute; reflexivity).
  split; [exact H|]. split; [reflexivity|].
  exact (proj1 (@X3_groups_are_distinct UTC.calendar _ _ _ _ _ _ _ _ _ H)).
Defined.

(* ================================================================== *)
(** * Reading decimal text back; the resolvers on a UTC host           *)
(* ================================================================== *)

(** [parseInt] reads a decimal numeral from the left, as the standard
    library builds a positive number from one. *)
Module ParseFacts.

Import JS Digits.

Lemma digits_step k c d a :
  digitOf 10 c = Some k ->
  digitsFrom 10 (Some a) (c :: digitsOf d)
  = digitsFrom 10 (Some (10 * a + k)) (digitsOf d).
Proof. intros H. cbn [digitsFrom]. now rewrite H. Qed.

Lemma digits_acc d : forall acc,
  digitsFrom 10 (Some (Z.pos acc)) (digitsOf d)
  = Some (Z.pos (Pos.of_uint_acc d acc)).
Proof.
  induction d; intros acc; [reflexivity|..];
    unfold digitsOf; cbn [NilEmpty.string_of_uint list_ascii_of_string];
    fold (digitsOf d);
    (erewrite digits_step by (vm_compute; reflexivity));
    cbn [Pos.of_uint_acc]; rewrite <- IHd;
    (apply f_equal2; [|reflexivity]); apply f_equal; lia.
Qed.

Lemma digits_zero d :
  digitsFrom 10 (Some 0) (digitsOf d) = Some (Z.of_N (Pos.of_uint d)).
Proof.
  induction d; [reflexivity|..];
    unfold digitsOf; cbn [NilEmpty.string_of_uint list_ascii_of_string];
    fold (digitsOf d);
    (erewrite digits_step by (vm_compute; reflexivity)); cbn [Pos.of_uint];
    [exact IHd|..]; apply digits_acc.
Qed.

Lemma digits_start d :
  d <> Decimal.Nil ->
  digitsFrom 10 None (digitsOf d) = Some (Z.of_N (Pos.of_uint d)).
Proof.
  intros H. rewrite <- digits_zero. destruct d; [congruence|..]; reflexivity.
Qed.


Lemma parseInt_digits d :
  d <> Decimal.Nil ->
  parseInt (NilEmpty.string_of_uint d) = Some (Z.of_N (Pos.of_uint d)).
Proof.
  intros H.
  transitivity (match digitsFrom 10 None (digitsOf d) with
                | Some v => Some v
                | None => None
                end).
  - destruct d as [|d|d|d|d|d|d|d|d|d|d]; [congruence|..];
      destruct d; reflexivity.
  - now rewrite digits_start.
Qed.

Lemma parseInt_minus_digits d :
  d <> Decimal.Nil ->
  parseInt (String "-" (NilEmpty.string_of_uint d))
  = Some (- Z.of_N (Pos.of_uint d)).
Proof.
  intros H.
  transitivity (match digitsFrom 10 None (digitsOf d) with
                | Some v => Some (- v)
                | None => None
                end).
  - destruct d as [|d|d|d|d|d|d|d|d|d|d]; [congruence|..];
      destruct d; reflexivity.
  - now rewrite digits_start.
Qed.

(** Reading back the decimal text of an integer gives the integer. *)
Lemma parseInt_toString z : parseInt (toString z) = Some z.
Proof.
  unfold toString. destruct z as [|p|p]; [reflexivity|..];
    cbn [Z.to_int NilZero.string_of_int];
    pose proof (Unsigned.to_uint_nonnil p) as Hn;
    replace (NilZero.string_of_uint (Pos.to_uint p))
      with (NilEmpty.string_of_uint (Pos.to_uint p))
      by (destruct (Pos.to_uint p); [congruence|..]; reflexivity).
  - rewrite parseInt_digits by exact Hn.
    now rewrite DecimalPos.Unsigned.of_to.
  - rewrite parseInt_minus_digits by exact Hn.
    now rewrite DecimalPos.Unsigned.of_to.
Qed.

End ParseFacts.

(** The [Date] arithmetic of the resolvers on [UTC.calendar].  The
    theorems below are stated for instants not before 1970: the [Date]
    constructor reads a year from 0 to 99 as 1900 + year, which
    [UTC.calendar] does not model and which no such instant leads to. *)
Module CalendarFacts.

Import DateOps Days.
#[local] Existing Instance UTC.calendar.

Ltac dm := Z.div_mod_to_equations.

(** The constructor undoes the date fields of the local view: it gives the
    midnight that opens the day of [t]. *)
Lemma midnight t :
  let l := UTC.utcLocalTime t in
  UTC.utcMakeDate (year l) (month l) (date l) 0 0 0 0
  = t / 86400000 * 86400000.
Proof.
  unfold UTC.utcLocalTime, UTC.utcMakeDate, UTC.dayFromYearMonth, UTC.msPerDay.
  cbn [year month date].
  set (z := t / 86400000). set (z' := z + 719468). set (era := z' / 146097).
  set (doe := z' - era * 146097).
  assert (Hdoe : 0 <= doe <= 146096) by (subst doe era; dm; lia).
  set (yoe := (doe - doe / 1460 + doe / 36524 - doe / 146096) / 365).
  assert (Hyoe : 0 <= yoe <= 399) by (subst yoe; dm; lia).
  set (doy := doe - (365 * yoe + yoe / 4 - yoe / 100)).
  assert (Hdoy : 0 <= doy <= 365) by (subst doy yoe; dm; lia).
  set (mp := (5 * doy + 2) / 153).
  assert (Hmp : 0 <= mp <= 11) by (subst mp; dm; lia).
  destruct (Z.ltb_spec mp 10) as [Hlt|Hge].
  - replace (mp + 3 <=? 2) with false by (symmetry; apply Z.leb_gt; lia).
    replace (mp + 3 - 1) with (mp + 2) by lia.
    replace ((mp + 2) / 12) with 0 by (dm; lia).
    replace ((mp + 2) mod 12 + 1) with (mp + 3) by (dm; lia).
    replace (mp + 3 <=? 2) with false by (symmetry; apply Z.leb_gt; lia).
    replace (2 <? mp + 3) with true by (symmetry; apply Z.ltb_lt; lia).
    replace (yoe + era * 400 + 0 + 0) with (yoe + era * 400) by lia.
    replace ((yoe + era * 400) / 400) with era by (dm; lia).
    replace (mp + 3 - 3) with mp by lia.
    replace (yoe + era * 400 - era * 400) with yoe by lia.
    subst doy doe z'. lia.
  - replace (mp - 9 <=? 2) with true by (symmetry; apply Z.leb_le; lia).
    replace (mp - 9 - 1) with (mp - 10) by lia.
    replace ((mp - 10) / 12) with 0 by (dm; lia).
    replace ((mp - 10) mod 12 + 1) with (mp - 9) by (dm; lia).
    replace (mp - 9 <=? 2) with true by (symmetry; apply Z.leb_le; lia).
    replace (2 <? mp - 9) with false by (symmetry; apply Z.ltb_ge; lia).
    replace (yoe + era * 400 + 1 + 0 - 1) with (yoe + era * 400) by lia.
    replace ((yoe + era * 400) / 400) with era by (dm; lia).
    replace (mp - 9 + 9) with mp by lia.
    replace (yoe + era * 400 - era * 400) with yoe by lia.
    subst doy doe z'. lia.
Qed.

(** The time-of-day fields add up to the milliseconds since midnight. *)
Lemma time_of_day t :
  let l := UTC.utcLocalTime t in
  hours l * 3600000 + minutes l * 60000 + seconds l * 1000 + millis l
  = t mod 86400000.
Proof.
  unfold UTC.utcLocalTime, UTC.msPerDay. cbn [hours minutes seconds millis].
  set (r := t mod 86400000). dm. lia.
Qed.

(** The date fields are those of the day's midnight. *)
Lemma fields_at_midnight t :
  let l := UTC.utcLocalTime t in
  UTC.utcLocalTime (t / 86400000 * 86400000)
  = {| year := year l; month := month l; date := date l; day := day l;
       hours := 0; minutes := 0; seconds := 0; millis := 0 |}.
Proof.
  unfold UTC.utcLocalTime, UTC.msPerDay. cbn [year month date day].
  rewrite Z.div_mul by lia. rewrite Z.mod_mul by lia. reflexivity.
Qed.

Lemma date_range t : 1 <= date (UTC.utcLocalTime t) <= 31.
Proof.
  unfold UTC.utcLocalTime, UTC.msPerDay. cbn [date].
  set (z := t / 86400000). set (z' := z + 719468). set (era := z' / 146097).
  set (doe := z' - era * 146097).
  assert (Hdoe : 0 <= doe <= 146096) by (subst doe era; dm; lia).
  set (yoe := (doe - doe / 1460 + doe / 36524 - doe / 146096) / 365).
  assert (Hyoe : 0 <= yoe <= 399) by (subst yoe; dm; lia).
  set (doy := doe - (365 * yoe + yoe / 4 - yoe / 100)).
  assert (Hdoy : 0 <= doy <= 365) by (subst doy yoe; dm; lia).
  clearbody doy. dm. lia.
Qed.

Lemma month_range t : 0 <= month (UTC.utcLocalTime t) <= 11.
Proof.
  unfold UTC.utcLocalTime, UTC.msPerDay. cbn [month].
  set (z := t / 86400000). set (z' := z + 719468). set (era := z' / 146097).
  set (doe := z' - era * 146097).
  assert (Hdoe : 0 <= doe <= 146096) by (subst doe era; dm; lia).
  set (yoe := (doe - doe / 1460 + doe / 36524 - doe / 146096) / 365).
  assert (Hyoe : 0 <= yoe <= 399) by (subst yoe; dm; lia).
  set (doy := doe - (365 * yoe + yoe / 4 - yoe / 100)).
  assert (Hdoy : 0 <= doy <= 365) by (subst doy yoe; dm; lia).
  set (mp := (5 * doy + 2) / 153).
  assert (Hmp : 0 <= mp <= 11) by (subst mp; dm; lia).
  clearbody mp. destruct (Z.ltb_spec mp 10); lia.
Qed.

Lemma day_range t : 0 <= day (UTC.utcLocalTime t) <= 6.
Proof.
  unfold UTC.utcLocalTime, UTC.msPerDay. cbn [day]. dm. lia.
Qed.

(** The month before: between 28 and 31 days earlier. *)
Lemma month_before y m :
  0 <= m <= 11 ->
  28 <= UTC.dayFromYearMonth y m - UTC.dayFromYearMonth y (m - 1) <= 31.
Proof.
  intros Hm.
  assert (H : m = 0 \/ m = 1 \/ m = 2 \/ m = 3 \/ m = 4 \/ m = 5 \/ m = 6
              \/ m = 7 \/ m = 8 \/ m = 9 \/ m = 10 \/ m = 11) by lia.
  unfold UTC.dayFromYearMonth.
  repeat (destruct H as [H|H]); subst m;
    repeat match goal with
           | |- context [?a <=? ?b] => destruct (Z.leb_spec a b)
           | |- context [?a <? ?b] => destruct (Z.ltb_spec a b)
           end; dm; lia.
Qed.




Lemma newDate3_today now :
  newDate3 (getFullYear now) (getMonth now) (getDate now) = dayStart now.
Proof. exact (midnight now). Qed.

Lemma fields_of_dayStart t :
  getFullYear (dayStart t) = getFullYear t
  /\ getMonth (dayStart t) = getMonth t
  /\ getDate (dayStart t) = getDate t
  /\ getDay (dayStart t) = getDay t.
Proof.
  unfold getFullYear, getMonth, getDate, getDay.
  cbn [localTime UTC.calendar]. unfold dayStart. rewrite fields_at_midnight.
  cbn [year month date day]. repeat split.
Qed.

Lemma makeDate_split y m d h mi s ms :
  UTC.utcMakeDate y m d h mi s ms
  = UTC.utcMakeDate y m 1 0 0 0 0 + (d - 1) * 86400000
    + (h * 3600000 + mi * 60000 + s * 1000 + ms).
Proof. unfold UTC.utcMakeDate, UTC.msPerDay. lia. Qed.

Lemma monthStart_utc t :
  UTC.utcMakeDate (year (UTC.utcLocalTime t)) (month (UTC.utcLocalTime t))
    1 0 0 0 0
  = t / 86400000 * 86400000 - (date (UTC.utcLocalTime t) - 1) * 86400000.
Proof.
  pose proof (midnight t) as H. cbv zeta in H.
  rewrite makeDate_split in H. revert H.
  generalize (UTC.utcMakeDate (year (UTC.utcLocalTime t))
                (month (UTC.utcLocalTime t)) 1 0 0 0 0)
    (date (UTC.utcLocalTime t)).
  intros a c H. lia.
Qed.

Lemma monthStart_of t :
  UTC.utcMakeDate (getFullYear t) (getMonth t) 1 0 0 0 0
  = dayStart t - (getDate t - 1) * 86400000.
Proof. exact (monthStart_utc t). Qed.

Lemma timeOfDay_of t :
  hours (localTime t) * 3600000 + minutes (localTime t) * 60000
  + seconds (localTime t) * 1000 + millis (localTime t)
  = t - dayStart t.
Proof.
  pose proof (time_of_day t) as H. cbv zeta in H.
  change (@localTime UTC.calendar) with UTC.utcLocalTime.
  rewrite H. unfold dayStart.
  pose proof (Z.div_mod t 86400000 ltac:(lia)). lia.
Qed.

Lemma setDate_shift t d :
  setDate t d = t + (d - getDate t) * 86400000.
Proof.
  unfold setDate. change (@makeDate UTC.calendar) with UTC.utcMakeDate.
  rewrite makeDate_split. rewrite timeOfDay_of.
  fold (getFullYear t) (getMonth t). rewrite monthStart_of. lia.
Qed.

Lemma setHours_at t h mi s ms :
  setHours t h mi s ms
  = dayStart t + (h * 3600000 + mi * 60000 + s * 1000 + ms).
Proof.
  unfold setHours. change (@makeDate UTC.calendar) with UTC.utcMakeDate.
  rewrite makeDate_split.
  fold (getFullYear t) (getMonth t) (getDate t). rewrite monthStart_of. lia.
Qed.

Lemma dayStart_shift t k :
  dayStart (dayStart t + k * 86400000) = dayStart t + k * 86400000.
Proof.
  unfold dayStart.
  replace (t / 86400000 * 86400000 + k * 86400000)
    with ((t / 86400000 + k) * 86400000) by lia.
  now rewrite Z.div_mul by lia.
Qed.

Lemma dayStart_le t : dayStart t <= t < dayStart t + 86400000.
Proof.
  unfold dayStart. pose proof (Z.div_mod t 86400000 ltac:(lia)).
  pose proof (Z.mod_pos_bound t 86400000 ltac:(lia)). lia.
Qed.



Ltac eqbs :=
  repeat match goal with
         | |- context [String.eqb ?a ?b] =>
             let v := eval vm_compute in (String.eqb a b) in
             change (String.eqb a b) with v
         end;
  cbv beta iota.

Lemma getDay_eq t : getDay t = (t / 86400000 + 4) mod 7.
Proof. reflexivity. Qed.

Lemma dayStart_mul k : dayStart (k * 86400000) = k * 86400000.
Proof. unfold dayStart. now rewrite Z.div_mul by lia. Qed.

Lemma tools_today now :
  Tools.getDateRangeForPeriod now "today"
  = Return {| Tools.start_date := dayStart now; Tools.end_date := now |}.
Proof.
  unfold Tools.getDateRangeForPeriod. cbv zeta. eqbs.
  rewrite newDate3_today. reflexivity.
Qed.

Lemma tools_yesterday now :
  Tools.getDateRangeForPeriod now "yesterday"
  = Return {| Tools.start_date := dayStart now - 86400000;
              Tools.end_date := dayStart now - 1 |}.
Proof.
  unfold Tools.getDateRangeForPeriod. cbv zeta. eqbs.
  rewrite newDate3_today, setDate_shift. do 2 f_equal.
  generalize (getDate (dayStart now)) (dayStart now). intros; lia.
Qed.

Lemma tools_this_week now :
  Tools.getDateRangeForPeriod now "this_week"
  = Return {| Tools.start_date := dayStart now - getDay now * 86400000;
              Tools.end_date := now |}.
Proof.
  unfold Tools.getDateRangeForPeriod. cbv zeta. eqbs.
  rewrite newDate3_today, setDate_shift.
  destruct (fields_of_dayStart now) as (_ & _ & _ & Hd). rewrite Hd.
  do 2 f_equal.
  generalize (getDate (dayStart now)) (dayStart now) (getDay now).
  intros; lia.
Qed.

Lemma tools_last_week now :
  Tools.getDateRangeForPeriod now "last_week"
  = Return {| Tools.start_date :=
                dayStart now - getDay now * 86400000 - 7 * 86400000;
              Tools.end_date := dayStart now - getDay now * 86400000 - 1 |}.
Proof.
  unfold Tools.getDateRangeForPeriod. cbv zeta. eqbs.
  rewrite newDate3_today, setHours_at, !setDate_shift.
  destruct (fields_of_dayStart now) as (_ & _ & _ & Hd). rewrite Hd.
  replace (dayStart now
           + (getDate (dayStart now) - getDay now - 1
              - getDate (dayStart now)) * 86400000)
    with (dayStart now + (- getDay now - 1) * 86400000)
    by (generalize (getDate (dayStart now)) (dayStart now) (getDay now);
        intros; lia).
  rewrite dayStart_shift. f_equal. f_equal.
  - generalize (getDate (dayStart now)) (dayStart now) (getDay now).
    intros; lia.
  - generalize (dayStart now) (getDay now). intros; lia.
Qed.

Lemma tools_this_month now :
  Tools.getDateRangeForPeriod now "this_month"
  = Return {| Tools.start_date :=
                dayStart now - (getDate now - 1) * 86400000;
              Tools.end_date := now |}.
Proof.
  unfold Tools.getDateRangeForPeriod. cbv zeta. eqbs.
  unfold newDate3. change (@makeDate UTC.calendar) with UTC.utcMakeDate.
  rewrite monthStart_of. reflexivity.
Qed.


Lemma tools_last_month now :
  Tools.getDateRangeForPeriod now "last_month"
  = Return {| Tools.start_date :=
                UTC.utcMakeDate (getFullYear now) (getMonth now - 1) 1 0 0 0 0;
              Tools.end_date :=
                dayStart now - (getDate now - 1) * 86400000 - 1 |}.
Proof.
  unfold Tools.getDateRangeForPeriod. cbv zeta. eqbs.
  unfold newDate3. change (@makeDate UTC.calendar) with UTC.utcMakeDate.
  rewrite (makeDate_split _ _ 0 23 59 59 999), monthStart_of.
  do 2 f_equal. generalize (dayStart now) (getDate now). intros; lia.
Qed.

(** The month before starts 28 to 31 days before the month. *)
Lemma lastMonth_length now :
  28 * 86400000
  <= dayStart now - (getDate now - 1) * 86400000
     - UTC.utcMakeDate (getFullYear now) (getMonth now - 1) 1 0 0 0 0
  <= 31 * 86400000.
Proof.
  rewrite <- monthStart_of.
  pose proof (@month_before (getFullYear now) (getMonth now)
                (month_range now)) as H.
  revert H. unfold UTC.utcMakeDate, UTC.msPerDay.
  fold (getMonth now).
  generalize (UTC.dayFromYearMonth (getFullYear now) (getMonth now))
    (UTC.dayFromYearMonth (getFullYear now) (getMonth now - 1)).
  intros; lia.
Qed.



(** Year of era from day of era, for the first day of a month. *)
Lemma yoe_of_doe yoe mp :
  0 <= yoe <= 399 -> 0 <= mp <= 11 ->
  let doe := yoe * 365 + yoe / 4 - yoe / 100 + (153 * mp + 2) / 5 in
  (doe - doe / 1460 + doe / 36524 - doe / 146096) / 365 = yoe.
Proof.
  intros Hy Hm doe. subst doe.
  Z.div_mod_to_equations. lia.
Qed.

(** The local view of the first of a month, from the day number. *)
Lemma first_of_month_view era yoe mp r :
  0 <= yoe <= 399 -> 0 <= mp <= 11 -> 0 <= r < 86400000 ->
  let doe := yoe * 365 + yoe / 4 - yoe / 100 + (153 * mp + 2) / 5 in
  let l := UTC.utcLocalTime ((era * 146097 + doe - 719468) * 86400000 + r) in
  year l = yoe + era * 400 + (if mp <? 10 then 0 else 1)
  /\ month l = (if mp <? 10 then mp + 2 else mp - 10)
  /\ date l = 1.
Proof.
  intros Hy Hm Hr doe l. subst l.
  unfold UTC.utcLocalTime, UTC.msPerDay. cbn [year month date].
  replace (((era * 146097 + doe - 719468) * 86400000 + r) / 86400000)
    with (era * 146097 + doe - 719468) by (dm; lia).
  replace (era * 146097 + doe - 719468 + 719468) with (era * 146097 + doe)
    by lia.
  assert (Hdoe : 0 <= doe <= 146096) by (subst doe; dm; lia).
  replace ((era * 146097 + doe) / 146097) with era by (dm; lia).
  replace (era * 146097 + doe - era * 146097) with doe by lia.
  pose proof (@yoe_of_doe yoe mp Hy Hm) as Hyoe. cbv zeta in Hyoe.
  fold doe in Hyoe. rewrite Hyoe.
  replace (doe - (365 * yoe + yoe / 4 - yoe / 100)) with ((153 * mp + 2) / 5)
    by (subst doe; lia).
  replace ((5 * ((153 * mp + 2) / 5) + 2) / 153) with mp by (dm; lia).
  replace ((153 * mp + 2) / 5 - (153 * mp + 2) / 5 + 1) with 1 by lia.
  destruct (Z.ltb_spec mp 10) as [Hlt|Hge].
  - replace (mp + 3 <=? 2) with false by (symmetry; apply Z.leb_gt; lia).
    repeat split; lia.
  - replace (mp - 9 <=? 2) with true by (symmetry; apply Z.leb_le; lia).
    repeat split; lia.
Qed.

(** The local view of the first of month [m] of year [y]. *)
Lemma monthStart_view y m :
  0 <= m <= 11 ->
  year (UTC.utcLocalTime (UTC.utcMakeDate y m 1 0 0 0 0)) = y
  /\ month (UTC.utcLocalTime (UTC.utcMakeDate y m 1 0 0 0 0)) = m
  /\ date (UTC.utcLocalTime (UTC.utcMakeDate y m 1 0 0 0 0)) = 1.
Proof.
  intros Hm.
  set (y' := if m <=? 1 then y - 1 else y).
  set (mp := if m <=? 1 then m + 10 else m - 2).
  set (era := y' / 400). set (yoe := y' - era * 400).
  assert (Hmp : 0 <= mp <= 11)
    by (subst mp; destruct (Z.leb_spec m 1); lia).
  assert (Hyoe : 0 <= yoe <= 399) by (subst yoe era; dm; lia).
  assert (E : UTC.utcMakeDate y m 1 0 0 0 0
              = (era * 146097
                 + (yoe * 365 + yoe / 4 - yoe / 100 + (153 * mp + 2) / 5)
                 - 719468) * 86400000 + 0).
  { unfold UTC.utcMakeDate, UTC.dayFromYearMonth, UTC.msPerDay.
    replace (m / 12) with 0 by (dm; lia).
    replace (m mod 12 + 1) with (m + 1) by (dm; lia).
    subst yoe era y' mp.
    destruct (Z.leb_spec m 1) as [H1|H1].
    - replace (m + 1 <=? 2) with true by (symmetry; apply Z.leb_le; lia).
      replace (2 <? m + 1) with false by (symmetry; apply Z.ltb_ge; lia).
      replace (y + 0 - 1) with (y - 1) by lia.
      replace (m + 1 + 9) with (m + 10) by lia. lia.
    - replace (m + 1 <=? 2) with false by (symmetry; apply Z.leb_gt; lia).
      replace (2 <? m + 1) with true by (symmetry; apply Z.ltb_lt; lia).
      replace (y + 0) with y by lia.
      replace (m + 1 - 3) with (m - 2) by lia. lia. }
  rewrite E.
  pose proof (@first_of_month_view era yoe mp 0 Hyoe Hmp ltac:(lia)) as V.
  cbv zeta in V. destruct V as (Vy & Vm & Vd).
  rewrite Vy, Vm, Vd. subst yoe era y' mp.
  destruct (Z.leb_spec m 1) as [H1|H1].
  - replace (m + 10 <? 10) with false by (symmetry; apply Z.ltb_ge; lia).
    repeat split; lia.
  - replace (m - 2 <? 10) with true by (symmetry; apply Z.ltb_lt; lia).
    repeat split; lia.
Qed.

(** The first of the month of [t] is the first of that month. *)
Lemma monthStart_fields t :
  getFullYear (dayStart t - (getDate t - 1) * 86400000) = getFullYear t
  /\ getMonth (dayStart t - (getDate t - 1) * 86400000) = getMonth t
  /\ getDate (dayStart t - (getDate t - 1) * 86400000) = 1.
Proof.
  rewrite <- monthStart_of.
  exact (@monthStart_view (getFullYear t) (getMonth t) (month_range t)).
Qed.

(** The Sunday that opens the week of [t] is a Sunday. *)
Lemma weekStart_day t :
  getDay (dayStart t - getDay t * 86400000) = 0.
Proof.
  rewrite !getDay_eq. unfold dayStart.
  replace (t / 86400000 * 86400000 - (t / 86400000 + 4) mod 7 * 86400000)
    with ((t / 86400000 - (t / 86400000 + 4) mod 7) * 86400000) by lia.
  rewrite Z.div_mul by lia.
  generalize (t / 86400000). intros z. dm. lia.
Qed.

Lemma day_bounds t : 0 <= getDay t <= 6.
Proof. exact (day_range t). Qed.

Lemma date_bounds t : 1 <= getDate t <= 31.
Proof. exact (date_range t). Qed.



Lemma summary_today now :
  Summary.getDateRangeForPeriod now "today"
  = {| Summary.start_date := JS.toString (dayStart now);
       Summary.end_date := JS.toString now |}.
Proof.
  unfold Summary.getDateRangeForPeriod. cbv zeta. eqbs.
  rewrite newDate3_today. reflexivity.
Qed.

Lemma summary_yesterday now :
  Summary.getDateRangeForPeriod now "yesterday"
  = {| Summary.start_date := JS.toString (dayStart now - 86400000);
       Summary.end_date := JS.toString (dayStart now) |}.
Proof.
  unfold Summary.getDateRangeForPeriod. cbv zeta. eqbs.
  rewrite newDate3_today, setDate_shift. do 2 f_equal.
  generalize (getDate (dayStart now)) (dayStart now). intros; lia.
Qed.

Lemma summary_this_week now :
  Summary.getDateRangeForPeriod now "this_week"
  = {| Summary.start_date :=
         JS.toString (dayStart now - getDay now * 86400000);
       Summary.end_date := JS.toString now |}.
Proof.
  unfold Summary.getDateRangeForPeriod. cbv zeta. eqbs.
  rewrite newDate3_today, setDate_shift.
  destruct (fields_of_dayStart now) as (_ & _ & _ & Hd). rewrite Hd.
  do 2 f_equal.
  generalize (getDate (dayStart now)) (dayStart now) (getDay now).
  intros; lia.
Qed.

Lemma summary_last_week now :
  Summary.getDateRangeForPeriod now "last_week"
  = {| Summary.start_date :=
         JS.toString (dayStart now - getDay now * 86400000 - 7 * 86400000);
       Summary.end_date :=
         JS.toString (dayStart now - getDay now * 86400000 - 1) |}.
Proof.
  unfold Summary.getDateRangeForPeriod. cbv zeta. eqbs.
  rewrite newDate3_today, setHours_at, !setDate_shift.
  destruct (fields_of_dayStart now) as (_ & _ & _ & Hd). rewrite Hd.
  replace (dayStart now
           + (getDate (dayStart now) - getDay now - 7
              - getDate (dayStart now)) * 86400000)
    with (dayStart now + (- getDay now - 7) * 86400000)
    by (generalize (getDate (dayStart now)) (dayStart now) (getDay now);
        intros; lia).
  generalize (getDate (dayStart now + (- getDay now - 7) * 86400000)).
  intros g.
  replace (dayStart now + (- getDay now - 7) * 86400000
           + (g + 6 - g) * 86400000)
    with (dayStart now + (- getDay now - 1) * 86400000)
    by (generalize (dayStart now) (getDay now); intros; lia).
  rewrite dayStart_shift. f_equal; f_equal.
  - generalize (dayStart now) (getDay now). intros; lia.
  - generalize (dayStart now) (getDay now). intros; lia.
Qed.

Lemma summary_this_month now :
  Summary.getDateRangeForPeriod now "this_month"
  = {| Summary.start_date :=
         JS.toString (dayStart now - (getDate now - 1) * 86400000);
       Summary.end_date := JS.toString now |}.
Proof.
  unfold Summary.getDateRangeForPeriod. cbv zeta. eqbs.
  rewrite newDate3_today.
  destruct (fields_of_dayStart now) as (Hy & Hm & _ & _). rewrite Hy, Hm.
  unfold newDate3. change (@makeDate UTC.calendar) with UTC.utcMakeDate.
  rewrite monthStart_of. reflexivity.
Qed.

Lemma summary_last_month now :
  Summary.getDateRangeForPeriod now "last_month"
  = {| Summary.start_date :=
         JS.toString
           (UTC.utcMakeDate (getFullYear now) (getMonth now - 1) 1 0 0 0 0);
       Summary.end_date :=
         JS.toString (dayStart now - (getDate now - 1) * 86400000 - 1) |}.
Proof.
  unfold Summary.getDateRangeForPeriod. cbv zeta. eqbs.
  rewrite newDate3_today.
  destruct (fields_of_dayStart now) as (Hy & Hm & _ & _). rewrite Hy, Hm.
  rewrite setHours_at.
  unfold newDate3. change (@makeDate UTC.calendar) with UTC.utcMakeDate.
  rewrite (makeDate_split _ _ 0 0 0 0 0), monthStart_of.
  replace (dayStart now - (getDate now - 1) * 86400000 + (0 - 1) * 86400000
           + (0 * 3600000 + 0 * 60000 + 0 * 1000 + 0))
    with (dayStart now + (- getDate now) * 86400000)
    by (generalize (dayStart now) (getDate now); intros; lia).
  rewrite dayStart_shift. do 2 f_equal.
  generalize (dayStart now) (getDate now); intros; lia.
Qed.


End CalendarFacts.

Module RangeFacts.

Import Days CalendarFacts.

(** The six ranges of the report tool's resolver on the UTC host. *)
Lemma tools_ranges now period r :
  Tools.getDateRangeForPeriod (cal := UTC.calendar) now period = Return r ->
  (period = "today"
   /\ r = {| Tools.start_date := dayStart now; Tools.end_date := now |})
  \/ (period = "yesterday"
      /\ r = {| Tools.start_date := dayStart now - 86400000;
                Tools.end_date := dayStart now - 1 |})
  \/ (period = "this_week"
      /\ r = {| Tools.start_date :=
                  dayStart now
                  - DateOps.getDay (cal := UTC.calendar) now * 86400000;
                Tools.end_date := now |})
  \/ (period = "last_week"
      /\ r = {| Tools.start_date :=
                  dayStart now
                  - DateOps.getDay (cal := UTC.calendar) now * 86400000
                  - 7 * 86400000;
                Tools.end_date :=
                  dayStart now
                  - DateOps.getDay (cal := UTC.calendar) now * 86400000
                  - 1 |})
  \/ (period = "this_month"
      /\ r = {| Tools.start_date :=
                  dayStart now
                  - (DateOps.getDate (cal := UTC.calendar) now - 1)
                    * 86400000;
                Tools.end_date := now |})
  \/ (period = "last_month"
      /\ r = {| Tools.start_date :=
                  UTC.utcMakeDate
                    (DateOps.getFullYear (cal := UTC.calendar) now)
                    (DateOps.getMonth (cal := UTC.calendar) now - 1)
                    1 0 0 0 0;
                Tools.end_date :=
                  dayStart now
                  - (DateOps.getDate (cal := UTC.calendar) now - 1)
                    * 86400000
                  - 1 |}).
Proof.
  intros H.
  destruct (String.eqb_spec period "today") as [->|N1].
  { rewrite tools_today in H. injection H as <-. tauto. }
  destruct (String.eqb_spec period "yesterday") as [->|N2].
  { rewrite tools_yesterday in H. injection H as <-. tauto. }
  destruct (String.eqb_spec period "this_week") as [->|N3].
  { rewrite tools_this_week in H. injection H as <-. tauto. }
  destruct (String.eqb_spec period "last_week") as [->|N4].
  { rewrite tools_last_week in H. injection H as <-. tauto. }
  destruct (String.eqb_spec period "this_month") as [->|N5].
  { rewrite tools_this_month in H. injection H as <-. tauto. }
  destruct (String.eqb_spec period "last_month") as [->|N6].
  { rewrite tools_last_month in H. injection H as <-. tauto. }
  rewrite PeriodFacts.tools_unknown_period in H; [discriminate|].
  unfold SpecSide.reportPeriods. simpl. intuition congruence.
Qed.

End RangeFacts.

(** X4: on a host whose time zone is UTC, every range that the report
    tool's resolver returns for an instant not before 1970 is well formed:
    it starts no later than it ends, ends no later than that instant, and
    starts less than 62 days before it. *)
Theorem X4_report_ranges_are_well_formed :
  forall now period r,
    0 <= now ->
    Tools.getDateRangeForPeriod (cal := UTC.calendar) now period = Return r ->
    Tools.start_date r <= Tools.end_date r
    /\ Tools.end_date r <= now
    /\ now - Tools.start_date r < 62 * 86400000.
Proof.
  intros now period r Hnow H.
  pose proof (CalendarFacts.dayStart_le now) as Hd.
  pose proof (CalendarFacts.day_bounds now) as Hw.
  pose proof (CalendarFacts.date_bounds now) as Hm.
  pose proof (CalendarFacts.lastMonth_length now) as Hl.
  revert Hd Hw Hm Hl.
  destruct (@RangeFacts.tools_ranges now period r H)
    as [[_ ->]|[[_ ->]|[[_ ->]|[[_ ->]|[[_ ->]|[_ ->]]]]]];
    cbn [Tools.start_date Tools.end_date];
    generalize (Days.dayStart now)
      (DateOps.getDay (cal := UTC.calendar) now)
      (DateOps.getDate (cal := UTC.calendar) now)
      (UTC.utcMakeDate (DateOps.getFullYear (cal := UTC.calendar) now)
         (DateOps.getMonth (cal := UTC.calendar) now - 1) 1 0 0 0 0);
    intros; lia.
Qed.

(** X4, witness: Tuesday 2023-11-14 22:13:20 UTC, last month: October,
    from 2023-10-01 00:00:00.000 to 2023-10-31 23:59:59.999. *)
Lemma X4_report_ranges_witness :
  Tools.getDateRangeForPeriod (cal := UTC.calendar) 1700000000000 "last_month"
  = Return {| Tools.start_date := 1696118400000;
              Tools.end_date := 1698796799999 |}
  /\ 1696118400000 <= 1698796799999
  /\ 1698796799999 <= 1700000000000
  /\ 1700000000000 - 1696118400000 < 62 * 86400000.
Proof.
  split; [reflexivity|].
  apply (@X4_report_ranges_are_well_formed 1700000000000 "last_month"
           {| Tools.start_date := 1696118400000;
              Tools.end_date := 1698796799999 |});
    [lia | reflexivity].
Defined.

(** X5: on a host whose time zone is UTC, the report tool's [last_week] is
    the seven days before its [this_week]: [this_week] starts on a Sunday
    at midnight, no more than seven days before the instant of the request,
    [last_week] starts seven days earlier and ends one millisecond before
    [this_week] starts. *)
Theorem X5_last_week_precedes_this_week :
  forall now thisWeek lastWeek,
    0 <= now ->
    Tools.getDateRangeForPeriod (cal := UTC.calendar) now "this_week"
    = Return thisWeek ->
    Tools.getDateRangeForPeriod (cal := UTC.calendar) now "last_week"
    = Return lastWeek ->
    Tools.end_date lastWeek + 1 = Tools.start_date thisWeek
    /\ Tools.start_date thisWeek - Tools.start_date lastWeek = 7 * 86400000
    /\ DateOps.getDay (cal := UTC.calendar) (Tools.start_date thisWeek) = 0
    /\ Days.dayStart (Tools.start_date thisWeek) = Tools.start_date thisWeek
    /\ Tools.start_date thisWeek <= now < Tools.start_date thisWeek
                                          + 7 * 86400000
    /\ Tools.end_date thisWeek = now.
Proof.
  intros now thisWeek lastWeek Hnow Ht Hl.
  rewrite CalendarFacts.tools_this_week in Ht. injection Ht as <-.
  rewrite CalendarFacts.tools_last_week in Hl. injection Hl as <-.
  cbn [Tools.start_date Tools.end_date].
  pose proof (CalendarFacts.dayStart_le now) as Hd.
  pose proof (CalendarFacts.day_bounds now) as Hw.
  split; [lia|]. split; [lia|].
  split; [apply CalendarFacts.weekStart_day|].
  split.
  - replace (Days.dayStart now
             - DateOps.getDay (cal := UTC.calendar) now * 86400000)
      with (Days.dayStart now
            + (- DateOps.getDay (cal := UTC.calendar) now) * 86400000)
      by lia.
    apply CalendarFacts.dayStart_shift.
  - split; [|reflexivity]. revert Hd Hw.
    generalize (Days.dayStart now)
      (DateOps.getDay (cal := UTC.calendar) now).
    intros; lia.
Qed.

(** X5, witness: Tuesday 2023-11-14 22:13:20 UTC; the week started on
    Sunday 2023-11-12, the week before on Sunday 2023-11-05. *)
Lemma X5_last_week_witness :
  Tools.getDateRangeForPeriod (cal := UTC.calendar) 1700000000000 "this_week"
  = Return {| Tools.start_date := 1699747200000;
              Tools.end_date := 1700000000000 |}
  /\ Tools.getDateRangeForPeriod (cal := UTC.calendar) 1700000000000
       "last_week"
     = Return {| Tools.start_date := 1699142400000;
                 Tools.end_date := 1699747199999 |}
  /\ DateOps.getDay (cal := UTC.calendar) 1699747200000 = 0.
Proof.
  split; [reflexivity|]. split; [reflexivity|].
  exact (proj1 (proj2 (proj2
           (@X5_last_week_precedes_this_week 1700000000000
              {| Tools.start_date := 1699747200000;
                 Tools.end_date := 1700000000000 |}
              {| Tools.start_date := 1699142400000;
                 Tools.end_date := 1699747199999 |}
              ltac:(lia) eq_refl eq_refl)))).
Defined.

(** X6: on a host whose time zone is UTC, the report tool's [last_month]
    is the calendar month before its [this_month]: [this_month] starts on
    the first day of the month of the request, at midnight, [last_month]
    starts 28 to 31 days earlier and ends one millisecond before
    [this_month] starts. *)
Theorem X6_last_month_precedes_this_month :
  forall now thisMonth lastMonth,
    0 <= now ->
    Tools.getDateRangeForPeriod (cal := UTC.calendar) now "this_month"
    = Return thisMonth ->
    Tools.getDateRangeForPeriod (cal := UTC.calendar) now "last_month"
    = Return lastMonth ->
    Tools.end_date lastMonth + 1 = Tools.start_date thisMonth
    /\ 28 * 86400000
       <= Tools.start_date thisMonth - Tools.start_date lastMonth
       <= 31 * 86400000
    /\ DateOps.getDate (cal := UTC.calendar) (Tools.start_date thisMonth) = 1
    /\ DateOps.getMonth (cal := UTC.calendar) (Tools.start_date thisMonth)
       = DateOps.getMonth (cal := UTC.calendar) now
    /\ DateOps.getFullYear (cal := UTC.calendar) (Tools.start_date thisMonth)
       = DateOps.getFullYear (cal := UTC.calendar) now
    /\ Days.dayStart (Tools.start_date thisMonth) = Tools.start_date thisMonth
    /\ Tools.start_date thisMonth <= now
    /\ Tools.end_date thisMonth = now.
Proof.
  intros now thisMonth lastMonth Hnow Ht Hl.
  rewrite CalendarFacts.tools_this_month in Ht. injection Ht as <-.
  rewrite CalendarFacts.tools_last_month in Hl. injection Hl as <-.
  cbn [Tools.start_date Tools.end_date].
  pose proof (CalendarFacts.dayStart_le now) as Hd.
  pose proof (CalendarFacts.date_bounds now) as Hm.
  destruct (CalendarFacts.monthStart_fields now) as (Fy & Fm & Fd).
  split; [lia|]. split; [apply CalendarFacts.lastMonth_length|].
  split; [exact Fd|]. split; [exact Fm|]. split; [exact Fy|].
  split.
  - replace (Days.dayStart now
             - (DateOps.getDate (cal := UTC.calendar) now - 1) * 86400000)
      with (Days.dayStart now
            + (- (DateOps.getDate (cal := UTC.calendar) now - 1))
              * 86400000)
      by lia.
    apply CalendarFacts.dayStart_shift.
  - split; [|reflexivity]. revert Hd Hm.
    generalize (Days.dayStart now)
      (DateOps.getDate (cal := UTC.calendar) now).
    intros; lia.
Qed.

(** X6, witness: Tuesday 2023-11-14 22:13:20 UTC; November started at
    1698796800000, October at 1696118400000. *)
Lemma X6_last_month_witness :
  Tools.getDateRangeForPeriod (cal := UTC.calendar) 1700000000000
    "this_month"
  = Return {| Tools.start_date := 1698796800000;
              Tools.end_date := 1700000000000 |}
  /\ Tools.getDateRangeForPeriod (cal := UTC.calendar) 1700000000000
       "last_month"
     = Return {| Tools.start_date := 1696118400000;
                 Tools.end_date := 1698796799999 |}
  /\ 1698796799999 + 1 = 1698796800000.
Proof.
  split; [reflexivity|]. split; [reflexivity|].
  exact (proj1
           (@X6_last_month_precedes_this_month 1700000000000
              {| Tools.start_date := 1698796800000;
                 Tools.end_date := 1700000000000 |}
              {| Tools.start_date := 1696118400000;
                 Tools.end_date := 1698796799999 |}
              ltac:(lia) eq_refl eq_refl)).
Defined.

(** X7: on a host whose time zone is UTC, the resolver of the summary tool
    returns, as decimal text, the very range the resolver of the report
    tool returns, for each of the six periods and every instant not before
    1970, but for the end of [yesterday], which it puts one millisecond
    later. *)
Theorem X7_resolvers_agree_but_for_yesterday :
  forall now period r,
    0 <= now ->
    Tools.getDateRangeForPeriod (cal := UTC.calendar) now period = Return r ->
    Summary.getDateRangeForPeriod (cal := UTC.calendar) now period
    = {| Summary.start_date := JS.toString (Tools.start_date r);
         Summary.end_date :=
           JS.toString (if String.eqb period "yesterday"
                        then Tools.end_date r + 1
                        else Tools.end_date r) |}.
Proof.
  intros now period r Hnow H.
  destruct (@RangeFacts.tools_ranges now period r H)
    as [[-> ->]|[[-> ->]|[[-> ->]|[[-> ->]|[[-> ->]|[-> ->]]]]]];
    cbn [Tools.start_date Tools.end_date String.eqb Ascii.eqb Bool.eqb].
  - apply CalendarFacts.summary_today.
  - rewrite CalendarFacts.summary_yesterday. do 2 f_equal. lia.
  - apply CalendarFacts.summary_this_week.
  - apply CalendarFacts.summary_last_week.
  - apply CalendarFacts.summary_this_month.
  - apply CalendarFacts.summary_last_month.
Qed.

(** X7, witness: Tuesday 2023-11-14 22:13:20 UTC, last week. *)
Lemma X7_resolvers_agree_witness :
  Summary.getDateRangeForPeriod (cal := UTC.calendar) 1700000000000
    "last_week"
  = {| Summary.start_date := "1699142400000";
       Summary.end_date := "1699747199999" |}.
Proof.
  exact (@X7_resolvers_agree_but_for_yesterday 1700000000000 "last_week"
           {| Tools.start_date := 1699142400000;
              Tools.end_date := 1699747199999 |}
           ltac:(lia) eq_refl).
Defined.

Module DisplayFacts.

Import AsyncFacts Summary.

Section Handler.
Context {cal : Calendar}.
Variable W : Type.
Variable clock : W -> Z.
Variable getTimeTrackingReport : DateRange -> Async W (option TimeReport).
Variable getTask : string -> Async W TaskDetail.
Variable getTimeEntries : Filters -> Async W (list TimeEntry).

(** Every range of the summary tool's resolver is a pair of instants,
    written in decimal. *)
Lemma range_of_instants now period :
  exists a b,
    getDateRangeForPeriod now period
    = {| start_date := JS.toString a; end_date := JS.toString b |}.
Proof.
  unfold getDateRangeForPeriod.
  repeat match goal with
         | |- context [if String.eqb period ?s then _ else _] =>
             destruct (String.eqb period s)
         end; eexists; eexists; reflexivity.
Qed.

Lemma formatDateOf_toString z : formatDateOf (JS.toString z) = formatDate z.
Proof. unfold formatDateOf. now rewrite ParseFacts.parseInt_toString. Qed.

(** The header of an answered summary. *)
Lemma handler_header parameters w body w' :
  handleGetTimeTrackingSummary clock getTimeTrackingReport getTask
    getTimeEntries parameters w
  = (Return (SummaryOk body), w') ->
  exists dateRange,
    resolveRange (clock w) parameters = Return dateRange
    /\ sb_start body = formatDateOf (start_date dateRange)
    /\ sb_end body = formatDateOf (end_date dateRange)
    /\ sb_period body = periodText (sp_period parameters)
    /\ sb_totalTimeFormatted body = formatDuration (sb_totalTime body).
Proof.
  unfold handleGetTimeTrackingSummary, tryCatch.
  match goal with
  | |- (match ?m w with _ => _ end) = _ -> _ =>
      destruct (m w) as [[r|e] w1] eqn:E
  end; [|unfold ret; intros H; inversion H].
  intros H. inversion H; subst r w1. clear H.
  apply bind_inv in E. destruct E as (now & w1 & Hn & E).
  unfold Tools.getNow in Hn. inversion Hn; subst now w1. clear Hn.
  apply bind_inv in E. destruct E as (dateRange & w2 & Hd & E).
  unfold lift in Hd. inversion Hd; subst w2.
  apply bind_inv in E. destruct E as (report & w3 & Hr & E).
  apply bind_inv in E. destruct E as ([total items] & w4 & Hc & E).
  unfold ret in E. inversion E; subst.
  exists dateRange. repeat split; assumption.
Qed.

End Handler.
End DisplayFacts.

(** X8: for every period other than ['custom'], the start and the end that
    an answered summary displays are the renderings of the two instants of
    the resolved range: the decimal text the resolver produces reads back
    as the instant it was made from, so the header never shows "Invalid
    Date". *)
Theorem X8_summary_header_shows_the_range :
  forall (cal : Calendar) (W : Type) (clock : W -> Z)
    (getTimeTrackingReport : Summary.DateRange -> Async W (option TimeReport))
    (getTask : string -> Async W TaskDetail)
    (getTimeEntries : Summary.Filters -> Async W (list TimeEntry))
    parameters w body w',
    String.eqb (Summary.sp_period parameters) "custom" = false ->
    Summary.handleGetTimeTrackingSummary clock getTimeTrackingReport getTask
      getTimeEntries parameters w
    = (Return (Summary.SummaryOk body), w') ->
    exists a b,
      Summary.getDateRangeForPeriod (clock w) (Summary.sp_period parameters)
      = {| Summary.start_date := JS.toString a;
           Summary.end_date := JS.toString b |}
      /\ Summary.sb_start body = Summary.formatDate a
      /\ Summary.sb_end body = Summary.formatDate b.
Proof.
  intros cal W clock getReport getTask getEntries parameters w body w' Hp H.
  apply DisplayFacts.handler_header in H.
  destruct H as (dateRange & Hr & Hs & He & _).
  unfold Summary.resolveRange in Hr. rewrite Hp in Hr.
  injection Hr as <-.
  destruct (DisplayFacts.range_of_instants (clock w)
              (Summary.sp_period parameters)) as (a & b & E).
  exists a, b. split; [exact E|].
  rewrite Hs, He, E. cbn [Summary.start_date Summary.end_date].
  now rewrite !DisplayFacts.formatDateOf_toString.
Qed.

(** X8, witness: the demo report for today, Tuesday 2023-11-14 22:13:20
    UTC. *)
Lemma X8_summary_header_witness :
  exists body w',
    Summary.handleGetTimeTrackingSummary (cal := UTC.calendar)
      Demo.w_now (Demo.getTimeTrackingReport (Some Demo.report))
      Demo.getTask Demo.getTimeEntries
      {| Summary.sp_period := "today"; Summary.sp_start_date := None;
         Summary.sp_end_date := None; Summary.sp_groupBy := None |}
      Demo.world
    = (Return (Summary.SummaryOk body), w')
    /\ Summary.sb_start body = "11/14/2023, 0:0:0"
    /\ Summary.sb_end body = "11/14/2023, 22:13:20"
    /\ exists a b,
        Summary.getDateRangeForPeriod (cal := UTC.calendar)
          (Demo.w_now Demo.world) "today"
        = {| Summary.start_date := JS.toString a;
             Summary.end_date := JS.toString b |}
        /\ Summary.sb_start body = Summary.formatDate (cal := UTC.calendar) a
        /\ Summary.sb_end body = Summary.formatDate (cal := UTC.calendar) b.
Proof.
  eexists. eexists.
  assert (H : Summary.handleGetTimeTrackingSummary (cal := UTC.calendar)
                Demo.w_now (Demo.getTimeTrackingReport (Some Demo.report))
                Demo.getTask Demo.getTimeEntries
                {| Summary.sp_period := "today";
                   Summary.sp_start_date := None;
                   Summary.sp_end_date := None;
                   Summary.sp_groupBy := None |}
                Demo.world
              = (Return (Summary.SummaryOk _), _))
    by (vm_compute; reflexivity).
  split; [exact H|]. split; [reflexivity|]. split; [reflexivity|].
  exact (@X8_summary_header_shows_the_range UTC.calendar _ _ _ _ _
           {| Summary.sp_period := "today"; Summary.sp_start_date := None;
              Summary.sp_end_date := None; Summary.sp_groupBy := None |}
           _ _ _ eq_refl H).
Defined.

(* ================================================================== *)
(** * Listing and adding time entries                                  *)
(* ================================================================== *)

Module EntryFacts.

Import AsyncFacts Entries EntryMeasures.

Section Rejections.
Variable W : Type.




End Rejections.


Section Handlers.
Context {cal : Calendar} {fold : JS.CaseMapping}.
Variable W : Type.
Variable clock : W -> Z.
Variable getWorkspaceHierarchy : Async W Hierarchy.
Variable findIDByNameInHierarchy :
  Hierarchy -> string -> NodeType -> option (string * string).
Variable getTasks : string -> Async W (list Task).
Variable getTimeTrackingReport : TrackingFilters -> Async W (option TimeReport).
Variable getTimeEntries : TrackingFilters -> Async W (list TimeEntry).
Variable addTimeEntry :
  string -> option Z -> Z -> Summary.StartTimerOptions -> Async W TimeEntry.









End Handlers.

(** [parseInt] stops at the first character that is not a digit: text
    that begins with a numeral and a hyphen reads as the numeral. *)
Lemma digits_step_any k c l a :
  JS.digitOf 10 c = Some k ->
  JS.digitsFrom 10 (Some a) (c :: l) = JS.digitsFrom 10 (Some (10 * a + k)) l.
Proof. intros H. cbn [JS.digitsFrom]. now rewrite H. Qed.

Lemma digits_then_hyphen d rest : forall acc,
  JS.digitsFrom 10 (Some (Z.pos acc))
    (list_ascii_of_string (NilEmpty.string_of_uint d ++ String "-" rest))
  = Some (Z.pos (Pos.of_uint_acc d acc)).
Proof.
  induction d; intros acc; [reflexivity|..];
    cbn [NilEmpty.string_of_uint String.append list_ascii_of_string];
    (erewrite digits_step_any by (vm_compute; reflexivity));
    cbn [Pos.of_uint_acc]; rewrite <- IHd;
    (apply f_equal2; [|reflexivity]); apply f_equal; lia.
Qed.

Lemma digits_then_hyphen_zero d rest :
  JS.digitsFrom 10 (Some 0)
    (list_ascii_of_string (NilEmpty.string_of_uint d ++ String "-" rest))
  = Some (Z.of_N (Pos.of_uint d)).
Proof.
  induction d; [reflexivity|..];
    cbn [NilEmpty.string_of_uint String.append list_ascii_of_string];
    (erewrite digits_step_any by (vm_compute; reflexivity)); cbn [Pos.of_uint];
    [exact IHd|..]; apply digits_then_hyphen.
Qed.

Lemma parseInt_then_hyphen d rest :
  d <> Decimal.Nil ->
  JS.parseInt (NilEmpty.string_of_uint d ++ String "-" rest)
  = Some (Z.of_N (Pos.of_uint d)).
Proof.
  intros H.
  transitivity
    (match JS.digitsFrom 10 None
             (list_ascii_of_string
                (NilEmpty.string_of_uint d ++ String "-" rest)) with
     | Some v => Some v
     | None => None
     end).
  - destruct d as [|d|d|d|d|d|d|d|d|d|d]; [congruence|..];
      destruct d; reflexivity.
  - replace (JS.digitsFrom 10 None
               (list_ascii_of_string
                  (NilEmpty.string_of_uint d ++ String "-" rest)))
      with (JS.digitsFrom 10 (Some 0)
              (list_ascii_of_string
                 (NilEmpty.string_of_uint d ++ String "-" rest)))
      by (destruct d; [congruence|..]; reflexivity).
    now rewrite digits_then_hyphen_zero.
Qed.

(** A date written year first reads as the number of its year. *)
Lemma parseInt_year_first y rest :
  0 <= y -> JS.parseInt (JS.toString y ++ String "-" rest) = Some y.
Proof.
  intros Hy. unfold JS.toString. destruct y as [|p|p]; [reflexivity| |lia].
  cbn [Z.to_int NilZero.string_of_int].
  pose proof (Unsigned.to_uint_nonnil p) as Hn.
  replace (NilZero.string_of_uint (Pos.to_uint p))
    with (NilEmpty.string_of_uint (Pos.to_uint p))
    by (destruct (Pos.to_uint p); [congruence|..]; reflexivity).
  rewrite parseInt_then_hyphen by exact Hn.
  now rewrite DecimalPos.Unsigned.of_to.
Qed.

End EntryFacts.







(** X12: a start or a date given as text is read by [parseInt], which
    stops at the first character that is not a digit: a date written year
    first, such as an ISO date, is read as the number of its year, that
    many milliseconds after the epoch, by [handleAddTimeEntry] for the
    start of the entry and by the date displays of the handlers. *)
Theorem X12_year_first_date_reads_as_its_year :
  forall (cal : Calendar) (W : Type) (clock : W -> Z) y rest w,
    0 <= y ->
    JS.parseInt (JS.toString y ++ String "-" rest) = Some y
    /\ Entries.startTimeOf clock
         (Some (Entries.StartText (JS.toString y ++ String "-" rest))) w
       = (Return (Some y), w)
    /\ Summary.formatDateOf (JS.toString y ++ String "-" rest)
       = Summary.formatDate y
    /\ Entries.rangeText (Some (JS.toString y ++ String "-" rest))
       = Some (Summary.formatDate y).
Proof.
  intros cal W clock y rest w Hy.
  pose proof (@EntryFacts.parseInt_year_first y rest Hy) as Hp.
  assert (Ht : JS.truthyS (JS.toString y ++ String "-" rest) = true).
  { destruct (JS.toString y ++ String "-" rest) eqn:E; [|reflexivity].
    try rewrite E in Hp. discriminate Hp. }
  split; [exact Hp|]. split; [|split].
  - unfold Entries.startTimeOf. now rewrite Ht, Hp.
  - unfold Summary.formatDateOf. now rewrite Hp.
  - unfold Entries.rangeText, Entries.whenTruthy. cbn [JS.truthyO].
    rewrite Ht. unfold Summary.formatDateOf. now rewrite Hp.
Qed.

(** X12, witness: 1 March 2024, as an ISO date, is read as 2024 ms after
    the epoch. *)
Lemma X12_year_first_date_witness :
  JS.parseInt "2024-03-01T10:00:00Z" = Some 2024
  /\ Entries.startTimeOf Demo.w_now
       (Some (Entries.StartText "2024-03-01T10:00:00Z")) Demo.world
     = (Return (Some 2024), Demo.world)
  /\ Summary.formatDateOf (cal := UTC.calendar) "2024-03-01T10:00:00Z"
     = "1/1/1970, 0:0:2".
Proof.
  destruct (@X12_year_first_date_reads_as_its_year UTC.calendar Demo.World
              Demo.w_now 2024 "03-01T10:00:00Z" Demo.world ltac:(lia))
    as (A & B & C & _).
  split; [exact A|]. split; [exact B|exact C].
Defined.




(* ================================================================== *)
(** * Reading resources                                                *)
(* ================================================================== *)

Module ResourceFacts.

Import AsyncFacts ResourceMeasures.

Lemma truthy_app a b : JS.truthyS a = true -> JS.truthyS (a ++ b) = true.
Proof. destruct a; [discriminate|reflexivity]. Qed.

Lemma truthy_fold {A} (f : string -> A -> string) l :
  (forall s a, JS.truthyS s = true -> JS.truthyS (f s a) = true) ->
  forall s, JS.truthyS s = true -> JS.truthyS (fold_left f l s) = true.
Proof.
  intros Hf. induction l as [|a l IH]; intros s Hs; simpl; [exact Hs|].
  apply IH. now apply Hf.
Qed.

Ltac truthy :=
  repeat first [ reflexivity | assumption | apply truthy_app ].

Section Texts.
Context {cal : Calendar}.
Variable W : Type.
Variable clock : W -> Z.
Variable getTimeTrackingReport :
  Tools.DateRange -> Async W (option TimeReport).
Variable getCurrentTimer : Async W (option TimeEntry).
Variable getTimeEntries : Async W (option (list TimeEntry)).

Lemma current_served :
  served (Resources.getCurrentTimerAsText clock getCurrentTimer).
Proof.
  intros w. unfold Resources.getCurrentTimerAsText, tryCatch, bind, ret,
    Tools.getNow.
  destruct (getCurrentTimer w) as [[[entry|]|e] w1].
  - eexists. eexists. split; [reflexivity|].
    destruct (entry_description entry) as [d|]; [destruct (JS.truthyS d)|];
      destruct (entry_billable entry) as [[|]|];
      destruct (entry_tags entry) as [[|t ts]|]; truthy.
  - eexists. eexists. split; [reflexivity|]. truthy.
  - eexists. eexists. split; [reflexivity|]. truthy.
Qed.

Lemma report_served period :
  served (ResourceTexts.getTimeTrackingReportAsText clock
            getTimeTrackingReport period).
Proof.
  intros w. unfold ResourceTexts.getTimeTrackingReportAsText, tryCatch,
    bind, ret, lift, Tools.getNow.
  destruct (Tools.getDateRangeForPeriod (clock w) period) as [dateRange|e].
  - destruct (getTimeTrackingReport dateRange w) as [[report|e] w1].
    + destruct (Tools.aggregate report) as [totalTime taskSummaries].
      eexists. eexists. split; [reflexivity|].
      destruct taskSummaries as [|t ts]; [truthy|].
      apply truthy_fold; [|truthy].
      intros s a Hs. now apply truthy_app.
    + eexists. eexists. split; [reflexivity|]. truthy.
  - eexists. eexists. split; [reflexivity|]. truthy.
Qed.

Lemma entryText_truthy s entry :
  JS.truthyS s = true ->
  JS.truthyS (ResourceTexts.entryText s entry) = true.
Proof.
  intros Hs. unfold ResourceTexts.entryText.
  destruct (entry_end entry);
    (destruct (entry_description entry) as [d|]; [destruct (JS.truthyS d)|]);
    destruct (entry_billable entry) as [[|]|];
    destruct (entry_tags entry) as [[|t ts]|]; truthy.
Qed.

Lemma history_served count :
  served (ResourceTexts.getTimeTrackingHistoryAsText getTimeEntries count).
Proof.
  intros w. unfold ResourceTexts.getTimeTrackingHistoryAsText, tryCatch,
    bind, ret, throw.
  destruct (getTimeEntries w) as [[[entries|]|e] w1].
  - eexists. eexists. split; [reflexivity|].
    destruct (Prim.slice0 count entries) as [|x xs]; [truthy|].
    apply truthy_fold; [|truthy]. intros; now apply entryText_truthy.
  - eexists. eexists. split; [reflexivity|]. truthy.
  - eexists. eexists. split; [reflexivity|]. truthy.
Qed.

Lemma textOf_served r :
  served (textOf clock getTimeTrackingReport getCurrentTimer getTimeEntries r).
Proof.
  destruct r; [apply report_served|apply current_served|apply history_served].
Qed.

(** The index serves the text of the route of the URI. *)
Lemma getResourceContent_route uri :
  ResourceIndex.getResourceContent clock getTimeTrackingReport
    getCurrentTimer getTimeEntries uri
  = match routeOf uri with
    | Some r =>
        ResourceIndex.found
          (textOf clock getTimeTrackingReport getCurrentTimer getTimeEntries
             r)
    | None => ret None
    end.
Proof.
  unfold ResourceIndex.getResourceContent, routeOf.
  destruct (nth_error (Prim.split "://" uri) 1) as [rest|]; [|reflexivity].
  destruct (Prim.split "/" rest) as [|resourceType [|resourceId parts]];
    try reflexivity.
  destruct (String.eqb resourceType "timetracking"); [|reflexivity].
  repeat match goal with
         | |- context [if String.eqb resourceId ?s then _ else _] =>
             destruct (String.eqb resourceId s); [reflexivity|]
         end.
  reflexivity.
Qed.

Lemma read_routed uri r :
  routeOf uri = Some r ->
  readable (ResourceIndex.readResource clock getTimeTrackingReport
              getCurrentTimer getTimeEntries) uri.
Proof.
  intros Hr w. unfold ResourceIndex.readResource.
  rewrite getResourceContent_route, Hr.
  destruct (textOf_served r w) as (content & w' & Hc & Ht).
  exists content, w'. unfold ResourceIndex.found, bind, ret.
  rewrite Hc, Ht. reflexivity.
Qed.

Lemma read_unrouted uri :
  routeOf uri = None ->
  missing (ResourceIndex.readResource clock getTimeTrackingReport
             getCurrentTimer getTimeEntries) uri.
Proof.
  intros Hr w. unfold ResourceIndex.readResource.
  rewrite getResourceContent_route, Hr. reflexivity.
Qed.

End Texts.
End ResourceFacts.


(** X16: the [ReadResource] handler throws for one reason only: the URI
    leads to no text of the index.  It then throws "Resource not found:
    <uri>" and has asked nothing of the services; a URI that leads to a
    text is always answered. *)
Theorem X16_read_throws_not_found_only :
  forall (cal : Calendar) (W : Type) (clock : W -> Z)
    (getTimeTrackingReport : Tools.DateRange -> Async W (option TimeReport))
    (getCurrentTimer : Async W (option TimeEntry))
    (getTimeEntries : Async W (option (list TimeEntry)))
    uri w e w',
    ResourceIndex.readResource clock getTimeTrackingReport getCurrentTimer
      getTimeEntries uri w = (Throw e, w') ->
    e = PlainError ("Resource not found: " ++ uri)
    /\ w' = w
    /\ ResourceMeasures.routeOf uri = None.
Proof.
  intros cal W clock getReport getTimer getEntries uri w e w' H.
  destruct (ResourceMeasures.routeOf uri) as [r|] eqn:Hr.
  - destruct (@ResourceFacts.read_routed cal W clock getReport getTimer
                getEntries uri r Hr w) as (text & w1 & Ht).
    rewrite Ht in H. discriminate H.
  - rewrite (@ResourceFacts.read_unrouted cal W clock getReport getTimer
               getEntries uri Hr w) in H.
    inversion H. repeat split.
Qed.

(** X16, witness: the report of last week is not a resource. *)
Lemma X16_read_throws_witness :
  DemoResources.readResource "clickup://timetracking/last_week" Demo.world
  = (Throw (PlainError "Resource not found: clickup://timetracking/last_week"),
     Demo.world)
  /\ ResourceMeasures.routeOf "clickup://timetracking/last_week" = None.
Proof.
  assert (H : DemoResources.readResource "clickup://timetracking/last_week"
                Demo.world
              = (Throw (PlainError
                          "Resource not found: clickup://timetracking/last_week"),
                 Demo.world)) by reflexivity.
  split; [exact H|].
  exact (proj2 (proj2 (@X16_read_throws_not_found_only UTC.calendar _ _ _ _ _
                         _ _ _ _ H))).
Defined.

(** X17: the resources the prompts link to.  The links of the
    [manage_timer] and [time_tracking_recommendations] prompts can always
    be read.  The link of [analyze_time_usage] can be read for the periods
    today, yesterday, this_week and this_month; for last_week and
    last_month, which the prompt also documents, it leads to no resource:
    reading it throws "Resource not found". *)
Theorem X17_prompt_links :
  forall (cal : Calendar) (W : Type) (clock : W -> Z)
    (getTimeTrackingReport : Tools.DateRange -> Async W (option TimeReport))
    (getCurrentTimer : Async W (option TimeEntry))
    (getTimeEntries : Async W (option (list TimeEntry))),
    let read :=
      ResourceIndex.readResource clock getTimeTrackingReport getCurrentTimer
        getTimeEntries in
    (forall action taskName,
        match Prompts.handleManageTimerPrompt action taskName with
        | Return messages =>
            Forall (ResourceMeasures.readable read) (Prompts.links messages)
        | Throw _ => True
        end)
    /\ Forall (ResourceMeasures.readable read)
         (Prompts.links Prompts.handleTimeTrackingRecommendationsPrompt)
    /\ Forall
         (fun period =>
            Forall (ResourceMeasures.readable read)
              (Prompts.links (Prompts.handleAnalyzeTimeUsagePrompt period)))
         ["today"; "yesterday"; "this_week"; "this_month"]
    /\ Forall
         (fun period =>
            Prompts.links (Prompts.handleAnalyzeTimeUsagePrompt period)
            = ["clickup://timetracking/" ++ period]
            /\ Forall (ResourceMeasures.missing read)
                 (Prompts.links
                    (Prompts.handleAnalyzeTimeUsagePrompt period)))
         ["last_week"; "last_month"].
Proof.
  intros cal W clock getReport getTimer getEntries read. subst read.
  split; [|split; [|split]].
  - intros action taskName. unfold Prompts.handleManageTimerPrompt.
    destruct (String.eqb action "start").
    { destruct (negb (JS.truthyO taskName)); [exact I|constructor]. }
    destruct (String.eqb action "stop"); [constructor|].
    destruct (String.eqb action "check"); [|exact I].
    repeat constructor.
    now apply ResourceFacts.read_routed
      with (r := ResourceMeasures.CurrentTimer).
  - repeat constructor.
    now apply ResourceFacts.read_routed with (r := ResourceMeasures.History).
  - repeat constructor.
    + now apply ResourceFacts.read_routed
        with (r := ResourceMeasures.ReportOf "today").
    + now apply ResourceFacts.read_routed
        with (r := ResourceMeasures.ReportOf "yesterday").
    + now apply ResourceFacts.read_routed
        with (r := ResourceMeasures.ReportOf "this_week").
    + now apply ResourceFacts.read_routed
        with (r := ResourceMeasures.ReportOf "this_month").
  - repeat constructor; now apply ResourceFacts.read_unrouted.
Qed.
